(** * The events list view: filter, sort, group and paginate

    A shallow embedding of the data pipeline of
    [src/features/events/events-view.tsx] (component [EventsView]):
    the memoised values [filteredEvents], [groupedEvents],
    [paginatedGroupedEvents], [totalPages], [totalUpcomingEvents] and
    [todayEvents], together with the parts of the JavaScript runtime and of
    date-fns they call. *)

From Stdlib Require Import ZArith QArith Qround List String Ascii Bool Lia Lqa.
From Stdlib Require Import Permutation Sorting.Sorted DecimalString.
From Stdlib Require Import OrderedTypeEx.
Import ListNotations.

Set Implicit Arguments.

Close Scope Q_scope.
Open Scope Z_scope.

(* ================================================================== *)
(** ** The JavaScript values the pipeline manipulates *)
(* ================================================================== *)

Module JS.

(** An exception of the runtime; only the two kinds the pipeline can meet. *)
Inductive Error : Type :=
| RangeError
| TypeError.

(** A computation that either returns a value or throws. *)
Inductive Result (A : Type) : Type :=
| Ok (a : A)
| Throw (e : Error).
Arguments Ok {A} a.
Arguments Throw {A} e.

Definition bind {A B : Type} (r : Result A) (k : A -> Result B) : Result B :=
  match r with
  | Ok a => k a
  | Throw e => Throw e
  end.

(** A finite number, or [None] for NaN.  Every finite double is a rational
    and the pipeline only looks at the sign of a difference, which
    floating-point subtraction gives exactly. *)
Definition Number : Type := option Q.

Definition Number_sub (a b : Number) : Number :=
  match a, b with
  | Some x, Some y => Some (x - y)%Q
  | _, _ => None
  end.

(** A [Date] object is its time value: milliseconds since the epoch, or
    [None] for the Invalid Date (time value NaN). *)
Definition Date : Type := option Z.

(** [Date.prototype.getTime]. *)
Definition getTime (d : Date) : Number := option_map inject_Z d.

(* ---------------------------------------------------------------- *)
(** *** Strings *)

(** [String.prototype.includes] with position 0. *)
Fixpoint includes (s searchString : string) : bool :=
  String.prefix searchString s
  || match s with
     | EmptyString => false
     | String _ rest => includes rest searchString
     end.

(** Truthiness of a string: [if (s)] holds unless [s] is empty. *)
Definition truthy (s : string) : bool :=
  match s with
  | EmptyString => false
  | String _ _ => true
  end.

(** The comparison [Array.prototype.sort] uses when it is given no
    comparator: code-unit order on the strings. *)
Definition defaultCompare (x y : string) : Number :=
  match String.compare x y with
  | Lt => Some (-1)%Q
  | Eq => Some 0%Q
  | Gt => Some 1%Q
  end.

(* ---------------------------------------------------------------- *)
(** *** Arrays *)

Section Arrays.
Context {A : Type}.

(** The abstract operation SortCompare: a NaN from the comparator
    counts as +0. *)
Definition SortCompare (comparefn : A -> A -> Number) (x y : A) : Q :=
  match comparefn x y with
  | Some v => v
  | None => 0%Q
  end.

(** [x] sorts strictly after [y]. *)
Definition sortsAfter (comparefn : A -> A -> Number) (x y : A) : bool :=
  negb (Qle_bool (SortCompare comparefn x y) 0).

(** [Array.prototype.sort] is a stable sort.  For a consistent
    comparator the result is determined; it is computed here by
    insertion, the element coming from the left staying in front of
    everything it does not sort strictly after. *)
Fixpoint sort_insert (comparefn : A -> A -> Number) (x : A) (l : list A)
  : list A :=
  match l with
  | [] => [x]
  | y :: rest =>
      if sortsAfter comparefn x y
      then y :: sort_insert comparefn x rest
      else x :: y :: rest
  end.

Fixpoint Array_sort (comparefn : A -> A -> Number) (l : list A) : list A :=
  match l with
  | [] => []
  | x :: rest => sort_insert comparefn x (Array_sort comparefn rest)
  end.

(** [Array.prototype.slice (start, end)]: a negative index counts from
    the end, and both are clamped to the array. *)
Definition relativeIndex (len i : Z) : Z :=
  if (i <? 0)%Z then Z.max (len + i) 0 else Z.min i len.

Definition Array_slice (l : list A) (start end_ : Z) : list A :=
  let len := Z.of_nat (List.length l) in
  let k := relativeIndex len start in
  let final := relativeIndex len end_ in
  firstn (Z.to_nat (final - k)) (skipn (Z.to_nat k) l).
End Arrays.

(* ---------------------------------------------------------------- *)
(** *** Plain objects used as string-keyed records

    Own properties in insertion order; a key occurs once.  The keys of
    the view are day keys such as [2024-03-07], never array indices, so
    [Object.keys] lists them in the order they were added. *)

Section Objects.
Context {V : Type}.

Definition Object : Type := list (string * V).

Definition Object_keys (o : Object) : list string := map fst o.
Definition Object_values (o : Object) : list V := map snd o.

(** [o[k]], with [None] for [undefined]. *)
Fixpoint Object_get (o : Object) (k : string) : option V :=
  match o with
  | [] => None
  | (k', v) :: rest => if String.eqb k' k then Some v else Object_get rest k
  end.

(** [o[k] = v]: an existing property keeps its place, a new one goes
    last. *)
Fixpoint Object_set (o : Object) (k : string) (v : V) : Object :=
  match o with
  | [] => [(k, v)]
  | (k', v') :: rest =>
      if String.eqb k' k then (k', v) :: rest
      else (k', v') :: Object_set rest k v
  end.
End Objects.
Arguments Object V : clear implicits.

(** [Math.ceil] of a quotient of two integers. *)
Definition Math_ceil (q : Q) : Z := Qceiling q.

End JS.

Import JS.

(* ================================================================== *)
(** ** What the host supplies

    The pipeline is run by a browser: how an ISO string becomes a time
    value, which offset the local time zone has at an instant, how text is
    lower-cased and how two names collate are the host's business.  The
    development is parametric in them. *)
(* ================================================================== *)

Class Runtime : Type := {
  (** the time value of [new Date(s)] for a string [s] *)
  Date_parse : string -> Date;
  (** milliseconds to add to a UTC instant to read the local clock *)
  LocalTZA : Z -> Z;
  (** [String.prototype.toLowerCase] *)
  toLowerCase : string -> string;
  (** [String.prototype.localeCompare]: negative, zero or positive *)
  localeCompare : string -> string -> Z
}.

(* ================================================================== *)
(** ** The functions of date-fns the view imports *)
(* ================================================================== *)

Module DateFns.
Section WithRuntime.
Context {rt : Runtime}.

(** [isAfter (date, dateToCompare)]: [+date > +dateToCompare], false as
    soon as one side is invalid. *)
Definition isAfter (date dateToCompare : Date) : bool :=
  match date, dateToCompare with
  | Some t, Some u => (u <? t)%Z
  | _, _ => false
  end.

(** [isBefore (date, dateToCompare)]: [+date < +dateToCompare]. *)
Definition isBefore (date dateToCompare : Date) : bool :=
  match date, dateToCompare with
  | Some t, Some u => (t <? u)%Z
  | _, _ => false
  end.

Definition msPerDay : Z := 86400000.

(** The number of the local calendar day an instant falls on. *)
Definition localDay (t : Z) : Z := ((t + LocalTZA t) / msPerDay)%Z.

(** [isSameDay]: both dates have the same local start of day; an
    invalid date is on no day. *)
Definition isSameDay (laterDate earlierDate : Date) : bool :=
  match laterDate, earlierDate with
  | Some t, Some u => (localDay t =? localDay u)%Z
  | _, _ => false
  end.

(** [isToday (date)] is [isSameDay (date, Date.now ())]; the clock is
    passed as [now]. *)
Definition isToday (now : Z) (date : Date) : bool :=
  isSameDay date (Some now).

(** Year, month (1 to 12) and day of month of a day number counted
    from 1970-01-01, in the proleptic Gregorian calendar. *)
Definition civilFromDays (z : Z) : Z * Z * Z :=
  let z := z + 719468 in
  let era := z / 146097 in
  let doe := z mod 146097 in
  let yoe := (doe - doe / 1460 + doe / 36524 - doe / 146096) / 365 in
  let y := yoe + era * 400 in
  let doy := doe - (365 * yoe + yoe / 4 - yoe / 100) in
  let mp := (5 * doy + 2) / 153 in
  let d := doy - (153 * mp + 2) / 5 + 1 in
  let m := if mp <? 10 then mp + 3 else mp - 9 in
  ((if m <=? 2 then y + 1 else y), m, d).

(** Decimal digits of a natural number. *)
Definition decimal (n : Z) : string :=
  NilZero.string_of_uint (N.to_uint (Z.to_N n)).

Fixpoint zeros (n : nat) : string :=
  match n with
  | O => EmptyString
  | S k => String "0"%char (zeros k)
  end.

(** [addLeadingZeros (number, targetLength)]. *)
Definition addLeadingZeros (number : Z) (targetLength : nat) : string :=
  let sign := if number <? 0 then "-"%string else EmptyString in
  let output := decimal (Z.abs number) in
  String.append sign
    (String.append (zeros (targetLength - String.length output)) output).

(** The tokens [yyyy], [MM] and [dd] of [format], read off the local
    clock.  [yyyy] prints the year of the era: year 0 is 1 BC. *)
Definition formatLocalDate (t : Z) : string :=
  let '(signedYear, month, day) := civilFromDays (localDay t) in
  let year := if 0 <? signedYear then signedYear else 1 - signedYear in
  String.append (addLeadingZeros year 4)
    (String.append "-"
       (String.append (addLeadingZeros month 2)
          (String.append "-" (addLeadingZeros day 2)))).

(** [format (date, 'yyyy-MM-dd')]: throws [RangeError] ("Invalid time
    value") on an invalid date. *)
Definition format_yyyy_MM_dd (date : Date) : Result string :=
  match date with
  | Some t => Ok (formatLocalDate t)
  | None => Throw RangeError
  end.
End WithRuntime.
End DateFns.
Import DateFns.

(* ================================================================== *)
(** ** The data model ([EventPrimitives], [DateRange]) *)
(* ================================================================== *)

(** Modelled from the spec: the type [EventPrimitives] and its parts are
    declared in [features/events/types.ts], which is not among the
    sources.  The fields are those section 3 of the specification lists
    and the view reads; [startAt] and [endAt] are ISO strings, as the
    creation form writes them with [toISOString]. *)
Record Duration : Type := {
  startAt : string;
  endAt : string
}.

(** Modelled from the spec: an amount and a currency code. *)
Record Price : Type := {
  amount : Q;
  currency : string
}.

(** Modelled from the spec: the event record of section 3. *)
Record EventPrimitives : Type := {
  id : string;
  name : string;
  description : string;
  location : string;
  duration : Duration;
  price : Price
}.

(** [type DateRange = { from: Date | null; to: Date | null }]; [None] is
    [null]. *)
Record DateRange : Type := {
  from : option Date;
  to : option Date
}.

(* ================================================================== *)
(** ** The component [EventsView] *)
(* ================================================================== *)

Module EventsView.
Section WithRuntime.
Context {rt : Runtime}.

Local Open Scope string_scope.

(** [new Date (s)] *)
Definition new_Date (s : string) : Date := Date_parse s.

Definition eventsPerPage : Z := 10.

(** Lines 78 to 85: the search filter. *)
Definition matchesQuery (query : string) (event : EventPrimitives) : bool :=
  includes (toLowerCase (name event)) query
  || includes (toLowerCase (description event)) query
  || includes (toLowerCase (location event)) query.

Definition searchFilter (searchQuery : string)
    (filtered : list EventPrimitives) : list EventPrimitives :=
  if truthy searchQuery then
    let query := toLowerCase searchQuery in
    filter (matchesQuery query) filtered
  else filtered.

(** Lines 88 to 94: the status filter; [now] is the [new Date ()] of
    line 75. *)
Definition statusFilter (now : Z) (filterStatus : string)
    (filtered : list EventPrimitives) : list EventPrimitives :=
  if filterStatus =? "upcoming" then
    filter (fun event =>
              isAfter (new_Date (startAt (duration event))) (Some now))
           filtered
  else if filterStatus =? "past" then
    filter (fun event =>
              isBefore (new_Date (endAt (duration event))) (Some now))
           filtered
  else if filterStatus =? "today" then
    filter (fun event => isToday now (new_Date (startAt (duration event))))
           filtered
  else filtered.

(** Lines 97 to 103: the date range filter. *)
Definition dateRangeFilter (dateRange : DateRange)
    (filtered : list EventPrimitives) : list EventPrimitives :=
  let filtered :=
    match from dateRange with
    | Some from_ =>
        filter (fun event =>
                  isAfter (new_Date (startAt (duration event))) from_)
               filtered
    | None => filtered
    end in
  match to dateRange with
  | Some to_ =>
      filter (fun event =>
                isBefore (new_Date (startAt (duration event))) to_)
             filtered
  | None => filtered
  end.

(** Lines 106 to 123: the comparator handed to [sort]. *)
Definition compareEvents (sortBy : string) (a b : EventPrimitives)
  : Number :=
  if sortBy =? "date-asc" then
    Number_sub (getTime (new_Date (startAt (duration a))))
               (getTime (new_Date (startAt (duration b))))
  else if sortBy =? "date-desc" then
    Number_sub (getTime (new_Date (startAt (duration b))))
               (getTime (new_Date (startAt (duration a))))
  else if sortBy =? "name-asc" then
    Some (inject_Z (localeCompare (name a) (name b)))
  else if sortBy =? "name-desc" then
    Some (inject_Z (localeCompare (name b) (name a)))
  else if sortBy =? "price-asc" then
    Some (amount (price a) - amount (price b))%Q
  else if sortBy =? "price-desc" then
    Some (amount (price b) - amount (price a))%Q
  else Some 0%Q.

Definition sortStage (sortBy : string) (filtered : list EventPrimitives)
  : list EventPrimitives :=
  Array_sort (compareEvents sortBy) filtered.

(** Lines 71 to 126.  [events] is [None] while the query has no data. *)
Definition filteredEvents (events : option (list EventPrimitives))
    (searchQuery filterStatus : string) (dateRange : DateRange)
    (sortBy : string) (now : Z) : list EventPrimitives :=
  match events with
  | None => []
  | Some events =>
      let filtered := events in
      let filtered := searchFilter searchQuery filtered in
      let filtered := statusFilter now filterStatus filtered in
      let filtered := dateRangeFilter dateRange filtered in
      sortStage sortBy filtered
  end.

(** The key of an event's bucket (lines 135 to 138). *)
Definition dayKey (event : EventPrimitives) : Result string :=
  format_yyyy_MM_dd (new_Date (startAt (duration event))).

(** [groups[date].push (event)] *)
Definition pushEvent (groups : Object (list EventPrimitives))
    (date : string) (event : EventPrimitives)
  : Result (Object (list EventPrimitives)) :=
  match Object_get groups date with
  | Some bucket => Ok (Object_set groups date (bucket ++ [event])%list)
  | None => Throw TypeError
  end.

(** The body of the [forEach] of lines 134 to 143. *)
Definition groupStep (groups : Object (list EventPrimitives))
    (event : EventPrimitives) : Result (Object (list EventPrimitives)) :=
  bind (dayKey event) (fun date =>
    let groups :=
      match Object_get groups date with
      | None => Object_set groups date []
      | Some _ => groups
      end in
    pushEvent groups date event).

Fixpoint forEach (groups : Object (list EventPrimitives))
    (events : list EventPrimitives)
  : Result (Object (list EventPrimitives)) :=
  match events with
  | [] => Ok groups
  | event :: rest => bind (groupStep groups event) (fun g => forEach g rest)
  end.

(** Lines 129 to 146. *)
Definition groupedEvents (filteredEvents : list EventPrimitives)
  : Result (Object (list EventPrimitives)) :=
  let groups := [] in
  if (List.length filteredEvents =? 0)%nat then Ok groups
  else forEach groups filteredEvents.

(** Lines 149 to 159.  A bucket read with [groupedEvents[date]] may be
    [undefined], hence the [option]. *)
Definition paginatedGroupedEvents
    (groupedEvents : Object (list EventPrimitives)) (currentPage : Z)
  : Object (option (list EventPrimitives)) :=
  let dates := Array_sort defaultCompare (Object_keys groupedEvents) in
  let pageDates :=
    Array_slice dates ((currentPage - 1) * eventsPerPage)
                (currentPage * eventsPerPage) in
  fold_left
    (fun paginatedGroups date =>
       Object_set paginatedGroups date (Object_get groupedEvents date))
    pageDates [].

(** Lines 161 to 163. *)
Definition totalPages (groupedEvents : Object (list EventPrimitives)) : Z :=
  Math_ceil
    (inject_Z (Z.of_nat (List.length (Object_keys groupedEvents)))
     / inject_Z eventsPerPage)%Q.

(** Lines 166 to 170. *)
Definition totalUpcomingEvents (events : option (list EventPrimitives))
    (now : Z) : nat :=
  match events with
  | None => 0%nat
  | Some events =>
      List.length
        (filter (fun event =>
                   isAfter (new_Date (startAt (duration event))) (Some now))
                events)
  end.

(** Lines 173 to 176. *)
Definition todayEvents (events : option (list EventPrimitives))
    (now : Z) : nat :=
  match events with
  | None => 0%nat
  | Some events =>
      List.length
        (filter (fun event =>
                   isToday now (new_Date (startAt (duration event))))
                events)
  end.
End WithRuntime.
End EventsView.
Import EventsView.

(* ================================================================== *)
(** ** The same filter with its arrays in a store

    [filteredEvents] copies, filters and sorts arrays.  [filter] and the
    spread build a new array, [sort] rewrites the one it is called on.  To
    see which array is rewritten the arrays live in a store and are named
    by references. *)
(* ================================================================== *)

Module Heap.

Definition Ref : Type := nat.

(** The arrays allocated so far, by reference. *)
Definition Store : Type := list (list EventPrimitives).

Definition M (A : Type) : Type := Store -> A * Store.

Definition ret {A : Type} (a : A) : M A := fun s => (a, s).

Definition bindM {A B : Type} (m : M A) (k : A -> M B) : M B :=
  fun s => let (a, s') := m s in k a s'.

Notation "x <- m ;; k" := (bindM m (fun x => k))
  (at level 61, m at next level, right associativity).

Definition read (r : Ref) : M (list EventPrimitives) :=
  fun s => (nth r s [], s).

Definition alloc (a : list EventPrimitives) : M Ref :=
  fun s => (List.length s, (s ++ [a])%list).

Fixpoint update (r : Ref) (a : list EventPrimitives) (s : Store) : Store :=
  match s, r with
  | [], _ => []
  | _ :: rest, O => a :: rest
  | b :: rest, S r' => b :: update r' a rest
  end.

Definition write (r : Ref) (a : list EventPrimitives) : M unit :=
  fun s => (tt, update r a s).

(** [[...array]] *)
Definition spread (array : Ref) : M Ref :=
  a <- read array ;; alloc a.

(** [array.filter (p)] *)
Definition Array_filter (p : EventPrimitives -> bool) (array : Ref) : M Ref :=
  a <- read array ;; alloc (filter p a).

(** [array.sort (comparefn)]: in place, returns the same array. *)
Definition Array_sort_in_place
    (comparefn : EventPrimitives -> EventPrimitives -> Number) (array : Ref)
  : M Ref :=
  a <- read array ;;
  _ <- write array (Array_sort comparefn a) ;;
  ret array.

(** The outcome [out] of a computation started in store [s]: every array
    of [s] is as it was, and the reference returned names an array
    allocated since, holding [c]. *)
Definition Fresh (s : Store) (c : list EventPrimitives) (out : Ref * Store)
  : Prop :=
  exists fresh,
    snd out = (s ++ fresh)%list
    /\ (List.length s <= fst out < List.length (snd out))%nat
    /\ nth (fst out) (snd out) [] = c.

Section WithRuntime.
Context {rt : Runtime}.

Local Open Scope string_scope.

(** Lines 71 to 126, statement by statement. *)
Definition filteredEvents (events : option Ref)
    (searchQuery filterStatus : string) (dateRange : DateRange)
    (sortBy : string) (now : Z) : M Ref :=
  match events with
  | None => alloc []
  | Some events =>
      filtered <- spread events ;;
      filtered <-
        (if truthy searchQuery then
           let query := toLowerCase searchQuery in
           Array_filter (matchesQuery query) filtered
         else ret filtered) ;;
      filtered <-
        (if filterStatus =? "upcoming" then
           Array_filter
             (fun event =>
                isAfter (new_Date (startAt (duration event))) (Some now))
             filtered
         else if filterStatus =? "past" then
           Array_filter
             (fun event =>
                isBefore (new_Date (endAt (duration event))) (Some now))
             filtered
         else if filterStatus =? "today" then
           Array_filter
             (fun event =>
                isToday now (new_Date (startAt (duration event))))
             filtered
         else ret filtered) ;;
      filtered <-
        match from dateRange with
        | Some from_ =>
            Array_filter
              (fun event =>
                 isAfter (new_Date (startAt (duration event))) from_)
              filtered
        | None => ret filtered
        end ;;
      filtered <-
        match to dateRange with
        | Some to_ =>
            Array_filter
              (fun event =>
                 isBefore (new_Date (startAt (duration event))) to_)
              filtered
        | None => ret filtered
        end ;;
      Array_sort_in_place (compareEvents sortBy) filtered
  end.
End WithRuntime.
End Heap.

(* ================================================================== *)
(** ** A host to run examples on

    UTC as the local zone, ISO strings of the shape [toISOString] writes,
    ASCII case folding and code-unit collation. *)
(* ================================================================== *)

Module Host.

Definition digit (c : ascii) : option Z :=
  let n := Z.of_nat (nat_of_ascii c) in
  if (48 <=? n) && (n <=? 57) then Some (n - 48) else None.

Fixpoint number (s : string) (acc : Z) : option Z :=
  match s with
  | EmptyString => Some acc
  | String c rest =>
      match digit c with
      | Some d => number rest (10 * acc + d)
      | None => None
      end
  end.

Definition field (s : string) (pos len : nat) : option Z :=
  let f := substring pos len s in
  if (String.length f =? len)%nat then number f 0 else None.

Definition sep (s : string) (pos : nat) (c : ascii) : bool :=
  match String.get pos s with
  | Some c' => Ascii.eqb c c'
  | None => false
  end.

Definition isLeap (y : Z) : bool :=
  ((y mod 4 =? 0) && negb (y mod 100 =? 0)) || (y mod 400 =? 0).

Definition daysInMonth (y m : Z) : Z :=
  if m =? 2 then (if isLeap y then 29 else 28)
  else if (m =? 4) || (m =? 6) || (m =? 9) || (m =? 11) then 30
  else 31.

(** The day number, from 1970-01-01, of a civil date. *)
Definition daysFromCivil (y m d : Z) : Z :=
  let y := if m <=? 2 then y - 1 else y in
  let era := y / 400 in
  let yoe := y - era * 400 in
  let doy := (153 * (if 2 <? m then m - 3 else m + 9) + 2) / 5 + d - 1 in
  let doe := yoe * 365 + yoe / 4 - yoe / 100 + doy in
  era * 146097 + doe - 719468.

(** [YYYY-MM-DDTHH:mm:ss.sssZ], anything else is an Invalid Date. *)
Definition parseISO (s : string) : Date :=
  if (String.length s =? 24)%nat
     && sep s 4 "-" && sep s 7 "-" && sep s 10 "T"
     && sep s 13 ":" && sep s 16 ":" && sep s 19 "." && sep s 23 "Z"
  then
    match field s 0 4, field s 5 2, field s 8 2,
          field s 11 2, field s 14 2, field s 17 2, field s 20 3 with
    | Some y, Some mo, Some d, Some h, Some mi, Some sec, Some ms =>
        if (1 <=? mo) && (mo <=? 12) && (1 <=? d) && (d <=? daysInMonth y mo)
           && (h <=? 23) && (mi <=? 59) && (sec <=? 59)
        then Some (daysFromCivil y mo d * msPerDay
                   + h * 3600000 + mi * 60000 + sec * 1000 + ms)
        else None
    | _, _, _, _, _, _, _ => None
    end
  else None.

Definition lowerAscii (c : ascii) : ascii :=
  let n := nat_of_ascii c in
  if (65 <=? n)%nat && (n <=? 90)%nat then ascii_of_nat (n + 32) else c.

Fixpoint lower (s : string) : string :=
  match s with
  | EmptyString => EmptyString
  | String c rest => String (lowerAscii c) (lower rest)
  end.

Definition codeUnitCompare (a b : string) : Z :=
  match String.compare a b with
  | Lt => -1
  | Eq => 0
  | Gt => 1
  end.

Definition runtime : Runtime := {|
  Date_parse := parseISO;
  LocalTZA := fun _ => 0;
  toLowerCase := lower;
  localeCompare := codeUnitCompare
|}.

(** The same host six hours west of Greenwich. *)
Definition runtimeWest : Runtime := {|
  Date_parse := parseISO;
  LocalTZA := fun _ => -21600000;
  toLowerCase := lower;
  localeCompare := codeUnitCompare
|}.

Definition mkEvent (id_ name_ description_ location_ startAt_ endAt_ : string)
    (amount_ : Q) : EventPrimitives := {|
  id := id_;
  name := name_;
  description := description_;
  location := location_;
  duration := {| startAt := startAt_; endAt := endAt_ |};
  price := {| amount := amount_; currency := "MXN" |}
|}.

(** Events to try the pipeline on. *)
Definition yogaClass : EventPrimitives :=
  mkEvent "e1" "Clase de Yoga" "Para principiantes" "Sala 2"
          "2024-03-07T10:00:00.000Z" "2024-03-07T11:00:00.000Z" 100.

Definition pilates : EventPrimitives :=
  mkEvent "e2" "Pilates" "Nivel intermedio" "Sala 1"
          "2024-03-07T15:00:00.000Z" "2024-03-07T16:00:00.000Z" 50.

Definition newYear : EventPrimitives :=
  mkEvent "e3" "Brindis" "Fin de curso" "Patio"
          "2024-01-01T00:00:00.000Z" "2024-01-01T02:00:00.000Z" 0.

(** An event whose [startAt] is not a date. *)
Definition malformed : EventPrimitives :=
  mkEvent "e4" "Taller" "Sin fecha" "Sala 3"
          "pendiente" "2024-03-09T11:00:00.000Z" 80.

(** 2024-01-01T00:00:00.000Z *)
Definition newYearInstant : Z := 1704067200000.

(** A grouping with twelve day keys, not in order. *)
Definition twelveDays : Object (list EventPrimitives) :=
  map (fun d => (d, [yogaClass]))
      ["2024-03-12"; "2024-03-01"; "2024-03-11"; "2024-03-02";
       "2024-03-10"; "2024-03-03"; "2024-03-09"; "2024-03-04";
       "2024-03-08"; "2024-03-05"; "2024-03-07"; "2024-03-06"]%string.

End Host.

(* ================================================================== *)
(** ** What the specification says, as propositions *)
(* ================================================================== *)

Module Spec.
Section WithRuntime.
Context {rt : Runtime}.

(** [q] occurs in [s]. *)
Definition Substring (q s : string) : Prop :=
  exists pre post, s = String.append pre (String.append q post).

(** The event's start is a well-formed instant, strictly after [now]. *)
Definition startsAfter (now : Z) (e : EventPrimitives) : Prop :=
  exists t, Date_parse (startAt (duration e)) = Some t /\ now < t.

Definition startsBefore (now : Z) (e : EventPrimitives) : Prop :=
  exists t, Date_parse (startAt (duration e)) = Some t /\ t < now.

Definition endsBefore (now : Z) (e : EventPrimitives) : Prop :=
  exists t, Date_parse (endAt (duration e)) = Some t /\ t < now.

(** The event starts on the local calendar day [now] falls on. *)
Definition startsToday (now : Z) (e : EventPrimitives) : Prop :=
  exists t, Date_parse (startAt (duration e)) = Some t
            /\ localDay t = localDay now.

(** The status predicate of section 4.1. *)
Definition statusSelects (now : Z) (filterStatus : string)
    (e : EventPrimitives) : Prop :=
  (filterStatus = "upcoming"%string -> startsAfter now e)
  /\ (filterStatus = "past"%string -> endsBefore now e)
  /\ (filterStatus = "today"%string -> startsToday now e).

(** The date range predicate of section 4.1: each bound that is set
    must be a well-formed instant the start lies strictly beyond. *)
Definition inRange (dateRange : DateRange) (e : EventPrimitives) : Prop :=
  (forall lower, from dateRange = Some lower ->
     exists u, lower = Some u /\ startsAfter u e)
  /\ (forall upper, to dateRange = Some upper ->
        exists u, upper = Some u /\ startsBefore u e).

(** The search predicate as the code has it: the text is case-folded,
    not trimmed. *)
Definition searchSelects (searchQuery : string) (e : EventPrimitives)
  : Prop :=
  searchQuery = EmptyString
  \/ Substring (toLowerCase searchQuery) (toLowerCase (name e))
  \/ Substring (toLowerCase searchQuery) (toLowerCase (description e))
  \/ Substring (toLowerCase searchQuery) (toLowerCase (location e)).

(** [String.prototype.trim] on ASCII white space. *)
Definition isSpace (c : ascii) : bool :=
  let n := nat_of_ascii c in
  ((9 <=? n) && (n <=? 13))%nat || (n =? 32)%nat.

Fixpoint trimStart (s : string) : string :=
  match s with
  | EmptyString => EmptyString
  | String c rest => if isSpace c then trimStart rest else s
  end.

Fixpoint trimEnd (s : string) : string :=
  match s with
  | EmptyString => EmptyString
  | String c rest =>
      match trimEnd rest with
      | EmptyString => if isSpace c then EmptyString else String c EmptyString
      | rest' => String c rest'
      end
  end.

Definition trim (s : string) : string := trimEnd (trimStart s).

(** The search predicate as section 4.1 words it: the text is trimmed
    and case-folded; empty text passes everything. *)
Definition searchSelectsTrimmed (searchQuery : string)
    (e : EventPrimitives) : Prop :=
  searchQuery = EmptyString
  \/ Substring (toLowerCase (trim searchQuery)) (toLowerCase (name e))
  \/ Substring (toLowerCase (trim searchQuery))
               (toLowerCase (description e))
  \/ Substring (toLowerCase (trim searchQuery)) (toLowerCase (location e)).

(** The six sort options of section 4.2. *)
Definition sortOptions : list string :=
  ["date-asc"; "date-desc"; "name-asc"; "name-desc";
   "price-asc"; "price-desc"]%string.

Definition startTime (e : EventPrimitives) : Date :=
  Date_parse (startAt (duration e)).

(** [a] may come before [b] under the chosen key and direction. *)
Definition inSortOrder (sortBy : string) (a b : EventPrimitives) : Prop :=
  (sortBy = "date-asc"%string ->
     exists t u, startTime a = Some t /\ startTime b = Some u /\ t <= u)
  /\ (sortBy = "date-desc"%string ->
     exists t u, startTime a = Some t /\ startTime b = Some u /\ u <= t)
  /\ (sortBy = "name-asc"%string -> localeCompare (name a) (name b) <= 0)
  /\ (sortBy = "name-desc"%string -> localeCompare (name b) (name a) <= 0)
  /\ (sortBy = "price-asc"%string ->
        (amount (price a) <= amount (price b))%Q)
  /\ (sortBy = "price-desc"%string ->
        (amount (price b) <= amount (price a))%Q).

(** [a] and [b] have equal sort keys. *)
Definition sameSortKey (sortBy : string) (a b : EventPrimitives) : bool :=
  if (sortBy =? "date-asc")%string || (sortBy =? "date-desc")%string then
    match startTime a, startTime b with
    | Some t, Some u => t =? u
    | _, _ => false
    end
  else if (sortBy =? "name-asc")%string || (sortBy =? "name-desc")%string
  then localeCompare (name a) (name b) =? 0
  else Qeq_bool (amount (price a)) (amount (price b)).

(** The sort stage rearranges [l] into the chosen order and keeps events
    with equal keys in the order they had. *)
Definition SortedStably (sortBy : string) (l : list EventPrimitives)
  : Prop :=
  Permutation l (sortStage sortBy l)
  /\ StronglySorted (inSortOrder sortBy) (sortStage sortBy l)
  /\ (forall x, filter (sameSortKey sortBy x) (sortStage sortBy l)
                = filter (sameSortKey sortBy x) l).

(** A collation is consistent when swapping the arguments flips the
    sign and "not after" is transitive. *)
Definition ConsistentCollation : Prop :=
  (forall a b, Z.sgn (localeCompare a b) = - Z.sgn (localeCompare b a))
  /\ (forall a b c, localeCompare a b <= 0 -> localeCompare b c <= 0 ->
                    localeCompare a c <= 0).

(** The event's bucket is the one named [k]. *)
Definition hasKey (k : string) (e : EventPrimitives) : bool :=
  match dayKey e with
  | Ok k' => (k' =? k)%string
  | Throw _ => false
  end.

(** All events of a bucketed object, bucket after bucket. *)
Definition eventsOf (groups : Object (list EventPrimitives))
  : list EventPrimitives :=
  List.concat (Object_values groups).

(** What the grouping holds once the events [done] have been visited:
    one bucket per day key met, each key once, holding the events of
    that day in the order they were visited. *)
Definition Grouped (done : list EventPrimitives)
    (g : Object (list EventPrimitives)) : Prop :=
  NoDup (Object_keys g)
  /\ (forall k, Object_get g k
                = match filter (hasKey k) done with
                  | [] => None
                  | b => Some b
                  end)
  /\ Permutation (eventsOf g) done.

(** [a] comes strictly before [b] in the lexicographic order of the
    code units. *)
Definition lexBefore (a b : string) : Prop := String.compare a b = Lt.

(** The events a page shows. *)
Definition eventsOfPage (page : Object (option (list EventPrimitives)))
  : list EventPrimitives :=
  List.concat (map (fun bucket => match bucket with
                                  | Some b => b
                                  | None => []
                                  end)
                   (Object_values page)).

(** The three predicates as the tests the filter runs. *)
Definition searchKeeps (searchQuery : string) (e : EventPrimitives)
  : bool :=
  if truthy searchQuery then matchesQuery (toLowerCase searchQuery) e
  else true.

Definition statusKeeps (now : Z) (filterStatus : string)
    (e : EventPrimitives) : bool :=
  if (filterStatus =? "upcoming")%string then
    isAfter (new_Date (startAt (duration e))) (Some now)
  else if (filterStatus =? "past")%string then
    isBefore (new_Date (endAt (duration e))) (Some now)
  else if (filterStatus =? "today")%string then
    isToday now (new_Date (startAt (duration e)))
  else true.

Definition rangeKeeps (dateRange : DateRange) (e : EventPrimitives)
  : bool :=
  match from dateRange with
  | Some from_ => isAfter (new_Date (startAt (duration e))) from_
  | None => true
  end
  && match to dateRange with
     | Some to_ => isBefore (new_Date (startAt (duration e))) to_
     | None => true
     end.

(** No date range chosen. *)
Definition noRange : DateRange := {| from := None; to := None |}.

(** The least number of pages of [size] that hold [n] keys. *)
Definition isCeilingOf (pages n size : Z) : Prop :=
  size * (pages - 1) < n <= size * pages.

(** The page numbers 1 to [n], in order. *)
Definition pageNumbers (n : Z) : list Z :=
  map (fun i => Z.of_nat i + 1) (seq 0 (Z.to_nat n)).
End WithRuntime.
End Spec.
Import Spec.

(* ================================================================== *)
(** ** The rest of the events view

    The pager under the list (lines 381 to 401), what the view renders
    (lines 322, 340 and 381) and the bookings handed to each event card
    (lines 362 to 367). *)
(* ================================================================== *)

Module View.

(** [setCurrentPage (prev => Math.max (prev - 1, 1))] *)
Definition previousPage (prev : Z) : Z := Z.max (prev - 1) 1.

(** [setCurrentPage (prev => Math.min (prev + 1, totalPages))] *)
Definition nextPage (totalPages prev : Z) : Z := Z.min (prev + 1) totalPages.

(** [disabled={currentPage === 1}] and [disabled={currentPage === totalPages}] *)
Definition previousDisabled (currentPage : Z) : bool := currentPage =? 1.
Definition nextDisabled (totalPages currentPage : Z) : bool :=
  currentPage =? totalPages.

(** [filteredEvents.length === 0]: the card "No hay eventos". *)
Definition showsEmptyCard (filteredEvents : list EventPrimitives) : bool :=
  (List.length filteredEvents =? 0)%nat.

(** [Object.entries (paginatedGroupedEvents).length > 0]: the day groups. *)
Definition showsGroups (page : Object (option (list EventPrimitives)))
  : bool :=
  (0 <? List.length page)%nat.

(** [totalPages > 1]: the pager. *)
Definition showsPager (totalPages : Z) : bool := 1 <? totalPages.

(** Modelled from the spec: the type of a booking is declared in
    [features/events/types.ts], which is not among the sources; section 3
    of the specification gives it an identifier and the [eventId] of the
    event it reserves. *)
Record Booking : Type := {
  bookingId : string;
  eventId : string
}.

(** [allBookings?.filter ((booking) => booking.eventId === event.id) || []];
    [allBookings] is [None] while the query has no data. *)
Definition bookingsOf (allBookings : option (list Booking))
    (event : EventPrimitives) : list Booking :=
  match allBookings with
  | Some bookings =>
      filter (fun booking => (eventId booking =? id event)%string) bookings
  | None => []
  end.

End View.

(* ================================================================== *)
(** ** The appointments calendar ([features/appointments/Calendar.tsx]) *)
(* ================================================================== *)

Module Appointments.

(** A [Set<string>]: its members in insertion order, each once. *)
Definition StringSet : Type := list string.

Definition Set_has (s : StringSet) (x : string) : bool :=
  existsb (String.eqb x) s.

Definition Set_add (s : StringSet) (x : string) : StringSet :=
  if Set_has s x then s else (s ++ [x])%list.

(** [new Set (iterable)] *)
Definition new_Set (l : list string) : StringSet := fold_left Set_add l [].

Section WithRuntime.
Context {rt : Runtime}.

(** The types of an appointment and of an employee are declared in
    [features/appointments/types.ts], which is not among the sources.  The
    calendar reads [event.employeeId], hands [event.date] to [isSameDay]
    and reads [emp.id]; they are parameters, [date] standing for the
    [Date] that [isSameDay] makes of [event.date]. *)
Variable Appointment : Type.
Variable employeeId : Appointment -> string.
Variable date : Appointment -> Date.
Variable Employee : Type.
Variable employee_id : Employee -> string.

(** Lines 20 to 22: [new Set (employees?.map ((emp) => emp.id) ?? [])]. *)
Definition selectAll (employees : option (list Employee)) : StringSet :=
  new_Set (match employees with
           | Some l => map employee_id l
           | None => []
           end).

(** Lines 13 to 15: the day the appointments are fetched for. *)
Definition queryDay (selectedDate : Date) : Result string :=
  format_yyyy_MM_dd selectedDate.

(** Lines 24 to 32. *)
Definition filteredEvents (events : option (list Appointment))
    (selectedEmployees : StringSet) (selectedDate : Date)
  : list Appointment :=
  match events with
  | None => []
  | Some events =>
      filter (fun event =>
                Set_has selectedEmployees (employeeId event)
                && isSameDay (date event) selectedDate)
             events
  end.

End WithRuntime.
End Appointments.

(* ================================================================== *)
(** ** Dates as the creation form writes and reads them *)
(* ================================================================== *)

Module ISO.

(** The largest time value of a [Date]. *)
Definition maxTime : Z := 8640000000000000.

(** The abstract operation TimeClip. *)
Definition TimeClip (t : Z) : Date :=
  if Z.abs t <=? maxTime then Some t else None.

(** The year of an ISO string: four digits, or a sign and six digits
    outside 0 to 9999. *)
Definition isoYear (y : Z) : string :=
  if (0 <=? y) && (y <=? 9999) then addLeadingZeros y 4
  else if y <? 0 then addLeadingZeros y 6
  else String.append "+" (addLeadingZeros y 6).

(** [YYYY-MM-DD] for a day number counted from 1970-01-01. *)
Definition isoDatePart (day : Z) : string :=
  let '(y, m, d) := civilFromDays day in
  String.append (isoYear y)
    (String.append "-"
       (String.append (addLeadingZeros m 2)
          (String.append "-" (addLeadingZeros d 2)))).

(** [HH:mm:ss.sssZ] for the milliseconds since midnight. *)
Definition isoTimePart (ms : Z) : string :=
  String.append (addLeadingZeros (ms / 3600000) 2)
    (String.append ":"
       (String.append (addLeadingZeros ((ms / 60000) mod 60) 2)
          (String.append ":"
             (String.append (addLeadingZeros ((ms / 1000) mod 60) 2)
                (String.append "."
                   (String.append (addLeadingZeros (ms mod 1000) 3) "Z")))))).

Definition isoString (t : Z) : string :=
  String.append (isoDatePart (t / msPerDay))
    (String.append "T" (isoTimePart (t mod msPerDay))).

(** [Date.prototype.toISOString]: throws [RangeError] on an invalid date. *)
Definition Date_toISOString (d : Date) : Result string :=
  match d with
  | Some t => Ok (isoString t)
  | None => Throw RangeError
  end.

(** [s.slice (0, 10)] on a string. *)
Definition slice_0_10 (s : string) : string := String.substring 0 10 s.

(** [addHours (date, amount)] of date-fns: a new [Date] at the time value
    plus [amount] hours. *)
Definition addHours (d : Date) (amount : Z) : Date :=
  match d with
  | Some t => TimeClip (t + amount * 3600000)
  | None => None
  end.

(** [a <= b] on two [Date] objects: on their time values, false when one
    is NaN. *)
Definition Date_le (a b : Date) : bool :=
  match a, b with
  | Some t, Some u => t <=? u
  | _, _ => false
  end.

(** What the host adds for [setHours]: the offset of the local zone in
    effect at a local time (the operation LocalTZA with its flag off). *)
Class LocalZone : Type := {
  LocalTZA_local : Z -> Z
}.

Section WithRuntime.
Context {rt : Runtime} {zone : LocalZone}.

(** [date.setHours (h, m, s, ms)]: the same local day at the given local
    time; the new time value. *)
Definition setHours (d : Date) (h m s ms : Z) : Date :=
  match d with
  | None => None
  | Some t =>
      let local := t + LocalTZA t in
      let date := (local / msPerDay) * msPerDay
                  + (h * 3600000 + m * 60000 + s * 1000 + ms) in
      TimeClip (date - LocalTZA_local date)
  end.

End WithRuntime.
End ISO.

(* ================================================================== *)
(** ** The creation form ([EventCreateModal], lines 471 to 960) *)
(* ================================================================== *)

Module Modal.
Import ISO.

(** The values the end condition select hands to its handler: the two it
    offers, and anything else. *)
Inductive EndConditionType : Type :=
| OCCURRENCES
| DATE
| NULL.

(** [recurrence.endCondition] when it is not [null]:
    [{ type: OCCURRENCES, occurrences }] or [{ type: DATE, until }]. *)
Inductive EndCondition : Type :=
| Occurrences (occurrences : Number)
| Until (until : Date).

Record Capacity : Type := {
  isLimited : bool;
  maxCapacity : option Number
}.

(** The price as the form holds it: the amount is what [Number] made of
    the text typed. *)
Record Price : Type := {
  amount : Number;
  currency : string
}.

Section WithRuntime.
Context {rt : Runtime} {zone : LocalZone}.

(** The enumerations [RecurrenceFrequency] and [Currency] are declared in
    [features/events/types.ts], which is not among the sources.  The form
    only tests a frequency against [NEVER] and only names the currency
    [MXN]: the type, the member, the test and the currency are parameters,
    as is the conversion [Number (text)] of the host. *)
Variable RecurrenceFrequency : Type.
Variable NEVER : RecurrenceFrequency.
Variable isNEVER : RecurrenceFrequency -> bool.
Variable MXN : string.
Variable Number_of_string : string -> Number.

Record Recurrence : Type := {
  frequency : RecurrenceFrequency;
  endCondition : option EndCondition
}.

(** The values of the form ([CreatableEvent]). *)
Record CreatableEvent : Type := {
  name : string;
  description : string;
  price : Price;
  capacity : Capacity;
  duration : Duration;
  recurrence : Recurrence;
  location : string;
  photos : list string
}.

(** The form after a handler ran, and the exception it threw, if any. *)
Definition Outcome : Type := (CreatableEvent * option Error)%type.

Definition with_capacity (c : Capacity) (f : CreatableEvent) : CreatableEvent :=
  {| name := name f; description := description f; price := price f;
     capacity := c; duration := duration f; recurrence := recurrence f;
     location := location f; photos := photos f |}.

Definition with_duration (d : Duration) (f : CreatableEvent) : CreatableEvent :=
  {| name := name f; description := description f; price := price f;
     capacity := capacity f; duration := d; recurrence := recurrence f;
     location := location f; photos := photos f |}.

Definition with_recurrence (r : Recurrence) (f : CreatableEvent)
  : CreatableEvent :=
  {| name := name f; description := description f; price := price f;
     capacity := capacity f; duration := duration f; recurrence := r;
     location := location f; photos := photos f |}.

Definition with_endCondition (c : option EndCondition) (f : CreatableEvent)
  : CreatableEvent :=
  with_recurrence {| frequency := frequency (recurrence f);
                     endCondition := c |} f.

(** Lines 475 to 487; [now1] and [now2] are the two readings of the
    clock. *)
Definition defaultValues (now1 now2 : Z) : Result CreatableEvent :=
  bind (Date_toISOString (addHours (Some now1) 1)) (fun startAt_ =>
  bind (Date_toISOString (addHours (Some now2) 2)) (fun endAt_ =>
  Ok {| name := EmptyString;
        description := EmptyString;
        price := {| amount := Some 0%Q; currency := MXN |};
        capacity := {| isLimited := false; maxCapacity := None |};
        duration := {| startAt := startAt_; endAt := endAt_ |};
        recurrence := {| frequency := NEVER; endCondition := None |};
        location := EmptyString;
        photos := [] |})).

(** Lines 513 to 514: [recurrenceEndCondition?.type || EndConditionType.NULL]. *)
Definition endConditionType (f : CreatableEvent) : EndConditionType :=
  match endCondition (recurrence f) with
  | Some (Occurrences _) => OCCURRENCES
  | Some (Until _) => DATE
  | None => NULL
  end.

(** Lines 553 to 557: the effect on [capacity.isLimited]. *)
Definition capacityEffect (f : CreatableEvent) : CreatableEvent :=
  if negb (isLimited (capacity f))
  then with_capacity {| isLimited := isLimited (capacity f);
                        maxCapacity := None |} f
  else f.

(** Lines 560 to 564: the effect on [recurrence.frequency]. *)
Definition frequencyEffect (f : CreatableEvent) : CreatableEvent :=
  if isNEVER (frequency (recurrence f)) then with_endCondition None f else f.

(** The text fields and the price (lines 586 to 684): [field.onChange]. *)
Definition onNameChange (text : string) (f : CreatableEvent) : CreatableEvent :=
  {| name := text; description := description f; price := price f;
     capacity := capacity f; duration := duration f;
     recurrence := recurrence f; location := location f;
     photos := photos f |}.

Definition onDescriptionChange (text : string) (f : CreatableEvent)
  : CreatableEvent :=
  {| name := name f; description := text; price := price f;
     capacity := capacity f; duration := duration f;
     recurrence := recurrence f; location := location f;
     photos := photos f |}.

Definition onLocationChange (text : string) (f : CreatableEvent)
  : CreatableEvent :=
  {| name := name f; description := description f; price := price f;
     capacity := capacity f; duration := duration f;
     recurrence := recurrence f; location := text; photos := photos f |}.

Definition with_price (p : Price) (f : CreatableEvent) : CreatableEvent :=
  {| name := name f; description := description f; price := p;
     capacity := capacity f; duration := duration f;
     recurrence := recurrence f; location := location f;
     photos := photos f |}.

(** [field.onChange (Number (e.target.value))] *)
Definition onAmountChange (text : string) (f : CreatableEvent)
  : CreatableEvent :=
  with_price {| amount := Number_of_string text;
                currency := currency (price f) |} f.

Definition onCurrencyChange (value : string) (f : CreatableEvent)
  : CreatableEvent :=
  with_price {| amount := amount (price f); currency := value |} f.

(** Line 530: [form.setValue ("photos", [...form.getValues ("photos"), url])]. *)
Definition addPhoto (url : string) (f : CreatableEvent) : CreatableEvent :=
  {| name := name f; description := description f; price := price f;
     capacity := capacity f; duration := duration f;
     recurrence := recurrence f; location := location f;
     photos := (photos f ++ [url])%list |}.

(** The switch "Capacidad Limitada" (lines 712 to 715). *)
Definition onIsLimitedChange (checked : bool) (f : CreatableEvent)
  : CreatableEvent :=
  with_capacity {| isLimited := checked;
                   maxCapacity := maxCapacity (capacity f) |} f.

(** Line 734:
    [field.onChange (e.target.value ? Number (e.target.value) : null)]. *)
Definition onMaxCapacityChange (text : string) (f : CreatableEvent)
  : CreatableEvent :=
  with_capacity
    {| isLimited := isLimited (capacity f);
       maxCapacity := if truthy text then Some (Number_of_string text)
                      else None |} f.

(** Lines 766 to 774: the start picker. *)
Definition onStartChange (date : Date) (f : CreatableEvent) : Outcome :=
  match Date_toISOString date with
  | Throw e => (f, Some e)
  | Ok iso =>
      let f := with_duration {| startAt := iso;
                                endAt := endAt (duration f) |} f in
      let endTime := Date_parse (endAt (duration f)) in
      if Date_le endTime date then
        match Date_toISOString (addHours date 1) with
        | Throw e => (f, Some e)
        | Ok iso' =>
            (with_duration {| startAt := startAt (duration f);
                              endAt := iso' |} f, None)
        end
      else (f, None)
  end.

(** Lines 795 to 797: the end picker. *)
Definition onEndChange (date : Date) (f : CreatableEvent) : Outcome :=
  match Date_toISOString date with
  | Throw e => (f, Some e)
  | Ok iso =>
      (with_duration {| startAt := startAt (duration f); endAt := iso |} f,
       None)
  end.

(** Lines 814 to 824: the frequency select. *)
Definition onFrequencyChange (value : RecurrenceFrequency)
    (f : CreatableEvent) : CreatableEvent :=
  let f := with_recurrence {| frequency := value;
                              endCondition := endCondition (recurrence f) |}
                           f in
  if isNEVER value then with_endCondition None f
  else with_endCondition (Some (Occurrences (Some 1%Q))) f.

(** Lines 849 to 863: the end condition select; [now] is [Date.now ()]. *)
Definition onEndConditionTypeChange (now : Z) (value : EndConditionType)
    (f : CreatableEvent) : CreatableEvent :=
  match value with
  | OCCURRENCES => with_endCondition (Some (Occurrences (Some 1%Q))) f
  | DATE => with_endCondition (Some (Until (TimeClip (now + 86400000)))) f
  | NULL => with_endCondition None f
  end.

(** Lines 908 to 912: what the date input stores. *)
Definition untilOfInput (text : string) : Date :=
  setHours (Date_parse text) 23 59 59 999.

(** Lines 903 to 907: the text the date input shows for the stored value;
    [None] is no value. *)
Definition untilInputValue (value : option Date) : Result string :=
  match value with
  | Some d => bind (Date_toISOString d) (fun iso => Ok (slice_0_10 iso))
  | None => Ok EmptyString
  end.

(** Both effects, as they run when the modal mounts or is opened again. *)
Definition settle (f : CreatableEvent) : CreatableEvent :=
  frequencyEffect (capacityEffect f).

(** One interaction with the form.  A control that is not rendered cannot
    be used: the capacity input needs [capacity.isLimited], the end
    condition select a frequency other than [NEVER], the occurrences and
    the date inputs the matching end condition.  The effect on
    [capacity.isLimited] runs when the switch changed its value; an effect
    whose dependency did not change may run again or not. *)
Inductive step : CreatableEvent -> CreatableEvent -> Prop :=
| step_name text f : step f (onNameChange text f)
| step_description text f : step f (onDescriptionChange text f)
| step_location text f : step f (onLocationChange text f)
| step_amount text f : step f (onAmountChange text f)
| step_currency value f : step f (onCurrencyChange value f)
| step_photo url f : step f (addPhoto url f)
| step_isLimited checked f :
    step f (if Bool.eqb checked (isLimited (capacity f))
            then onIsLimitedChange checked f
            else capacityEffect (onIsLimitedChange checked f))
| step_maxCapacity text f :
    isLimited (capacity f) = true ->
    step f (onMaxCapacityChange text f)
| step_start date f : step f (fst (onStartChange date f))
| step_end date f : step f (fst (onEndChange date f))
| step_frequency value f : step f (onFrequencyChange value f)
| step_endConditionType now value f :
    isNEVER (frequency (recurrence f)) = false ->
    step f (onEndConditionTypeChange now value f)
| step_occurrences text n f :
    isNEVER (frequency (recurrence f)) = false ->
    endCondition (recurrence f) = Some (Occurrences n) ->
    step f (with_endCondition
              (Some (Occurrences (Number_of_string text))) f)
| step_until text d f :
    isNEVER (frequency (recurrence f)) = false ->
    endCondition (recurrence f) = Some (Until d) ->
    step f (with_endCondition (Some (Until (untilOfInput text))) f)
| step_capacityEffect f : step f (capacityEffect f)
| step_frequencyEffect f : step f (frequencyEffect f).

(** The forms the user can bring about once the modal has opened with the
    values [initial] (line 506: [reset (defaultValues)]). *)
Inductive reachable (initial : CreatableEvent) : CreatableEvent -> Prop :=
| reachable_initial : reachable initial (settle initial)
| reachable_step f f' :
    reachable initial f -> step f f' -> reachable initial f'.

(** What holds of a form between two interactions. *)
Definition Settled (f : CreatableEvent) : Prop :=
  (isLimited (capacity f) = false -> maxCapacity (capacity f) = None)
  /\ (isNEVER (frequency (recurrence f)) = true ->
      endCondition (recurrence f) = None).

End WithRuntime.
End Modal.

(* ================================================================== *)
(** ** More of the example host *)
(* ================================================================== *)

Module Samples.

(** [YYYY-MM-DD] alone is midnight UTC of that day; the long form as
    before. *)
Definition parseDate (s : string) : Date :=
  if (String.length s =? 10)%nat && Host.sep s 4 "-" && Host.sep s 7 "-"
  then
    match Host.field s 0 4, Host.field s 5 2, Host.field s 8 2 with
    | Some y, Some mo, Some d =>
        if (1 <=? mo) && (mo <=? 12) && (1 <=? d)
           && (d <=? Host.daysInMonth y mo)
        then Some (Host.daysFromCivil y mo d * msPerDay)
        else None
    | _, _, _ => None
    end
  else Host.parseISO s.

(** Six hours west of Greenwich, all year. *)
Definition runtimeWest : Runtime := {|
  Date_parse := parseDate;
  LocalTZA := fun _ => -21600000;
  toLowerCase := Host.lower;
  localeCompare := Host.codeUnitCompare
|}.

Definition zoneWest : ISO.LocalZone := {|
  ISO.LocalTZA_local := fun _ => -21600000
|}.

(** [Number (text)] on decimal digits; the empty text is 0. *)
Definition numberOf (text : string) : Number :=
  option_map inject_Z (Host.number text 0).

Inductive Frequency : Type :=
| Never
| Daily
| Weekly
| Monthly
| Yearly.

Definition isNever (f : Frequency) : bool :=
  match f with
  | Never => true
  | _ => false
  end.

(** The form as it opens at 2024-03-07T10:00:00.000Z. *)
Definition openedForm : Modal.CreatableEvent Frequency := {|
  Modal.name := "";
  Modal.description := "";
  Modal.price := {| Modal.amount := Some 0%Q; Modal.currency := "MXN" |};
  Modal.capacity := {| Modal.isLimited := false; Modal.maxCapacity := None |};
  Modal.duration := {| startAt := "2024-03-07T11:00:00.000Z";
                       endAt := "2024-03-07T12:00:00.000Z" |};
  Modal.recurrence := {| Modal.frequency := Never;
                         Modal.endCondition := None |};
  Modal.location := "";
  Modal.photos := []
|}.

Record Visit : Type := {
  employee : string;
  at_ : Date
}.

Record Staff : Type := {
  staffId : string
}.

End Samples.

(* ================================================================== *)
(** ** Day keys and the calendar

    What is needed to compare the keys the group stage makes with the days
    they stand for. *)
(* ================================================================== *)

Module DayKeys.

(** The key [format (date, 'yyyy-MM-dd')] gives every instant of the local
    day [day]. *)
Definition keyOfDay (day : Z) : string :=
  let '(signedYear, month, day) := civilFromDays day in
  let year := if 0 <? signedYear then signedYear else 1 - signedYear in
  String.append (addLeadingZeros year 4)
    (String.append "-"
       (String.append (addLeadingZeros month 2)
          (String.append "-" (addLeadingZeros day 2)))).

(** The day numbers of 0001-01-01 and of 9999-12-31. *)
Definition firstDay : Z := -719162.
Definition lastDay : Z := 2932896.

(** The instant is of a local day of the years 1 to 9999. *)
Definition inFourDigitYears {rt : Runtime} (t : Z) : Prop :=
  firstDay <= localDay t <= lastDay.

(** The day [doe] of an era of 146097 days, which starts on a first of
    March: its year within the era, its day within that year, and the
    month (0 for March) and day of month of such a day. *)
Definition yoeOf (doe : Z) : Z :=
  (doe - doe / 1460 + doe / 36524 - doe / 146096) / 365.

Definition doyOf (doe : Z) : Z :=
  doe - (365 * yoeOf doe + yoeOf doe / 4 - yoeOf doe / 100).

Definition mpOf (doy : Z) : Z := (5 * doy + 2) / 153.

Definition dOf (doy : Z) : Z := doy - (153 * mpOf doy + 2) / 5 + 1.

(** The date of the day [doe] of an era, the year counted within the era
    (0 to 400, January and February belonging to the next year). *)
Definition civilOfDoe (doe : Z) : Z * Z * Z :=
  let mp := mpOf (doyOf doe) in
  let m := if mp <? 10 then mp + 3 else mp - 9 in
  ((if m <=? 2 then yoeOf doe + 1 else yoeOf doe), m, dOf (doyOf doe)).

(** Dates in the order of the calendar. *)
Definition dateBefore (a b : Z * Z * Z) : Prop :=
  let '(y1, m1, d1) := a in
  let '(y2, m2, d2) := b in
  y1 < y2 \/ (y1 = y2 /\ (m1 < m2 \/ (m1 = m2 /\ d1 < d2))).

(** [f] holds of the [n] integers from [z] on. *)
Fixpoint allFrom (f : Z -> bool) (n : nat) (z : Z) : bool :=
  match n with
  | O => true
  | S k => f z && allFrom f k (z + 1)
  end.

(** [n] and [n + 1] padded to [width] digits have that width and are in
    lexicographic order. *)
Definition nextPaddedLater (width : nat) (n : Z) : bool :=
  (String.length (addLeadingZeros n width) =? width)%nat
  && (String.length (addLeadingZeros (n + 1) width) =? width)%nat
  && match String.compare (addLeadingZeros n width)
                          (addLeadingZeros (n + 1) width) with
     | Lt => true
     | _ => false
     end.

(** Keys in the order of the days they stand for: every instant of the
    years 1 to 9999 with the first key is on an earlier local day than
    every such instant with the second. *)
Definition earlierDay {rt : Runtime} (k1 k2 : string) : Prop :=
  forall t1 t2,
    inFourDigitYears t1 -> inFourDigitYears t2 ->
    formatLocalDate t1 = k1 -> formatLocalDate t2 = k2 ->
    localDay t1 < localDay t2.

End DayKeys.

(* ================================================================== *)
(** ** Facts about the runtime operations *)
(* ================================================================== *)

Unset Implicit Arguments.

Section StringFacts.

Lemma prefix_iff (p s : string) :
  String.prefix p s = true <-> exists post, s = String.append p post.
Proof.
  revert s; induction p as [|a p IH]; intros s.
  - split; [intros _; exists s; reflexivity | destruct s; reflexivity].
  - destruct s as [|b s]; simpl.
    + split; [discriminate | intros [post H]; discriminate].
    + destruct (ascii_dec a b) as [->|Hne].
      * rewrite IH. split; intros [post H]; exists post.
        -- now rewrite H.
        -- now injection H.
      * split; [discriminate | intros [post H]].
        injection H as Hab _. now elim Hne.
Qed.

Lemma includes_unfold (s q : string) :
  includes s q
  = String.prefix q s
    || match s with
       | EmptyString => false
       | String _ rest => includes rest q
       end.
Proof. destruct s; reflexivity. Qed.

Lemma includes_iff (s q : string) :
  includes s q = true <-> Substring q s.
Proof.
  unfold Substring.
  induction s as [|c s IH]; rewrite includes_unfold, orb_true_iff, prefix_iff.
  - split.
    + intros [[post H]|H]; [|discriminate]. now exists EmptyString, post.
    + intros [pre [post H]]. left. destruct pre; [now exists post|discriminate].
  - rewrite IH. split.
    + intros [[post H]|[pre [post H]]].
      * now exists EmptyString, post.
      * exists (String c pre), post. simpl. now rewrite H.
    + intros [pre [post H]]. destruct pre as [|c' pre].
      * left. now exists post.
      * right. injection H as _ H. now exists pre, post.
Qed.

Lemma truthy_false_iff (s : string) : truthy s = false <-> s = EmptyString.
Proof. destruct s; simpl; split; congruence. Qed.

End StringFacts.

Section SortFacts.
Context {A : Type}.
Variable comparefn : A -> A -> Number.

Lemma sort_insert_perm (x : A) (l : list A) :
  Permutation (x :: l) (sort_insert comparefn x l).
Proof.
  induction l as [|y l IH]; simpl; [reflexivity|].
  destruct (sortsAfter comparefn x y); [|reflexivity].
  rewrite perm_swap. now constructor.
Qed.

Lemma Array_sort_perm (l : list A) : Permutation l (Array_sort comparefn l).
Proof.
  induction l as [|x l IH]; simpl; [constructor|].
  rewrite <- sort_insert_perm. now constructor.
Qed.

Lemma Array_sort_In (l : list A) (x : A) :
  In x (Array_sort comparefn l) <-> In x l.
Proof.
  split; apply Permutation_in;
    [symmetry|]; apply Array_sort_perm.
Qed.

Lemma Array_sort_length (l : list A) :
  List.length (Array_sort comparefn l) = List.length l.
Proof. symmetry. apply Permutation_length, Array_sort_perm. Qed.

(** Stability: a class of elements none of which sorts after another
    comes out in the order it went in. *)
Lemma filter_sort_insert (p : A -> bool) (x : A) (l : list A) :
  (forall y, In y l -> p x = true -> p y = true ->
             sortsAfter comparefn x y = false) ->
  filter p (sort_insert comparefn x l) = filter p (x :: l).
Proof.
  induction l as [|y l IH]; intros H; simpl; [reflexivity|].
  destruct (sortsAfter comparefn x y) eqn:Hxy; [|reflexivity].
  simpl. rewrite IH by (intros z Hz; apply H; now right). simpl.
  destruct (p x) eqn:Hx, (p y) eqn:Hy; try reflexivity.
  rewrite H in Hxy; [discriminate|now left|reflexivity|assumption].
Qed.

Lemma Array_sort_stable (p : A -> bool) (l : list A) :
  (forall x y, In x l -> In y l -> p x = true -> p y = true ->
               sortsAfter comparefn x y = false) ->
  filter p (Array_sort comparefn l) = filter p l.
Proof.
  induction l as [|x l IH]; intros H; simpl; [reflexivity|].
  rewrite filter_sort_insert.
  - simpl. rewrite IH; [reflexivity|].
    intros a b Ha Hb. apply H; now right.
  - intros y Hy. apply (proj1 (Array_sort_In l y)) in Hy.
    apply H; [now left|now right].
Qed.

(** Sortedness, for a comparator that is consistent on the elements
    satisfying [P]. *)
Variable P : A -> Prop.
Hypothesis total : forall x y, P x -> P y ->
  sortsAfter comparefn x y = true -> sortsAfter comparefn y x = false.
Hypothesis trans : forall x y z, P x -> P y -> P z ->
  sortsAfter comparefn x y = false -> sortsAfter comparefn y z = false ->
  sortsAfter comparefn x z = false.

Lemma sort_insert_sorted (x : A) (l : list A) :
  P x -> Forall P l ->
  StronglySorted (fun a b => sortsAfter comparefn a b = false) l ->
  StronglySorted (fun a b => sortsAfter comparefn a b = false)
                 (sort_insert comparefn x l).
Proof.
  intros Hx HP Hs. induction Hs as [|y l Hs IH Hy]; simpl.
  - repeat constructor.
  - inversion HP as [|? ? Py Pl]; subst.
    destruct (sortsAfter comparefn x y) eqn:Hxy.
    + constructor; [now apply IH|].
      apply Forall_forall. intros z Hz.
      apply (Permutation_in _ (Permutation_sym (sort_insert_perm x l))) in Hz.
      destruct Hz as [<-|Hz]; [now apply total|].
      rewrite Forall_forall in Hy. now apply Hy.
    + constructor; [now constructor|].
      constructor; [assumption|].
      rewrite Forall_forall in Hy, Pl |- *. intros z Hz.
      apply (trans x y z Hx Py (Pl z Hz) Hxy). now apply Hy.
Qed.

Lemma Array_sort_sorted (l : list A) :
  Forall P l ->
  StronglySorted (fun a b => sortsAfter comparefn a b = false)
                 (Array_sort comparefn l).
Proof.
  induction 1 as [|x l Hx Hl IH]; simpl; [constructor|].
  apply sort_insert_sorted; auto.
  rewrite Forall_forall in Hl |- *. intros y Hy. apply Hl.
  now apply (proj1 (Array_sort_In l y)).
Qed.

End SortFacts.

(* ================================================================== *)
(** ** The filter stage *)
(* ================================================================== *)

Section FilterStage.
Context {rt : Runtime}.

Local Open Scope string_scope.

Lemma filter_filter {A : Type} (p q : A -> bool) (l : list A) :
  filter p (filter q l) = filter (fun x => q x && p x) l.
Proof.
  induction l as [|x l IH]; simpl; [reflexivity|].
  destruct (q x); simpl; [destruct (p x)|]; now rewrite IH.
Qed.

Lemma filter_true {A : Type} (l : list A) : filter (fun _ => true) l = l.
Proof. induction l; simpl; congruence. Qed.

Lemma isAfter_start_iff (now : Z) (e : EventPrimitives) :
  isAfter (new_Date (startAt (duration e))) (Some now) = true
  <-> startsAfter now e.
Proof.
  unfold startsAfter, new_Date, isAfter.
  destruct (Date_parse (startAt (duration e))) as [t|].
  - rewrite Z.ltb_lt. split; [intros H; now exists t|].
    intros [t' [Ht H]]. now injection Ht as ->.
  - split; [discriminate|]. intros [t [Ht _]]. discriminate.
Qed.

Lemma isBefore_start_iff (now : Z) (e : EventPrimitives) :
  isBefore (new_Date (startAt (duration e))) (Some now) = true
  <-> startsBefore now e.
Proof.
  unfold startsBefore, new_Date, isBefore.
  destruct (Date_parse (startAt (duration e))) as [t|].
  - rewrite Z.ltb_lt. split; [intros H; now exists t|].
    intros [t' [Ht H]]. now injection Ht as ->.
  - split; [discriminate|]. intros [t [Ht _]]. discriminate.
Qed.

Lemma isBefore_end_iff (now : Z) (e : EventPrimitives) :
  isBefore (new_Date (endAt (duration e))) (Some now) = true
  <-> endsBefore now e.
Proof.
  unfold endsBefore, new_Date, isBefore.
  destruct (Date_parse (endAt (duration e))) as [t|].
  - rewrite Z.ltb_lt. split; [intros H; now exists t|].
    intros [t' [Ht H]]. now injection Ht as ->.
  - split; [discriminate|]. intros [t [Ht _]]. discriminate.
Qed.

Lemma isToday_iff (now : Z) (e : EventPrimitives) :
  isToday now (new_Date (startAt (duration e))) = true
  <-> startsToday now e.
Proof.
  unfold startsToday, new_Date, isToday, isSameDay.
  destruct (Date_parse (startAt (duration e))) as [t|].
  - rewrite Z.eqb_eq. split; [intros H; now exists t|].
    intros [t' [Ht H]]. now injection Ht as ->.
  - split; [discriminate|]. intros [t [Ht _]]. discriminate.
Qed.

Lemma statusFilter_filter (now : Z) (filterStatus : string)
    (l : list EventPrimitives) :
  statusFilter now filterStatus l = filter (statusKeeps now filterStatus) l.
Proof.
  unfold statusFilter, statusKeeps.
  destruct (filterStatus =? "upcoming"); [reflexivity|].
  destruct (filterStatus =? "past"); [reflexivity|].
  destruct (filterStatus =? "today"); [reflexivity|].
  now rewrite filter_true.
Qed.

Lemma statusKeeps_iff (now : Z) (filterStatus : string)
    (e : EventPrimitives) :
  statusKeeps now filterStatus e = true <-> statusSelects now filterStatus e.
Proof.
  unfold statusKeeps, statusSelects.
  destruct (String.eqb_spec filterStatus "upcoming") as [->|Hu].
  { rewrite isAfter_start_iff. split; [|tauto].
    intros H; repeat split; [tauto|discriminate|discriminate]. }
  destruct (String.eqb_spec filterStatus "past") as [->|Hp].
  { rewrite isBefore_end_iff. split; [|tauto].
    intros H; repeat split; [discriminate|tauto|discriminate]. }
  destruct (String.eqb_spec filterStatus "today") as [->|Ht].
  { rewrite isToday_iff. split; [|tauto].
    intros H; repeat split; [discriminate|discriminate|tauto]. }
  split; [|reflexivity]. intros _. repeat split; intros; contradiction.
Qed.

Lemma searchFilter_filter (searchQuery : string)
    (l : list EventPrimitives) :
  searchFilter searchQuery l = filter (searchKeeps searchQuery) l.
Proof.
  unfold searchFilter, searchKeeps.
  destruct (truthy searchQuery); [reflexivity|now rewrite filter_true].
Qed.

Lemma searchKeeps_iff (searchQuery : string) (e : EventPrimitives) :
  searchKeeps searchQuery e = true <-> searchSelects searchQuery e.
Proof.
  unfold searchKeeps, searchSelects, matchesQuery.
  destruct (truthy searchQuery) eqn:Hq.
  - rewrite !orb_true_iff, !includes_iff.
    assert (searchQuery <> EmptyString)
      by (intros ->; discriminate).
    tauto.
  - apply truthy_false_iff in Hq. tauto.
Qed.

Lemma dateRangeFilter_filter (dateRange : DateRange)
    (l : list EventPrimitives) :
  dateRangeFilter dateRange l = filter (rangeKeeps dateRange) l.
Proof.
  unfold dateRangeFilter, rangeKeeps.
  destruct (from dateRange) as [lo|], (to dateRange) as [hi|].
  - now rewrite filter_filter.
  - apply filter_ext. intros e. now rewrite andb_true_r.
  - reflexivity.
  - now rewrite filter_true.
Qed.

Lemma rangeKeeps_iff (dateRange : DateRange) (e : EventPrimitives) :
  rangeKeeps dateRange e = true <-> inRange dateRange e.
Proof.
  unfold rangeKeeps, inRange. rewrite andb_true_iff.
  assert (Hlo : forall lo,
    isAfter (new_Date (startAt (duration e))) lo = true
    <-> exists u, lo = Some u /\ startsAfter u e).
  { intros [u|].
    - rewrite isAfter_start_iff. split; [intros H; now exists u|].
      intros [u' [Hu H]]. now injection Hu as ->.
    - unfold isAfter. destruct (new_Date _); split;
        try discriminate; intros [u [Hu _]]; discriminate. }
  assert (Hhi : forall hi,
    isBefore (new_Date (startAt (duration e))) hi = true
    <-> exists u, hi = Some u /\ startsBefore u e).
  { intros [u|].
    - rewrite isBefore_start_iff. split; [intros H; now exists u|].
      intros [u' [Hu H]]. now injection Hu as ->.
    - unfold isBefore. destruct (new_Date _); split;
        try discriminate; intros [u [Hu _]]; discriminate. }
  destruct (from dateRange) as [lo|], (to dateRange) as [hi|];
    rewrite ?Hlo, ?Hhi; split.
  - intros [H1 H2]; split; intros b Hb; inversion Hb; subst; assumption.
  - intros [H1 H2]; split; [now apply H1|now apply H2].
  - intros [H1 _]; split; intros b Hb; inversion Hb; subst; assumption.
  - intros [H1 _]; split; [now apply H1|reflexivity].
  - intros [_ H2]; split; intros b Hb; inversion Hb; subst; assumption.
  - intros [_ H2]; split; [reflexivity|now apply H2].
  - intros _; split; intros b Hb; discriminate.
  - intros _; split; reflexivity.
Qed.

(** The filter stage as one filter followed by the sort. *)
Lemma filteredEvents_filter (l : list EventPrimitives)
    (searchQuery filterStatus : string) (dateRange : DateRange)
    (sortBy : string) (now : Z) :
  filteredEvents (Some l) searchQuery filterStatus dateRange sortBy now
  = sortStage sortBy
      (filter (fun e => searchKeeps searchQuery e
                        && statusKeeps now filterStatus e
                        && rangeKeeps dateRange e) l).
Proof.
  unfold filteredEvents.
  rewrite searchFilter_filter, statusFilter_filter, dateRangeFilter_filter.
  rewrite !filter_filter. f_equal. apply filter_ext. intros e.
  now rewrite andb_assoc.
Qed.

(** C1. Whatever the events and the instant [now], the status filter
    keeps, in their order, exactly the events the chosen status selects:
    under [upcoming] those that start strictly after [now], under [past]
    those that end strictly before [now], under [today] those that start
    on the local calendar day of [now], and under [all] every event. *)
Theorem status_filter_keeps_selected (now : Z) (l : list EventPrimitives) :
  (exists keep, statusFilter now "upcoming" l = filter keep l
                /\ forall e, keep e = true <-> startsAfter now e)
  /\ (exists keep, statusFilter now "past" l = filter keep l
                   /\ forall e, keep e = true <-> endsBefore now e)
  /\ (exists keep, statusFilter now "today" l = filter keep l
                   /\ forall e, keep e = true <-> startsToday now e)
  /\ statusFilter now "all" l = l.
Proof.
  repeat split.
  - eexists; split; [reflexivity|]. intros e. apply isAfter_start_iff.
  - eexists; split; [reflexivity|]. intros e. apply isBefore_end_iff.
  - eexists; split; [reflexivity|]. intros e. apply isToday_iff.
Qed.

(** C2, as the code has it. An event passes the search filter iff the
    search text is empty or the search text, case-folded but not trimmed,
    is a substring of the case-folded name, description or location; an
    empty search text keeps every event. *)
Theorem search_filter_untrimmed (searchQuery : string)
    (l : list EventPrimitives) :
  (exists keep, searchFilter searchQuery l = filter keep l
                /\ forall e, keep e = true <-> searchSelects searchQuery e)
  /\ searchFilter "" l = l.
Proof.
  split; [|reflexivity].
  exists (searchKeeps searchQuery). split.
  - apply searchFilter_filter.
  - apply searchKeeps_iff.
Qed.

(** C7. The date range filter keeps exactly the events that start
    strictly after the lower bound, when one is set, and strictly before
    the upper bound, when one is set; in the whole filter the bounds are
    combined by AND with each other and with the search and the status
    predicates; no collection, or an empty one, gives an empty result. *)
Theorem date_range_filter_bounds (dateRange : DateRange)
    (l : list EventPrimitives) :
  (exists keep, dateRangeFilter dateRange l = filter keep l
                /\ forall e, keep e = true <-> inRange dateRange e)
  /\ (forall searchQuery filterStatus sortBy now,
        exists keep,
          Permutation
            (filter keep l)
            (filteredEvents (Some l) searchQuery filterStatus dateRange
                            sortBy now)
          /\ forall e, keep e = true
                       <-> searchSelects searchQuery e
                           /\ statusSelects now filterStatus e
                           /\ inRange dateRange e)
  /\ (forall searchQuery filterStatus sortBy now,
        filteredEvents None searchQuery filterStatus dateRange sortBy now
        = []
        /\ filteredEvents (Some []) searchQuery filterStatus dateRange
                          sortBy now = []).
Proof.
  split; [|split].
  - exists (rangeKeeps dateRange). split.
    + apply dateRangeFilter_filter.
    + apply rangeKeeps_iff.
  - intros q st sb now. eexists. split.
    + rewrite filteredEvents_filter. apply Array_sort_perm.
    + intros e. cbv beta.
      rewrite !andb_true_iff, searchKeeps_iff, statusKeeps_iff, rangeKeeps_iff.
      tauto.
  - intros q st sb now. split; [reflexivity|].
    now rewrite filteredEvents_filter.
Qed.

(** C10. With the default selection (status [upcoming], empty search
    text, no date range) and one reading of the clock, the filter stage
    returns as many events as the upcoming counter counts in the
    unfiltered collection; under status [today] as many as the today
    counter counts. *)
Theorem default_filter_matches_counters
    (events : option (list EventPrimitives)) (sortBy : string) (now : Z) :
  List.length (filteredEvents events "" "upcoming" noRange sortBy now)
  = totalUpcomingEvents events now
  /\ List.length (filteredEvents events "" "today" noRange sortBy now)
     = todayEvents events now.
Proof.
  destruct events as [l|]; [|split; reflexivity].
  unfold filteredEvents, sortStage, totalUpcomingEvents, todayEvents.
  rewrite !Array_sort_length. split; reflexivity.
Qed.

End FilterStage.

(* ================================================================== *)
(** ** The sort stage *)
(* ================================================================== *)

Section SortStage.
Context {rt : Runtime}.

Local Open Scope string_scope.
Local Open Scope Z_scope.

Lemma Qle_bool_sub_Z (t u : Z) :
  Qle_bool (inject_Z t - inject_Z u) 0 = (t <=? u).
Proof.
  unfold Qle_bool, Qminus, Qplus, Qopp, inject_Z; simpl.
  destruct (Z.leb_spec t u); [apply Z.leb_le|apply Z.leb_gt]; lia.
Qed.

Lemma Qle_bool_inject_Z (z : Z) : Qle_bool (inject_Z z) 0 = (z <=? 0).
Proof.
  unfold Qle_bool, inject_Z; simpl. now rewrite Z.mul_1_r.
Qed.

Lemma Qle_bool_sub (a b : Q) : Qle_bool (a - b) 0 = true <-> (a <= b)%Q.
Proof. rewrite Qle_bool_iff. split; intros H; lra. Qed.

(** When one event sorts strictly after another, option by option. *)
Lemma sortsAfter_date_asc (a b : EventPrimitives) :
  sortsAfter (compareEvents "date-asc") a b
  = match startTime a, startTime b with
    | Some t, Some u => u <? t
    | _, _ => false
    end.
Proof.
  unfold sortsAfter, SortCompare, compareEvents, startTime, new_Date; simpl.
  destruct (Date_parse (startAt (duration a))) as [t|],
           (Date_parse (startAt (duration b))) as [u|]; simpl;
    try reflexivity.
  rewrite Qle_bool_sub_Z. symmetry; apply Z.ltb_antisym.
Qed.

Lemma sortsAfter_date_desc (a b : EventPrimitives) :
  sortsAfter (compareEvents "date-desc") a b
  = match startTime a, startTime b with
    | Some t, Some u => t <? u
    | _, _ => false
    end.
Proof.
  unfold sortsAfter, SortCompare, compareEvents, startTime, new_Date; simpl.
  destruct (Date_parse (startAt (duration a))) as [t|],
           (Date_parse (startAt (duration b))) as [u|]; simpl;
    try reflexivity.
  rewrite Qle_bool_sub_Z. symmetry; apply Z.ltb_antisym.
Qed.

Lemma sortsAfter_name_asc (a b : EventPrimitives) :
  sortsAfter (compareEvents "name-asc") a b
  = (0 <? localeCompare (name a) (name b)).
Proof.
  unfold sortsAfter, SortCompare, compareEvents; simpl.
  rewrite Qle_bool_inject_Z. symmetry; apply Z.ltb_antisym.
Qed.

Lemma sortsAfter_name_desc (a b : EventPrimitives) :
  sortsAfter (compareEvents "name-desc") a b
  = (0 <? localeCompare (name b) (name a)).
Proof.
  unfold sortsAfter, SortCompare, compareEvents; simpl.
  rewrite Qle_bool_inject_Z. symmetry; apply Z.ltb_antisym.
Qed.

Lemma sortsAfter_price_asc (a b : EventPrimitives) :
  sortsAfter (compareEvents "price-asc") a b = false
  <-> (amount (price a) <= amount (price b))%Q.
Proof.
  unfold sortsAfter, SortCompare, compareEvents; simpl.
  rewrite negb_false_iff. apply Qle_bool_sub.
Qed.

Lemma sortsAfter_price_desc (a b : EventPrimitives) :
  sortsAfter (compareEvents "price-desc") a b = false
  <-> (amount (price b) <= amount (price a))%Q.
Proof.
  unfold sortsAfter, SortCompare, compareEvents; simpl.
  rewrite negb_false_iff. apply Qle_bool_sub.
Qed.

Lemma not_false_true (b : bool) : b = true <-> ~ b = false.
Proof. destruct b; split; congruence. Qed.

Lemma StronglySorted_weaken {A : Type} (P : A -> Prop) (R R' : A -> A -> Prop)
    (l : list A) :
  Forall P l ->
  (forall a b, P a -> P b -> R a b -> R' a b) ->
  StronglySorted R l -> StronglySorted R' l.
Proof.
  intros HP Himp Hs. induction Hs as [|x l Hs IH Hx]; constructor.
  - apply IH. now inversion HP.
  - inversion HP as [|? ? Px Pl]; subst.
    rewrite Forall_forall in Hx, Pl |- *. intros y Hy.
    apply Himp; auto.
Qed.

Lemma valid_start (e : EventPrimitives) :
  startTime e <> None -> exists t, startTime e = Some t.
Proof. destruct (startTime e) as [t|]; [now exists t|congruence]. Qed.

Ltac order_cases :=
  unfold inSortOrder; repeat split; intros Heq; try discriminate Heq.

Lemma sorted_date_asc (l : list EventPrimitives) :
  Forall (fun e => startTime e <> None) l -> SortedStably "date-asc" l.
Proof.
  intros Hvalid. unfold SortedStably, sortStage.
  split; [apply Array_sort_perm|split].
  - apply StronglySorted_weaken
      with (P := fun e => startTime e <> None)
           (R := fun a b => sortsAfter (compareEvents "date-asc") a b = false).
    + rewrite Forall_forall in Hvalid |- *. intros e He.
      apply Hvalid. revert He. apply Array_sort_In.
    + intros a b Ha Hb. rewrite sortsAfter_date_asc.
      destruct (valid_start _ Ha) as [t Ht], (valid_start _ Hb) as [u Hu].
      rewrite Ht, Hu, Z.ltb_ge. intros Htu. order_cases.
      exists t, u. auto.
    + apply Array_sort_sorted with (P := fun e => startTime e <> None);
        [| |assumption].
      * intros x y Hx Hy. rewrite !sortsAfter_date_asc.
        destruct (valid_start _ Hx) as [t ->], (valid_start _ Hy) as [u ->].
        rewrite Z.ltb_lt, Z.ltb_ge. lia.
      * intros x y z Hx Hy Hz. rewrite !sortsAfter_date_asc.
        destruct (valid_start _ Hx) as [t ->], (valid_start _ Hy) as [u ->],
                 (valid_start _ Hz) as [v ->].
        rewrite !Z.ltb_ge. lia.
  - intros x. apply Array_sort_stable. intros a b _ _.
    unfold sameSortKey; simpl. rewrite sortsAfter_date_asc.
    destruct (startTime x) as [s|]; [|discriminate].
    destruct (startTime a) as [t|]; [|discriminate].
    destruct (startTime b) as [u|]; [|discriminate].
    rewrite !Z.eqb_eq, Z.ltb_ge. lia.
Qed.

Lemma sorted_date_desc (l : list EventPrimitives) :
  Forall (fun e => startTime e <> None) l -> SortedStably "date-desc" l.
Proof.
  intros Hvalid. unfold SortedStably, sortStage.
  split; [apply Array_sort_perm|split].
  - apply StronglySorted_weaken
      with (P := fun e => startTime e <> None)
           (R := fun a b => sortsAfter (compareEvents "date-desc") a b = false).
    + rewrite Forall_forall in Hvalid |- *. intros e He.
      apply Hvalid. revert He. apply Array_sort_In.
    + intros a b Ha Hb. rewrite sortsAfter_date_desc.
      destruct (valid_start _ Ha) as [t Ht], (valid_start _ Hb) as [u Hu].
      rewrite Ht, Hu, Z.ltb_ge. intros Htu. order_cases.
      exists t, u. auto.
    + apply Array_sort_sorted with (P := fun e => startTime e <> None);
        [| |assumption].
      * intros x y Hx Hy. rewrite !sortsAfter_date_desc.
        destruct (valid_start _ Hx) as [t ->], (valid_start _ Hy) as [u ->].
        rewrite Z.ltb_lt, Z.ltb_ge. lia.
      * intros x y z Hx Hy Hz. rewrite !sortsAfter_date_desc.
        destruct (valid_start _ Hx) as [t ->], (valid_start _ Hy) as [u ->],
                 (valid_start _ Hz) as [v ->].
        rewrite !Z.ltb_ge. lia.
  - intros x. apply Array_sort_stable. intros a b _ _.
    unfold sameSortKey; simpl. rewrite sortsAfter_date_desc.
    destruct (startTime x) as [s|]; [|discriminate].
    destruct (startTime a) as [t|]; [|discriminate].
    destruct (startTime b) as [u|]; [|discriminate].
    rewrite !Z.eqb_eq, Z.ltb_ge. lia.
Qed.

Lemma collation_zero (a b : string) :
  ConsistentCollation -> localeCompare a b = 0 -> localeCompare b a = 0.
Proof.
  intros [Hanti _] H. specialize (Hanti a b). rewrite H in Hanti.
  simpl in Hanti. lia.
Qed.

Lemma sorted_name_asc (l : list EventPrimitives) :
  ConsistentCollation -> SortedStably "name-asc" l.
Proof.
  intros Hc. pose proof Hc as [Hanti Htrans].
  unfold SortedStably, sortStage.
  split; [apply Array_sort_perm|split].
  - apply StronglySorted_weaken
      with (P := fun _ => True)
           (R := fun a b => sortsAfter (compareEvents "name-asc") a b = false).
    + apply Forall_forall; auto.
    + intros a b _ _. rewrite sortsAfter_name_asc, Z.ltb_ge.
      intros Hab. order_cases. assumption.
    + apply Array_sort_sorted with (P := fun _ => True).
      * intros x y _ _. rewrite !sortsAfter_name_asc, Z.ltb_lt, Z.ltb_ge.
        specialize (Hanti (name x) (name y)). lia.
      * intros x y z _ _ _. rewrite !sortsAfter_name_asc, !Z.ltb_ge.
        apply Htrans.
      * apply Forall_forall; auto.
  - intros x. apply Array_sort_stable. intros a b _ _.
    unfold sameSortKey; simpl.
    rewrite sortsAfter_name_asc, !Z.eqb_eq, Z.ltb_ge.
    intros Ha Hb. apply Htrans with (b := name x); [|lia].
    rewrite (collation_zero _ _ Hc Ha). lia.
Qed.

Lemma sorted_name_desc (l : list EventPrimitives) :
  ConsistentCollation -> SortedStably "name-desc" l.
Proof.
  intros Hc. pose proof Hc as [Hanti Htrans].
  unfold SortedStably, sortStage.
  split; [apply Array_sort_perm|split].
  - apply StronglySorted_weaken
      with (P := fun _ => True)
           (R := fun a b => sortsAfter (compareEvents "name-desc") a b = false).
    + apply Forall_forall; auto.
    + intros a b _ _. rewrite sortsAfter_name_desc, Z.ltb_ge.
      intros Hab. order_cases. assumption.
    + apply Array_sort_sorted with (P := fun _ => True).
      * intros x y _ _. rewrite !sortsAfter_name_desc, Z.ltb_lt, Z.ltb_ge.
        specialize (Hanti (name x) (name y)). lia.
      * intros x y z _ _ _. rewrite !sortsAfter_name_desc, !Z.ltb_ge.
        intros Hyx Hzy. now apply Htrans with (b := name y).
      * apply Forall_forall; auto.
  - intros x. apply Array_sort_stable. intros a b _ _.
    unfold sameSortKey; simpl.
    rewrite sortsAfter_name_desc, !Z.eqb_eq, Z.ltb_ge.
    intros Ha Hb. apply Htrans with (b := name x); [|lia].
    rewrite (collation_zero _ _ Hc Hb). lia.
Qed.

Lemma sorted_price_asc (l : list EventPrimitives) :
  SortedStably "price-asc" l.
Proof.
  unfold SortedStably, sortStage.
  split; [apply Array_sort_perm|split].
  - apply StronglySorted_weaken
      with (P := fun _ => True)
           (R := fun a b => sortsAfter (compareEvents "price-asc") a b = false).
    + apply Forall_forall; auto.
    + intros a b _ _. rewrite sortsAfter_price_asc.
      intros Hab. order_cases. assumption.
    + apply Array_sort_sorted with (P := fun _ => True).
      * intros x y _ _. rewrite not_false_true, !sortsAfter_price_asc. lra.
      * intros x y z _ _ _. rewrite !sortsAfter_price_asc. lra.
      * apply Forall_forall; auto.
  - intros x. apply Array_sort_stable. intros a b _ _.
    unfold sameSortKey; simpl.
    rewrite sortsAfter_price_asc, !Qeq_bool_iff. lra.
Qed.

Lemma sorted_price_desc (l : list EventPrimitives) :
  SortedStably "price-desc" l.
Proof.
  unfold SortedStably, sortStage.
  split; [apply Array_sort_perm|split].
  - apply StronglySorted_weaken
      with (P := fun _ => True)
           (R := fun a b => sortsAfter (compareEvents "price-desc") a b = false).
    + apply Forall_forall; auto.
    + intros a b _ _. rewrite sortsAfter_price_desc.
      intros Hab. order_cases. assumption.
    + apply Array_sort_sorted with (P := fun _ => True).
      * intros x y _ _. rewrite not_false_true, !sortsAfter_price_desc. lra.
      * intros x y z _ _ _. rewrite !sortsAfter_price_desc. lra.
      * apply Forall_forall; auto.
  - intros x. apply Array_sort_stable. intros a b _ _.
    unfold sameSortKey; simpl.
    rewrite sortsAfter_price_desc, !Qeq_bool_iff. lra.
Qed.

Lemma price_desc_pair (a b : EventPrimitives) :
  (amount (price a) == 100)%Q -> (amount (price b) == 50)%Q ->
  sortStage "price-desc" [a; b] = [a; b]
  /\ sortStage "price-desc" [b; a] = [a; b].
Proof.
  intros Ha Hb. unfold sortStage; simpl.
  assert (Hab : sortsAfter (compareEvents "price-desc") a b = false)
    by (apply sortsAfter_price_desc; lra).
  assert (Hba : sortsAfter (compareEvents "price-desc") b a = true).
  { apply not_false_true. rewrite sortsAfter_price_desc. lra. }
  now rewrite Hab, Hba.
Qed.

(** C3. For each of the six options the sort stage returns the filtered
    events rearranged so that they follow the chosen key and direction
    (start time, name under the collation, or price amount), and events
    with equal keys keep the order the filter stage gave them; under
    [price-desc] two events priced 100 and 50 come out as [100, 50]
    whatever their names and their order.  Ordering by start time is
    about events whose [startAt] is a well-formed instant, ordering by
    name about a consistent collation. *)
Theorem sort_stage_orders_stably (sortBy : string)
    (l : list EventPrimitives) :
  In sortBy sortOptions ->
  (sortBy = "date-asc" \/ sortBy = "date-desc" ->
   Forall (fun e => startTime e <> None) l) ->
  (sortBy = "name-asc" \/ sortBy = "name-desc" -> ConsistentCollation) ->
  Permutation l (sortStage sortBy l)
  /\ StronglySorted (inSortOrder sortBy) (sortStage sortBy l)
  /\ (forall x, filter (sameSortKey sortBy x) (sortStage sortBy l)
                = filter (sameSortKey sortBy x) l)
  /\ (forall a b,
        (amount (price a) == 100)%Q -> (amount (price b) == 50)%Q ->
        sortStage "price-desc" [a; b] = [a; b]
        /\ sortStage "price-desc" [b; a] = [a; b]).
Proof.
  intros Hopt Hdate Hname.
  assert (H : SortedStably sortBy l).
  { simpl in Hopt.
    destruct Hopt as [<-|[<-|[<-|[<-|[<-|[<-|[]]]]]]].
    - apply sorted_date_asc; auto.
    - apply sorted_date_desc; auto.
    - apply sorted_name_asc; auto.
    - apply sorted_name_desc; auto.
    - apply sorted_price_asc.
    - apply sorted_price_desc. }
  destruct H as [H1 [H2 H3]]. repeat split; try assumption;
    now apply price_desc_pair.
Qed.

End SortStage.

(* ================================================================== *)
(** ** Objects *)
(* ================================================================== *)

Section ObjectFacts.
Context {V : Type}.
Implicit Types (o : Object V) (k : string) (v : V).

Lemma Object_get_set_eq o k v : Object_get (Object_set o k v) k = Some v.
Proof.
  induction o as [|[k' v'] o IH]; simpl.
  - now rewrite String.eqb_refl.
  - destruct (String.eqb_spec k' k) as [->|Hne]; simpl.
    + now rewrite String.eqb_refl.
    + now apply String.eqb_neq in Hne as ->.
Qed.

Lemma Object_get_set_ne o k k' v :
  k <> k' -> Object_get (Object_set o k v) k' = Object_get o k'.
Proof.
  intros Hne. induction o as [|[k0 v0] o IH]; simpl.
  - now apply String.eqb_neq in Hne as ->.
  - destruct (String.eqb_spec k0 k) as [->|Hk]; simpl.
    + now apply String.eqb_neq in Hne as ->.
    + now rewrite IH.
Qed.

Lemma Object_get_None o k :
  Object_get o k = None <-> ~ In k (Object_keys o).
Proof.
  induction o as [|[k' v'] o IH]; simpl; [tauto|].
  destruct (String.eqb_spec k' k) as [->|Hne].
  - split; [discriminate|tauto].
  - rewrite IH. tauto.
Qed.

Lemma Object_get_Some_In o k v :
  Object_get o k = Some v -> In k (Object_keys o).
Proof.
  intros H. destruct (in_dec string_dec k (Object_keys o)) as [Hin|Hn];
    [assumption|].
  apply Object_get_None in Hn. congruence.
Qed.

Lemma Object_keys_set_new o k v :
  Object_get o k = None ->
  Object_set o k v = (o ++ [(k, v)])%list.
Proof.
  induction o as [|[k' v'] o IH]; simpl; [reflexivity|].
  destruct (String.eqb_spec k' k); [discriminate|].
  intros H. now rewrite IH.
Qed.

Lemma Object_keys_set_old o k v v' :
  Object_get o k = Some v' ->
  Object_keys (Object_set o k v) = Object_keys o.
Proof.
  induction o as [|[k0 v0] o IH]; simpl; [discriminate|].
  destruct (String.eqb_spec k0 k); [reflexivity|].
  intros H. simpl. now rewrite IH.
Qed.

Lemma Object_get_In o k v :
  NoDup (Object_keys o) -> In (k, v) o -> Object_get o k = Some v.
Proof.
  induction o as [|[k' v'] o IH]; simpl; [tauto|].
  intros Hnd [Heq|Hin].
  - injection Heq as -> ->. now rewrite String.eqb_refl.
  - inversion Hnd as [|? ? Hnot Hnd']; subst.
    destruct (String.eqb_spec k' k) as [->|Hne]; [|now apply IH].
    exfalso. apply Hnot. change k with (fst (k, v)). now apply in_map.
Qed.
End ObjectFacts.

(* ================================================================== *)
(** ** The group stage *)
(* ================================================================== *)

Section GroupStage.
Context {rt : Runtime}.

Implicit Types (g : Object (list EventPrimitives)) (e : EventPrimitives).

Lemma eventsOf_app g g' :
  eventsOf (g ++ g') = (eventsOf g ++ eventsOf g')%list.
Proof.
  unfold eventsOf, Object_values. now rewrite map_app, concat_app.
Qed.

Lemma eventsOf_push g k b e :
  Object_get g k = Some b ->
  Permutation (eventsOf (Object_set g k (b ++ [e]))) (e :: eventsOf g).
Proof.
  induction g as [|[k' b'] g IH]; simpl; [discriminate|].
  destruct (String.eqb_spec k' k) as [->|Hne]; intros H.
  - injection H as ->. unfold eventsOf; simpl.
    rewrite <- app_assoc. simpl. symmetry. apply Permutation_middle.
  - unfold eventsOf in *; simpl. rewrite (IH H).
    symmetry. apply Permutation_middle.
Qed.

Lemma filter_snoc {A : Type} (p : A -> bool) (l : list A) (x : A) :
  filter p (l ++ [x]) = (filter p l ++ if p x then [x] else [])%list.
Proof. rewrite filter_app. simpl. now destruct (p x). Qed.

Lemma snoc_not_nil {A : Type} (l : list A) (x : A) :
  match (l ++ [x])%list with [] => None | b => Some b end
  = Some (l ++ [x])%list.
Proof. now destruct l. Qed.

Lemma groupStep_grouped done g e t :
  startTime e = Some t ->
  Grouped done g ->
  exists g', groupStep g e = Ok g' /\ Grouped (done ++ [e]) g'.
Proof.
  intros Ht (Hnd & Hget & Hperm).
  unfold groupStep, dayKey, new_Date. unfold startTime in Ht.
  rewrite Ht; simpl. set (k0 := formatLocalDate t).
  assert (Hk0 : hasKey k0 e = true).
  { unfold hasKey, dayKey, new_Date. rewrite Ht; simpl.
    apply String.eqb_refl. }
  assert (Hother : forall k, k0 <> k -> hasKey k e = false).
  { intros k Hne. unfold hasKey, dayKey, new_Date. rewrite Ht; simpl.
    now apply String.eqb_neq. }
  destruct (Object_get g k0) as [b|] eqn:Hb; unfold pushEvent.
  - rewrite Hb. eexists; split; [reflexivity|]. repeat split.
    + now rewrite (Object_keys_set_old _ _ _ _ Hb).
    + intros k. rewrite filter_snoc.
      destruct (string_dec k0 k) as [<-|Hne].
      * rewrite Object_get_set_eq, Hk0, snoc_not_nil.
        rewrite Hget in Hb. destruct (filter (hasKey k0) done);
          [discriminate|]. now injection Hb as <-.
      * rewrite Object_get_set_ne, (Hother _ Hne), app_nil_r by assumption.
        apply Hget.
    + rewrite (eventsOf_push _ _ _ e Hb), Hperm.
      apply Permutation_cons_append.
  - rewrite Object_get_set_eq. eexists; split; [reflexivity|].
    rewrite (Object_keys_set_new _ _ [] Hb).
    assert (Hfresh : Object_get (g ++ [(k0, [])]) k0 = Some [])
      by (rewrite <- (Object_keys_set_new _ _ [] Hb);
          apply Object_get_set_eq).
    repeat split.
    + rewrite (Object_keys_set_old _ _ _ _ Hfresh).
      unfold Object_keys. rewrite map_app. simpl.
      apply NoDup_app; [assumption|repeat constructor; auto|].
      intros k Hk [<-|[]]. now apply Object_get_None in Hb.
    + intros k. rewrite filter_snoc.
      destruct (string_dec k0 k) as [<-|Hne].
      * rewrite Object_get_set_eq, Hk0, snoc_not_nil.
        rewrite Hget in Hb. now destruct (filter (hasKey k0) done).
      * rewrite Object_get_set_ne, (Hother _ Hne), app_nil_r by assumption.
        rewrite <- (Object_keys_set_new _ _ [] Hb).
        rewrite Object_get_set_ne by assumption. apply Hget.
    + rewrite (eventsOf_push _ _ _ e Hfresh), eventsOf_app.
      unfold eventsOf at 2; simpl. rewrite app_nil_r, Hperm.
      apply Permutation_cons_append.
Qed.

Lemma forEach_grouped rest : forall done g,
  Forall (fun e => startTime e <> None) rest ->
  Grouped done g ->
  exists g', forEach g rest = Ok g' /\ Grouped (done ++ rest) g'.
Proof.
  induction rest as [|e rest IH]; intros done g Hvalid Hg; simpl.
  - exists g. now rewrite app_nil_r.
  - inversion Hvalid as [|? ? He Hrest]; subst.
    destruct (startTime e) as [t|] eqn:Ht; [|congruence].
    destruct (groupStep_grouped done g e t Ht Hg) as [g1 [-> Hg1]]; simpl.
    destruct (IH _ _ Hrest Hg1) as [g' [Hrun Hg']].
    exists g'. now rewrite <- app_assoc in Hg'.
Qed.

Lemma Grouped_nil : Grouped [] [].
Proof. repeat split; [constructor|constructor]. Qed.

Lemma groupedEvents_grouped (l : list EventPrimitives) :
  Forall (fun e => startTime e <> None) l ->
  exists g, groupedEvents l = Ok g /\ Grouped l g.
Proof.
  intros Hvalid. unfold groupedEvents.
  destruct l as [|e l]; simpl.
  - exists []. split; [reflexivity|apply Grouped_nil].
  - apply (forEach_grouped (e :: l) [] [] Hvalid Grouped_nil).
Qed.

Lemma Grouped_keys l g k :
  Grouped l g ->
  (In k (Object_keys g) <-> exists e, In e l /\ dayKey e = Ok k).
Proof.
  intros (_ & Hget & _). specialize (Hget k). split.
  - intros Hin. destruct (filter (hasKey k) l) as [|e b] eqn:Hf.
    + apply Object_get_None in Hget. contradiction.
    + assert (He : In e (filter (hasKey k) l)) by (rewrite Hf; now left).
      apply filter_In in He as [He Hk]. exists e. split; [assumption|].
      unfold hasKey in Hk. destruct (dayKey e); [|discriminate].
      now apply String.eqb_eq in Hk as ->.
  - intros [e [He Hk]].
    assert (Hin : In e (filter (hasKey k) l)).
    { apply filter_In. split; [assumption|]. unfold hasKey.
      rewrite Hk. apply String.eqb_refl. }
    destruct (filter (hasKey k) l); [contradiction|].
    now apply Object_get_Some_In in Hget.
Qed.



End GroupStage.

(* ================================================================== *)
(** ** The paginate stage *)
(* ================================================================== *)

Section SliceFacts.
Context {A : Type}.

Lemma Array_slice_nonneg (l : list A) (a b : Z) :
  0 <= a <= b ->
  Array_slice l a b = firstn (Z.to_nat (b - a)) (skipn (Z.to_nat a) l).
Proof.
  intros Hab. unfold Array_slice, relativeIndex.
  replace (a <? 0) with false by (symmetry; apply Z.ltb_ge; lia).
  replace (b <? 0) with false by (symmetry; apply Z.ltb_ge; lia).
  set (len := Z.of_nat (List.length l)).
  destruct (Z.le_gt_cases a len) as [Ha|Ha].
  - rewrite (Z.min_l a len) by assumption.
    destruct (Z.le_gt_cases b len) as [Hb|Hb].
    + now rewrite (Z.min_l b len).
    + rewrite (Z.min_r b len) by lia.
      rewrite !firstn_all2; [reflexivity| |]; rewrite length_skipn; lia.
  - rewrite !Z.min_r by lia.
    rewrite !skipn_all2 by lia. now rewrite !firstn_nil.
Qed.

(** Cutting a list in chunks of [c] and gluing them gives the list. *)
Lemma chunks_concat (c : nat) : forall (m : nat) (l : list A),
  (List.length l <= c * m)%nat ->
  List.concat (map (fun i => firstn c (skipn (c * i) l)) (seq 0 m)) = l.
Proof.
  induction m as [|m IH]; intros l Hlen.
  - destruct l; [reflexivity|simpl in Hlen; lia].
  - rewrite <- cons_seq, <- seq_shift, map_cons, map_map, concat_cons.
    rewrite Nat.mul_0_r. simpl skipn.
    transitivity (firstn c l ++ skipn c l)%list; [|apply firstn_skipn].
    f_equal.
    rewrite <- (IH (skipn c l)) by (rewrite length_skipn; lia).
    f_equal. apply map_ext. intros i. rewrite skipn_skipn.
    do 2 f_equal. lia.
Qed.

Lemma In_chunk (c a : nat) (l : list A) (x : A) :
  In x (firstn c (skipn a l)) ->
  exists n, (a <= n < a + c)%nat /\ nth_error l n = Some x.
Proof.
  intros Hin. apply In_nth_error in Hin as [i Hi].
  rewrite nth_error_firstn in Hi.
  destruct (Nat.ltb_spec i c) as [Hlt|]; [|discriminate].
  rewrite nth_error_skipn in Hi. exists (a + i)%nat. split; [lia|assumption].
Qed.

Lemma NoDup_chunk (c a : nat) (l : list A) :
  NoDup l -> NoDup (firstn c (skipn a l)).
Proof.
  intros Hnd. rewrite <- (firstn_skipn a l) in Hnd.
  apply NoDup_app_remove_l in Hnd.
  rewrite <- (firstn_skipn c (skipn a l)) in Hnd.
  now apply NoDup_app_remove_r in Hnd.
Qed.
End SliceFacts.

Section KeyOrder.

Lemma sortsAfter_default (x y : string) :
  sortsAfter defaultCompare x y = true <-> String.compare x y = Gt.
Proof.
  unfold sortsAfter, SortCompare, defaultCompare.
  destruct (String.compare x y); simpl; split; congruence.
Qed.

Lemma sortsAfter_default_false (x y : string) :
  sortsAfter defaultCompare x y = false <-> String.compare x y <> Gt.
Proof.
  rewrite <- sortsAfter_default. destruct (sortsAfter _ _ _); split; congruence.
Qed.

Lemma compare_not_Gt_trans (x y z : string) :
  String.compare x y <> Gt -> String.compare y z <> Gt ->
  String.compare x z <> Gt.
Proof.
  intros Hxy Hyz.
  destruct (String.compare x y) eqn:Exy; [| |congruence].
  - apply String_as_OT.cmp_eq in Exy as ->. assumption.
  - destruct (String.compare y z) eqn:Eyz; [| |congruence].
    + apply String_as_OT.cmp_eq in Eyz as ->. now rewrite Exy.
    + apply String_as_OT.cmp_lt in Exy, Eyz.
      pose proof (String_as_OT.lt_trans _ _ _ Exy Eyz) as H.
      apply String_as_OT.cmp_lt in H. unfold String_as_OT.cmp in H.
      now rewrite H.
Qed.

(** The default sort puts distinct keys in strictly ascending order. *)
Lemma sorted_keys (keys : list string) :
  NoDup keys ->
  StronglySorted lexBefore (Array_sort defaultCompare keys).
Proof.
  intros Hnd.
  assert (Hs : StronglySorted
                 (fun a b => sortsAfter defaultCompare a b = false)
                 (Array_sort defaultCompare keys)).
  { apply Array_sort_sorted with (P := fun _ => True).
    - intros x y _ _. rewrite sortsAfter_default, sortsAfter_default_false.
      rewrite (String.compare_antisym x y).
      destruct (String.compare y x); simpl; congruence.
    - intros x y z _ _ _. rewrite !sortsAfter_default_false.
      apply compare_not_Gt_trans.
    - apply Forall_forall; auto. }
  assert (Hnd' : NoDup (Array_sort defaultCompare keys))
    by (eapply Permutation_NoDup; [apply Array_sort_perm|assumption]).
  induction Hs as [|x l Hs IH Hx]; constructor.
  - apply IH. now inversion Hnd'.
  - inversion Hnd' as [|? ? Hnot _]; subst.
    rewrite Forall_forall in Hx |- *. intros y Hy.
    specialize (Hx y Hy). apply sortsAfter_default_false in Hx.
    unfold lexBefore. destruct (String.compare x y) eqn:E;
      [|reflexivity|congruence].
    apply String_as_OT.cmp_eq in E as ->. contradiction.
Qed.

End KeyOrder.

Section PaginateStage.
Context {rt : Runtime}.

Implicit Types (g : Object (list EventPrimitives)) (e : EventPrimitives).

(** The sorted day keys of a grouping: [dates] in the code. *)
Local Abbreviation datesOf g := (Array_sort defaultCompare (Object_keys g)).

Lemma fold_set_fresh {V : Type} (f : string -> V) :
  forall (ks : list string) (acc : Object V),
    NoDup ks ->
    (forall k, In k ks -> ~ In k (Object_keys acc)) ->
    fold_left (fun o d => Object_set o d (f d)) ks acc
    = (acc ++ map (fun d => (d, f d)) ks)%list.
Proof.
  induction ks as [|k ks IH]; intros acc Hnd Hfresh; simpl.
  - now rewrite app_nil_r.
  - inversion Hnd as [|? ? Hk Hnd']; subst.
    rewrite Object_keys_set_new
      by (apply Object_get_None, Hfresh; now left).
    rewrite IH; [now rewrite <- app_assoc|assumption|].
    intros k' Hk'. unfold Object_keys. rewrite map_app, in_app_iff. simpl.
    intros [Hin|[<-|[]]]; [|contradiction].
    apply (Hfresh k'); [now right|assumption].
Qed.

Lemma Object_get_table {V : Type} (f : string -> V) (ks : list string)
    (d : string) :
  In d ks -> Object_get (map (fun d => (d, f d)) ks) d = Some (f d).
Proof.
  induction ks as [|k ks IH]; simpl; [tauto|].
  destruct (String.eqb_spec k d) as [->|Hne]; [reflexivity|].
  intros [Heq|Hin]; [contradiction|now apply IH].
Qed.

Lemma Object_keys_table {V : Type} (f : string -> V) (ks : list string) :
  Object_keys (map (fun d => (d, f d)) ks) = ks.
Proof. unfold Object_keys. rewrite map_map. simpl. apply map_id. Qed.

Lemma NoDup_dates g : NoDup (Object_keys g) -> NoDup (datesOf g).
Proof.
  intros Hnd. eapply Permutation_NoDup; [apply Array_sort_perm|assumption].
Qed.

(** A page is the table of the buckets of its slice of the dates. *)
Lemma paginated_table g (p : Z) :
  NoDup (Object_keys g) -> 1 <= p ->
  paginatedGroupedEvents g p
  = map (fun d => (d, Object_get g d))
        (firstn 10 (skipn (Z.to_nat ((p - 1) * 10)) (datesOf g))).
Proof.
  intros Hnd Hp. unfold paginatedGroupedEvents, eventsPerPage.
  rewrite Array_slice_nonneg by lia.
  replace (Z.to_nat (p * 10 - (p - 1) * 10)) with 10%nat by lia.
  rewrite fold_set_fresh; [reflexivity| |auto].
  apply NoDup_chunk, NoDup_dates, Hnd.
Qed.

Lemma totalPages_div g :
  totalPages g = - (- Z.of_nat (List.length (Object_keys g)) / 10).
Proof.
  unfold totalPages, Math_ceil, Qceiling, Qfloor, eventsPerPage.
  simpl. now rewrite Z.mul_1_r.
Qed.

Lemma totalPages_ceiling g :
  isCeilingOf (totalPages g) (Z.of_nat (List.length (Object_keys g))) 10.
Proof.
  unfold isCeilingOf. rewrite totalPages_div.
  pose proof (Z.div_mod (- Z.of_nat (List.length (Object_keys g))) 10).
  pose proof (Z.mod_pos_bound (- Z.of_nat (List.length (Object_keys g))) 10).
  lia.
Qed.

(** C5. For a grouping and a page number [p] from 1 on, the paginate
    stage takes the day keys in ascending lexicographic order, selects
    those at positions [(p-1)*10] up to [p*10] exclusive, and returns the
    mapping of exactly these keys, in this order, each to the bucket the
    group stage made for it; the number of pages is the ceiling of the
    number of day keys over 10, which is 1 when one day is present. *)
Theorem paginate_selects_slice g (p : Z) :
  NoDup (Object_keys g) -> 1 <= p ->
  (exists dates,
     Permutation (Object_keys g) dates
     /\ StronglySorted lexBefore dates
     /\ Object_keys (paginatedGroupedEvents g p)
        = firstn 10 (skipn (Z.to_nat ((p - 1) * 10)) dates)
     /\ (forall d, In d (Object_keys (paginatedGroupedEvents g p)) ->
           exists bucket,
             Object_get g d = Some bucket
             /\ Object_get (paginatedGroupedEvents g p) d
                = Some (Some bucket)))
  /\ isCeilingOf (totalPages g) (Z.of_nat (List.length (Object_keys g))) 10
  /\ (List.length (Object_keys g) = 1%nat -> totalPages g = 1).
Proof.
  intros Hnd Hp. split; [|split].
  - exists (datesOf g). rewrite (paginated_table g p Hnd Hp), Object_keys_table.
    split; [apply Array_sort_perm|]. split; [now apply sorted_keys|].
    split; [reflexivity|].
    intros d Hd. rewrite (Object_get_table _ _ _ Hd).
    assert (Hin : In d (Object_keys g)).
    { apply (Array_sort_In defaultCompare).
      apply In_chunk in Hd as [n [_ Hn]]. now apply nth_error_In in Hn. }
    destruct (Object_get g d) as [bucket|] eqn:Hget.
    + now exists bucket.
    + apply Object_get_None in Hget. contradiction.
  - apply totalPages_ceiling.
  - intros Hone. rewrite totalPages_div, Hone. reflexivity.
Qed.

End PaginateStage.

(* ================================================================== *)
(** ** When the group stage returns *)
(* ================================================================== *)

Section GroupStageErrors.
Context {rt : Runtime}.

Implicit Types (g : Object (list EventPrimitives)) (e : EventPrimitives).

Lemma groupStep_invalid g e :
  startTime e = None -> groupStep g e = Throw RangeError.
Proof.
  unfold startTime, groupStep, dayKey, new_Date. now intros ->.
Qed.

Lemma forEach_invalid rest : forall done g,
  Grouped done g ->
  Exists (fun e => startTime e = None) rest ->
  forEach g rest = Throw RangeError.
Proof.
  induction rest as [|e rest IH]; intros done g Hg Hex; [inversion Hex|].
  simpl. destruct (startTime e) as [t|] eqn:Ht.
  - destruct (groupStep_grouped done g e t Ht Hg) as [g1 [-> Hg1]]; simpl.
    apply (IH _ _ Hg1). inversion Hex as [? ? Hbad|]; [congruence|assumption].
  - now rewrite groupStep_invalid.
Qed.

(** The group stage returns exactly when every start is well formed, and
    throws [RangeError] otherwise. *)
Lemma groupedEvents_cases (l : list EventPrimitives) :
  (Forall (fun e => startTime e <> None) l
   /\ exists g, groupedEvents l = Ok g /\ Grouped l g)
  \/ (Exists (fun e => startTime e = None) l
      /\ groupedEvents l = Throw RangeError).
Proof.
  destruct (Forall_Exists_dec (fun e => startTime e <> None)
              (fun e => match startTime e as o
                              return {o <> None} + {~ o <> None} with
                        | Some t => left (fun H => eq_ind (Some t)
                                       (fun o => match o with
                                                 | Some _ => True
                                                 | None => False
                                                 end) I None H)
                        | None => right (fun H => H eq_refl)
                        end) l) as [Hall|Hex].
  - left. split; [assumption|now apply groupedEvents_grouped].
  - right.
    assert (Hex' : Exists (fun e => startTime e = None) l).
    { apply Exists_exists in Hex as [e [He Hbad]]. apply Exists_exists.
      exists e. split; [assumption|].
      destruct (startTime e); [exfalso; apply Hbad; discriminate|reflexivity]. }
    split; [assumption|]. unfold groupedEvents.
    destruct l as [|e l]; [inversion Hex'|]. simpl Nat.eqb. cbv iota.
    now apply forEach_invalid with (done := []); [apply Grouped_nil|].
Qed.

Lemma groupedEvents_Ok (l : list EventPrimitives) g :
  groupedEvents l = Ok g -> Grouped l g.
Proof.
  intros Hrun. destruct (groupedEvents_cases l) as [[_ [g' [Hg' H]]]|[_ Hbad]].
  - rewrite Hrun in Hg'. now injection Hg' as ->.
  - rewrite Hrun in Hbad. discriminate.
Qed.

End GroupStageErrors.

(* ================================================================== *)
(** ** All the pages together *)
(* ================================================================== *)

Section Pages.
Context {rt : Runtime}.

Implicit Types (g : Object (list EventPrimitives)) (e : EventPrimitives).

Local Abbreviation datesOf g := (Array_sort defaultCompare (Object_keys g)).

(** The bucket [g] has for [d]; empty when it has none. *)
Local Abbreviation bucketOf g :=
  (fun d : string => match Object_get g d with Some b => b | None => [] end).

Lemma page_keys g (i : nat) :
  NoDup (Object_keys g) ->
  Object_keys (paginatedGroupedEvents g (Z.of_nat i + 1))
  = firstn 10 (skipn (10 * i) (datesOf g)).
Proof.
  intros Hnd. rewrite paginated_table by (assumption || lia).
  rewrite Object_keys_table. do 2 f_equal. lia.
Qed.

Lemma page_events g (i : nat) :
  NoDup (Object_keys g) ->
  eventsOfPage (paginatedGroupedEvents g (Z.of_nat i + 1))
  = List.concat (map (bucketOf g) (firstn 10 (skipn (10 * i) (datesOf g)))).
Proof.
  intros Hnd. rewrite paginated_table by (assumption || lia).
  replace (Z.to_nat ((Z.of_nat i + 1 - 1) * 10)) with (10 * i)%nat by lia.
  unfold eventsOfPage, Object_values. now rewrite !map_map.
Qed.

Lemma pages_cover (g : Object (list EventPrimitives)) :
  (List.length (datesOf g) <= 10 * Z.to_nat (totalPages g))%nat.
Proof.
  pose proof (totalPages_ceiling g) as H. unfold isCeilingOf in H.
  rewrite Array_sort_length. lia.
Qed.

Lemma concat_concat_map {A B : Type} (f : A -> list B) (ls : list (list A)) :
  List.concat (map (fun l => List.concat (map f l)) ls)
  = List.concat (map f (List.concat ls)).
Proof.
  induction ls as [|l ls IH]; simpl; [reflexivity|].
  now rewrite map_app, concat_app, IH.
Qed.

Lemma Permutation_concat {A : Type} (l l' : list (list A)) :
  Permutation l l' -> Permutation (List.concat l) (List.concat l').
Proof.
  induction 1 as [|x l l' _ IH|x y l|l l' l'' _ IH1 _ IH2]; simpl.
  - constructor.
  - now apply Permutation_app_head.
  - rewrite !app_assoc. apply Permutation_app_tail, Permutation_app_comm.
  - now transitivity (List.concat l').
Qed.

Lemma buckets_of_keys g :
  NoDup (Object_keys g) ->
  List.concat (map (bucketOf g) (Object_keys g)) = eventsOf g.
Proof.
  intros Hnd. unfold eventsOf, Object_values, Object_keys.
  rewrite map_map. f_equal. apply map_ext_in. intros [k b] Hin. simpl.
  now rewrite (Object_get_In g k b Hnd Hin).
Qed.

Lemma all_page_keys g :
  NoDup (Object_keys g) ->
  List.concat (map (fun p => Object_keys (paginatedGroupedEvents g p))
                   (pageNumbers (totalPages g)))
  = datesOf g.
Proof.
  intros Hnd. unfold pageNumbers. rewrite map_map.
  rewrite (map_ext _ (fun i => firstn 10 (skipn (10 * i) (datesOf g))))
    by (intros i; now apply page_keys).
  apply chunks_concat, pages_cover.
Qed.

Lemma all_page_events g :
  NoDup (Object_keys g) ->
  Permutation
    (List.concat (map (fun p => eventsOfPage (paginatedGroupedEvents g p))
                      (pageNumbers (totalPages g))))
    (eventsOf g).
Proof.
  intros Hnd. unfold pageNumbers. rewrite map_map.
  rewrite (map_ext _ (fun i => List.concat (map (bucketOf g)
                          (firstn 10 (skipn (10 * i) (datesOf g))))))
    by (intros i; now apply page_events).
  rewrite <- (map_map (fun i => firstn 10 (skipn (10 * i) (datesOf g)))
                      (fun l => List.concat (map (bucketOf g) l))).
  rewrite concat_concat_map, chunks_concat by apply pages_cover.
  rewrite <- (buckets_of_keys g Hnd).
  apply Permutation_concat, Permutation_map, Permutation_sym, Array_sort_perm.
Qed.

Lemma page_number_index (n p : Z) :
  In p (pageNumbers n) -> exists i : nat, p = Z.of_nat i + 1.
Proof.
  unfold pageNumbers. intros Hin. apply in_map_iff in Hin as [i [<- _]].
  now exists i.
Qed.

Lemma In_pageNumbers (n p : Z) : In p (pageNumbers n) <-> 1 <= p <= n.
Proof.
  unfold pageNumbers. rewrite in_map_iff. split.
  - intros [i [<- Hi]]. apply in_seq in Hi. lia.
  - intros Hp. exists (Z.to_nat (p - 1)). split; [lia|].
    apply in_seq. lia.
Qed.

Lemma pages_disjoint_keys g (p q : Z) (d : string) :
  NoDup (Object_keys g) ->
  In p (pageNumbers (totalPages g)) -> In q (pageNumbers (totalPages g)) ->
  In d (Object_keys (paginatedGroupedEvents g p)) ->
  In d (Object_keys (paginatedGroupedEvents g q)) ->
  p = q.
Proof.
  intros Hnd Hp Hq.
  apply page_number_index in Hp as [i ->], Hq as [j ->].
  rewrite !page_keys by assumption. intros Hi Hj.
  apply In_chunk in Hi as [n [Hn Hdn]], Hj as [m [Hm Hdm]].
  assert (n = m).
  { apply (proj1 (NoDup_nth_error (datesOf g)) (NoDup_dates g Hnd)).
    - apply nth_error_Some. congruence.
    - congruence. }
  lia.
Qed.

Lemma page_event_key l g (p : Z) e :
  Grouped l g -> 1 <= p ->
  In e (eventsOfPage (paginatedGroupedEvents g p)) ->
  exists d, In d (Object_keys (paginatedGroupedEvents g p))
            /\ dayKey e = Ok d.
Proof.
  intros Hg Hp. pose proof Hg as (Hnd & Hget & _).
  rewrite (paginated_table g p Hnd Hp), Object_keys_table.
  unfold eventsOfPage, Object_values. rewrite !map_map. simpl.
  intros Hin. apply in_concat in Hin as [b [Hb He]].
  apply in_map_iff in Hb as [d [<- Hd]]. exists d. split; [assumption|].
  rewrite Hget in He. destruct (filter (hasKey d) l) as [|x b] eqn:Hf;
    [contradiction|].
  rewrite <- Hf in He. apply filter_In in He as [_ Hk].
  unfold hasKey in Hk. destruct (dayKey e); [|discriminate].
  now apply String.eqb_eq in Hk as ->.
Qed.

(** C6. For the grouping of a collection, the day keys of the pages
    1 to [totalPages], page after page, are the sorted day keys of the
    grouping, so every key is on a page; the events of all these pages
    together are the events of the grouping, hence of the collection, each
    as often; and two distinct page numbers in that range share no day key
    and no event. *)
Theorem pagination_covers_disjointly (l : list EventPrimitives) g :
  groupedEvents l = Ok g ->
  Permutation
    (List.concat (map (fun p => Object_keys (paginatedGroupedEvents g p))
                      (pageNumbers (totalPages g))))
    (Object_keys g)
  /\ Permutation
       (List.concat (map (fun p => eventsOfPage (paginatedGroupedEvents g p))
                         (pageNumbers (totalPages g))))
       (eventsOf g)
  /\ Permutation
       (List.concat (map (fun p => eventsOfPage (paginatedGroupedEvents g p))
                         (pageNumbers (totalPages g))))
       l
  /\ (forall p q d,
        1 <= p <= totalPages g -> 1 <= q <= totalPages g ->
        In d (Object_keys (paginatedGroupedEvents g p)) ->
        In d (Object_keys (paginatedGroupedEvents g q)) ->
        p = q)
  /\ (forall p q e,
        1 <= p <= totalPages g -> 1 <= q <= totalPages g ->
        In e (eventsOfPage (paginatedGroupedEvents g p)) ->
        In e (eventsOfPage (paginatedGroupedEvents g q)) ->
        p = q).
Proof.
  intros Hrun. apply groupedEvents_Ok in Hrun.
  pose proof Hrun as (Hnd & Hget & Hperm).
  split; [|split; [|split; [|split]]].
  - rewrite (all_page_keys g Hnd). symmetry. apply Array_sort_perm.
  - now apply all_page_events.
  - rewrite (all_page_events g Hnd). exact Hperm.
  - intros p q d Hp Hq. apply In_pageNumbers in Hp, Hq.
    now apply pages_disjoint_keys.
  - intros p q e Hp Hq Hep Heq.
    destruct (page_event_key l g p e Hrun (proj1 Hp) Hep) as [d [Hd Hkd]].
    destruct (page_event_key l g q e Hrun (proj1 Hq) Heq) as [d' [Hd' Hkd']].
    rewrite Hkd in Hkd'. injection Hkd' as <-.
    apply In_pageNumbers in Hp, Hq.
    now apply (pages_disjoint_keys g p q d Hnd Hp Hq).
Qed.

End Pages.

(* ================================================================== *)
(** ** Errors *)
(* ================================================================== *)

Section Errors.
Context {rt : Runtime}.

Local Open Scope string_scope.

Lemma filteredEvents_In (l : list EventPrimitives)
    (searchQuery filterStatus : string) (dateRange : DateRange)
    (sortBy : string) (now : Z) (e : EventPrimitives) :
  In e (filteredEvents (Some l) searchQuery filterStatus dateRange sortBy now)
  <-> In e l
      /\ searchKeeps searchQuery e = true
      /\ statusKeeps now filterStatus e = true
      /\ rangeKeeps dateRange e = true.
Proof.
  rewrite filteredEvents_filter. unfold sortStage.
  rewrite Array_sort_In, filter_In, !andb_true_iff. tauto.
Qed.

Lemma isBefore_invalid (d : Date) : isBefore None d = false.
Proof. reflexivity. Qed.

(** C8, as the code has it. On events that carry the fields of their type
    the filter and sort stage is defined whatever the timestamps, and it
    leaves out an event with a malformed [startAt] under [upcoming], under
    [today] and as soon as a bound of the date range is set, and an event
    with a malformed [endAt] under [past].  The group stage returns a
    mapping when every event it is given has a well-formed [startAt], and
    throws [RangeError] when one has not. *)
Theorem malformed_timestamps (l : list EventPrimitives)
    (searchQuery sortBy : string) (dateRange : DateRange) (now : Z) :
  (forall e filterStatus,
     startTime e = None ->
     filterStatus = "upcoming" \/ filterStatus = "today"
     \/ from dateRange <> None \/ to dateRange <> None ->
     ~ In e (filteredEvents (Some l) searchQuery filterStatus dateRange
                            sortBy now))
  /\ (forall e,
        Date_parse (endAt (duration e)) = None ->
        ~ In e (filteredEvents (Some l) searchQuery "past" dateRange
                               sortBy now))
  /\ (Forall (fun e => startTime e <> None) l ->
      exists g, groupedEvents l = Ok g)
  /\ (Exists (fun e => startTime e = None) l ->
      groupedEvents l = Throw RangeError).
Proof.
  split; [|split; [|split]].
  - intros e st Hbad Hsel Hin.
    apply filteredEvents_In in Hin as (_ & _ & Hst & Hrg).
    unfold statusKeeps, rangeKeeps, new_Date in Hst, Hrg.
    unfold startTime in Hbad. rewrite Hbad in Hst, Hrg.
    destruct Hsel as [->|[->|[Hf|Ht]]].
    + discriminate Hst.
    + discriminate Hst.
    + destruct (from dateRange); [discriminate Hrg|congruence].
    + destruct (to dateRange); [|congruence].
      rewrite isBefore_invalid, andb_false_r in Hrg. discriminate.
  - intros e Hbad Hin.
    apply filteredEvents_In in Hin as (_ & _ & Hst & _).
    unfold statusKeeps, new_Date in Hst. rewrite Hbad in Hst. discriminate.
  - intros Hvalid.
    destruct (groupedEvents_grouped l Hvalid) as [g [Hg _]]. now exists g.
  - intros Hbad.
    destruct (groupedEvents_cases l) as [[Hvalid _]|[_ Hthrow]];
      [|assumption].
    apply Exists_exists in Hbad as [e [He Hnone]].
    rewrite Forall_forall in Hvalid. now elim (Hvalid e He).
Qed.

End Errors.

(* ================================================================== *)
(** ** The source array is left alone *)
(* ================================================================== *)

Section SourceArray.
Context {rt : Runtime}.

Import Heap.

Lemma update_app_r (s f : Store) (r : Ref) (a : list EventPrimitives) :
  (List.length s <= r)%nat ->
  update r a (s ++ f) = (s ++ update (r - List.length s)%nat a f)%list.
Proof.
  revert r. induction s as [|b s IH]; intros r Hr; simpl.
  - now rewrite Nat.sub_0_r.
  - destruct r as [|r]; [simpl in Hr; lia|].
    simpl. rewrite IH by (simpl in Hr; lia). reflexivity.
Qed.

Lemma length_update (s : Store) (r : Ref) (a : list EventPrimitives) :
  List.length (update r a s) = List.length s.
Proof.
  revert r. induction s as [|b s IH]; intros [|r]; simpl; auto.
Qed.

Lemma nth_update (s : Store) (r : Ref) (a : list EventPrimitives) :
  (r < List.length s)%nat -> nth r (update r a s) [] = a.
Proof.
  revert r. induction s as [|b s IH]; intros [|r] Hr; simpl in *;
    try lia; [reflexivity|]. apply IH. lia.
Qed.

Lemma Fresh_alloc (s : Store) (c : list EventPrimitives) :
  Fresh s c (alloc c s).
Proof.
  exists [c]. simpl. rewrite length_app. simpl.
  split; [reflexivity|]. split; [lia|].
  rewrite app_nth2, Nat.sub_diag by lia. reflexivity.
Qed.

Lemma Fresh_spread (s : Store) (r : Ref) :
  Fresh s (nth r s []) (spread r s).
Proof. apply Fresh_alloc. Qed.

Lemma Fresh_filter (s s1 : Store) (c : list EventPrimitives) (r : Ref)
    (p : EventPrimitives -> bool) :
  Fresh s c (r, s1) -> Fresh s (filter p c) (Array_filter p r s1).
Proof.
  intros (fresh & Hs & Hr & Hc). simpl in *. subst s1.
  unfold Array_filter, bindM, read, alloc. simpl.
  exists (fresh ++ [filter p c])%list. rewrite Hc, !length_app. simpl.
  split; [now rewrite <- app_assoc|].
  split; [rewrite !length_app; simpl; lia|].
  rewrite app_nth2 by (rewrite length_app; lia).
  rewrite length_app, Nat.sub_diag. reflexivity.
Qed.

Lemma Fresh_sort (s s1 : Store) (c : list EventPrimitives) (r : Ref)
    (comparefn : EventPrimitives -> EventPrimitives -> Number) :
  Fresh s c (r, s1) ->
  Fresh s (Array_sort comparefn c) (Array_sort_in_place comparefn r s1).
Proof.
  intros (fresh & Hs & Hr & Hc). simpl in *. subst s1.
  unfold Array_sort_in_place, bindM, read, write, ret. rewrite Hc.
  exists (update (r - List.length s)%nat (Array_sort comparefn c) fresh).
  cbn [fst snd].
  split; [apply update_app_r; lia|].
  split; [now rewrite length_update|]. apply nth_update. lia.
Qed.

Lemma Fresh_when (s s1 : Store) (c : list EventPrimitives) (r : Ref)
    (p : EventPrimitives -> bool) (b : bool) :
  Fresh s c (r, s1) ->
  Fresh s (if b then filter p c else c)
        ((if b then Array_filter p r else ret r) s1).
Proof. destruct b; [apply Fresh_filter|trivial]. Qed.

Lemma Fresh_bind (s s1 : Store) (r : Ref) (c' c'' : list EventPrimitives)
    (m : Ref -> M Ref) (k : Ref -> M Ref) :
  Fresh s c' (m r s1) ->
  (forall r' s', Fresh s c' (r', s') -> Fresh s c'' (k r' s')) ->
  Fresh s c'' (bindM (m r) k s1).
Proof.
  intros Hm Hk. unfold bindM. destruct (m r s1) as [r' s']. now apply Hk.
Qed.

(** C9. Whatever the store, the collection and the selection, running the
    filter leaves every array the caller had as it was, the source
    collection among them: the result is a newly allocated array, the only
    one [sort] rewrites, and it holds the filtered and sorted events. *)
Theorem filter_works_on_a_copy (s : Store) (events : option Ref)
    (searchQuery filterStatus : string) (dateRange : DateRange)
    (sortBy : string) (now : Z) :
  exists fresh result s',
    Heap.filteredEvents events searchQuery filterStatus dateRange sortBy now s
    = (result, s')
    /\ s' = (s ++ fresh)%list
    /\ (forall r, (r < List.length s)%nat -> nth r s' [] = nth r s [])
    /\ (List.length s <= result < List.length s')%nat
    /\ nth result s' []
       = EventsView.filteredEvents
           (option_map (fun r => nth r s []) events)
           searchQuery filterStatus dateRange sortBy now.
Proof.
  assert (H : Fresh s
    (EventsView.filteredEvents (option_map (fun r => nth r s []) events)
       searchQuery filterStatus dateRange sortBy now)
    (Heap.filteredEvents events searchQuery filterStatus dateRange sortBy
       now s)).
  { destruct events as [r|]; simpl; [|apply Fresh_alloc].
    unfold Heap.filteredEvents.
    apply Fresh_bind with (m := spread) (c' := nth r s []);
      [apply Fresh_spread|].
    intros r1 s1 H1.
    apply Fresh_bind
      with (m := fun f => if truthy searchQuery
                          then Array_filter
                                 (matchesQuery (toLowerCase searchQuery)) f
                          else ret f)
           (c' := searchFilter searchQuery (nth r s [])).
    { unfold searchFilter. now apply Fresh_when. }
    intros r2 s2 H2.
    apply Fresh_bind
      with (m := fun f =>
                   if (filterStatus =? "upcoming")%string then
                     Array_filter
                       (fun event =>
                          isAfter (new_Date (startAt (duration event)))
                                  (Some now)) f
                   else if (filterStatus =? "past")%string then
                     Array_filter
                       (fun event =>
                          isBefore (new_Date (endAt (duration event)))
                                   (Some now)) f
                   else if (filterStatus =? "today")%string then
                     Array_filter
                       (fun event =>
                          isToday now (new_Date (startAt (duration event)))) f
                   else ret f)
           (c' := statusFilter now filterStatus
                    (searchFilter searchQuery (nth r s []))).
    { unfold statusFilter.
      destruct (filterStatus =? "upcoming")%string; [now apply Fresh_filter|].
      destruct (filterStatus =? "past")%string; [now apply Fresh_filter|].
      destruct (filterStatus =? "today")%string; [now apply Fresh_filter|].
      assumption. }
    intros r3 s3 H3. unfold sortStage, dateRangeFilter.
    destruct (from dateRange) as [lo|], (to dateRange) as [hi|].
    - eapply Fresh_bind with (m := Array_filter _);
        [apply Fresh_filter, H3|].
      intros r4 s4 H4.
      eapply Fresh_bind with (m := Array_filter _);
        [apply Fresh_filter, H4|].
      intros r5 s5 H5. now apply Fresh_sort.
    - eapply Fresh_bind with (m := Array_filter _);
        [apply Fresh_filter, H3|].
      intros r4 s4 H4.
      eapply Fresh_bind with (m := ret); [apply H4|].
      intros r5 s5 H5. now apply Fresh_sort.
    - eapply Fresh_bind with (m := ret); [apply H3|].
      intros r4 s4 H4.
      eapply Fresh_bind with (m := Array_filter _);
        [apply Fresh_filter, H4|].
      intros r5 s5 H5. now apply Fresh_sort.
    - eapply Fresh_bind with (m := ret); [apply H3|].
      intros r4 s4 H4.
      eapply Fresh_bind with (m := ret); [apply H4|].
      intros r5 s5 H5. now apply Fresh_sort. }
  destruct H as (fresh & Hs & Hr & Hc).
  destruct (Heap.filteredEvents events searchQuery filterStatus dateRange
              sortBy now s) as [result s'].
  exists fresh, result, s'. simpl in *.
  split; [reflexivity|]. split; [assumption|].
  split; [intros r0 Hr0; subst s'; now apply app_nth1|]. auto.
Qed.

End SourceArray.

(* ================================================================== *)
(** ** The pipeline on the example host *)
(* ================================================================== *)

Section OnTheHost.

Local Open Scope string_scope.

Lemma codeUnitCompare_nonpos (a b : string) :
  Host.codeUnitCompare a b <= 0 <-> String.compare a b <> Gt.
Proof.
  unfold Host.codeUnitCompare.
  destruct (String.compare a b); split; intros; try lia; congruence.
Qed.

Lemma Host_collation_consistent : ConsistentCollation (rt := Host.runtime).
Proof.
  split; simpl.
  - intros a b. unfold Host.codeUnitCompare.
    rewrite (String.compare_antisym a b).
    destruct (String.compare b a); reflexivity.
  - intros a b c. rewrite !codeUnitCompare_nonpos.
    apply compare_not_Gt_trans.
Qed.

(** The examples of section 8 of the specification. *)

Example upcoming_excludes_now :
  statusFilter (rt := Host.runtime) Host.newYearInstant "upcoming"
               [Host.newYear; Host.yogaClass]
  = [Host.yogaClass].
Proof. vm_compute. reflexivity. Qed.

Example search_yoga :
  searchFilter (rt := Host.runtime) "yoga" [Host.yogaClass; Host.pilates]
  = [Host.yogaClass]
  /\ searchFilter (rt := Host.runtime) "YOGA" [Host.yogaClass; Host.pilates]
     = [Host.yogaClass].
Proof. split; vm_compute; reflexivity. Qed.

Example price_desc_100_50 :
  sortStage (rt := Host.runtime) "price-desc" [Host.pilates; Host.yogaClass]
  = [Host.yogaClass; Host.pilates].
Proof. vm_compute. reflexivity. Qed.

Example same_day_one_page :
  groupedEvents (rt := Host.runtime) [Host.yogaClass; Host.pilates]
  = Ok [("2024-03-07", [Host.yogaClass; Host.pilates])]
  /\ totalPages [("2024-03-07", [Host.yogaClass; Host.pilates])] = 1.
Proof. split; vm_compute; reflexivity. Qed.

Example local_day_key :
  dayKey (rt := Host.runtimeWest)
         (Host.mkEvent "e5" "Cena" "" "" "2024-03-07T03:00:00.000Z"
                       "2024-03-07T05:00:00.000Z" 10)
  = Ok "2024-03-06".
Proof. vm_compute. reflexivity. Qed.

(** Six hours west of Greenwich, at 03:00 UTC of March 7 it is still
    March 6: an event at 05:00 UTC is today, one at 10:00 UTC is not. *)
Example today_is_local :
  statusFilter (rt := Host.runtimeWest) 1709780400000 "today"
    [Host.mkEvent "e5" "Cena" "" "" "2024-03-07T05:00:00.000Z"
                  "2024-03-07T06:00:00.000Z" 10;
     Host.yogaClass]
  = [Host.mkEvent "e5" "Cena" "" "" "2024-03-07T05:00:00.000Z"
                  "2024-03-07T06:00:00.000Z" 10].
Proof. vm_compute. reflexivity. Qed.

(** With its arrays in a store: the source array, at reference 0, is as
    it was and the sorted result is a new array. *)
Example source_array_kept :
  Heap.filteredEvents (rt := Host.runtime) (Some 0%nat) "" "all" noRange
    "price-asc" Host.newYearInstant [[Host.yogaClass; Host.pilates]]
  = (1%nat, [[Host.yogaClass; Host.pilates];
             [Host.pilates; Host.yogaClass]]).
Proof. vm_compute. reflexivity. Qed.

Example second_page_of_twelve_days :
  totalPages Host.twelveDays = 2
  /\ Object_keys (paginatedGroupedEvents Host.twelveDays 1)
     = ["2024-03-01"; "2024-03-02"; "2024-03-03"; "2024-03-04"; "2024-03-05";
        "2024-03-06"; "2024-03-07"; "2024-03-08"; "2024-03-09"; "2024-03-10"]
  /\ Object_keys (paginatedGroupedEvents Host.twelveDays 2)
     = ["2024-03-11"; "2024-03-12"]
  /\ paginatedGroupedEvents Host.twelveDays 3 = [].
Proof. repeat split; vm_compute; reflexivity. Qed.

(** C2 as the specification words it fails: the text [yoga] followed by a
    space, once trimmed and case-folded, occurs in the name "Clase de
    Yoga", yet the search filter drops the event. *)
Lemma search_text_is_not_trimmed :
  searchSelectsTrimmed (rt := Host.runtime) "yoga " Host.yogaClass
  /\ ~ In Host.yogaClass
          (searchFilter (rt := Host.runtime) "yoga " [Host.yogaClass]).
Proof.
  split.
  - right; left. exists "clase de ", "". vm_compute. reflexivity.
  - vm_compute. tauto.
Qed.

(** C8 as the specification words it fails: under status [all] an event
    whose [startAt] is not a date passes the filter and the group stage
    then throws instead of returning a mapping. *)
Lemma group_stage_throws_on_malformed_start :
  filteredEvents (rt := Host.runtime) (Some [Host.malformed]) "" "all"
                 noRange "date-asc" Host.newYearInstant
  = [Host.malformed]
  /\ groupedEvents (rt := Host.runtime)
       (filteredEvents (rt := Host.runtime) (Some [Host.malformed]) "" "all"
                       noRange "date-asc" Host.newYearInstant)
     = Throw RangeError
  /\ ~ exists g,
         groupedEvents (rt := Host.runtime)
           (filteredEvents (rt := Host.runtime) (Some [Host.malformed]) ""
                           "all" noRange "date-asc" Host.newYearInstant)
         = Ok g.
Proof.
  split; [vm_compute; reflexivity|].
  split; [vm_compute; reflexivity|].
  intros [g Hg]. vm_compute in Hg. discriminate Hg.
Qed.

(** C3 as the specification words it fails: under status [all] an event
    whose [startAt] is not a date passes the filter, the comparator of
    [date-asc] gives [NaN] against it, and the sort stage hands over the
    class of 7 March in front of the toast of 1 January: the collection
    is not in the order of the start times, not even its events with a
    well-formed [startAt]. *)
Lemma sort_stage_misorders_around_malformed_start :
  filteredEvents (rt := Host.runtime)
    (Some [Host.pilates; Host.malformed; Host.newYear]) "" "all"
    noRange "date-asc" Host.newYearInstant
  = [Host.pilates; Host.malformed; Host.newYear]
  /\ sortStage (rt := Host.runtime) "date-asc"
       [Host.pilates; Host.malformed; Host.newYear]
     = [Host.pilates; Host.malformed; Host.newYear]
  /\ compareEvents (rt := Host.runtime) "date-asc" Host.malformed Host.pilates
     = None
  /\ startTime (rt := Host.runtime) Host.pilates = Some 1709823600000
  /\ startTime (rt := Host.runtime) Host.newYear = Some 1704067200000
  /\ ~ inSortOrder (rt := Host.runtime) "date-asc" Host.pilates Host.newYear
  /\ ~ StronglySorted (inSortOrder (rt := Host.runtime) "date-asc")
         (sortStage (rt := Host.runtime) "date-asc"
            [Host.pilates; Host.malformed; Host.newYear]).
Proof.
  assert (Hout : sortStage (rt := Host.runtime) "date-asc"
                   [Host.pilates; Host.malformed; Host.newYear]
                 = [Host.pilates; Host.malformed; Host.newYear])
    by (vm_compute; reflexivity).
  assert (Hno : ~ inSortOrder (rt := Host.runtime) "date-asc"
                    Host.pilates Host.newYear).
  { intros [Hasc _]. destruct (Hasc eq_refl) as (t & u & Ht & Hu & Hle).
    vm_compute in Ht, Hu. injection Ht as <-. injection Hu as <-.
    apply Hle. reflexivity. }
  split; [vm_compute; reflexivity|].
  split; [exact Hout|].
  split; [vm_compute; reflexivity|].
  split; [vm_compute; reflexivity|].
  split; [vm_compute; reflexivity|].
  split; [exact Hno|].
  rewrite Hout. intros Hs. apply StronglySorted_inv in Hs as [_ Hall].
  apply Hno. rewrite Forall_forall in Hall. apply Hall.
  right. now left.
Qed.


(** The sort stage on three events, by start time and by name. *)
Lemma sort_stage_orders_stably_witness :
  (In "date-asc" sortOptions
   /\ Forall (fun e => startTime (rt := Host.runtime) e <> None)
             [Host.pilates; Host.yogaClass; Host.newYear]
   /\ Permutation
        [Host.pilates; Host.yogaClass; Host.newYear]
        (sortStage (rt := Host.runtime) "date-asc"
                   [Host.pilates; Host.yogaClass; Host.newYear])
   /\ StronglySorted (inSortOrder (rt := Host.runtime) "date-asc")
        (sortStage (rt := Host.runtime) "date-asc"
                   [Host.pilates; Host.yogaClass; Host.newYear]))
  /\ (In "name-desc" sortOptions
      /\ ConsistentCollation (rt := Host.runtime)
      /\ StronglySorted (inSortOrder (rt := Host.runtime) "name-desc")
           (sortStage (rt := Host.runtime) "name-desc"
                      [Host.pilates; Host.yogaClass; Host.newYear])).
Proof.
  assert (Hvalid : Forall (fun e => startTime (rt := Host.runtime) e <> None)
                          [Host.pilates; Host.yogaClass; Host.newYear])
    by (repeat constructor; intros H; vm_compute in H; discriminate H).
  assert (Hd : In "date-asc" sortOptions) by (simpl; tauto).
  assert (Hn : In "name-desc" sortOptions) by (simpl; tauto).
  split.
  - destruct (sort_stage_orders_stably (rt := Host.runtime) "date-asc"
                [Host.pilates; Host.yogaClass; Host.newYear] Hd
                (fun _ => Hvalid)
                (fun H => match H with
                          | or_introl E => ltac:(discriminate E)
                          | or_intror E => ltac:(discriminate E)
                          end))
      as [H1 [H2 _]].
    repeat split; assumption.
  - destruct (sort_stage_orders_stably (rt := Host.runtime) "name-desc"
                [Host.pilates; Host.yogaClass; Host.newYear] Hn
                (fun H => match H with
                          | or_introl E => ltac:(discriminate E)
                          | or_intror E => ltac:(discriminate E)
                          end)
                (fun _ => Host_collation_consistent))
      as [_ [H2 _]].
    split; [assumption|split; [apply Host_collation_consistent|assumption]].
Defined.


(** The second page of twelve days. *)
Lemma paginate_selects_slice_witness :
  NoDup (Object_keys Host.twelveDays)
  /\ 1 <= 2
  /\ (exists dates,
        Permutation (Object_keys Host.twelveDays) dates
        /\ StronglySorted lexBefore dates
        /\ Object_keys (paginatedGroupedEvents Host.twelveDays 2)
           = firstn 10 (skipn (Z.to_nat ((2 - 1) * 10)) dates))
  /\ isCeilingOf (totalPages Host.twelveDays) 12 10.
Proof.
  assert (Hnd : NoDup (Object_keys Host.twelveDays)).
  { apply (NoDup_count_occ' string_dec). intros k Hk.
    simpl in Hk.
    repeat (destruct Hk as [<-|Hk]; [vm_compute; reflexivity|]).
    contradiction. }
  assert (Hp : 1 <= 2) by lia.
  destruct (paginate_selects_slice Host.twelveDays 2 Hnd Hp)
    as [[dates [H1 [H2 [H3 _]]]] [H4 _]].
  split; [exact Hnd|]. split; [exact Hp|]. split; [|exact H4].
  exists dates. repeat split; assumption.
Defined.

(** The pages of the grouping of three events. *)
Lemma pagination_covers_disjointly_witness :
  groupedEvents (rt := Host.runtime)
    [Host.yogaClass; Host.newYear; Host.pilates]
  = Ok [("2024-03-07", [Host.yogaClass; Host.pilates]);
        ("2024-01-01", [Host.newYear])]
  /\ Permutation
       (List.concat
          (map (fun p =>
                  eventsOfPage
                    (paginatedGroupedEvents
                       [("2024-03-07", [Host.yogaClass; Host.pilates]);
                        ("2024-01-01", [Host.newYear])] p))
               (pageNumbers
                  (totalPages
                     [("2024-03-07", [Host.yogaClass; Host.pilates]);
                      ("2024-01-01", [Host.newYear])]))))
       [Host.yogaClass; Host.newYear; Host.pilates].
Proof.
  assert (Hrun : groupedEvents (rt := Host.runtime)
                   [Host.yogaClass; Host.newYear; Host.pilates]
                 = Ok [("2024-03-07", [Host.yogaClass; Host.pilates]);
                       ("2024-01-01", [Host.newYear])])
    by (vm_compute; reflexivity).
  split; [exact Hrun|].
  exact (proj1 (proj2 (proj2
           (pagination_covers_disjointly (rt := Host.runtime) _ _ Hrun)))).
Defined.

End OnTheHost.

(* ================================================================== *)
(** ** The events view beyond the four stages *)
(* ================================================================== *)

Section ViewFacts.
Context {rt : Runtime}.

Local Open Scope string_scope.
Local Open Scope Z_scope.

Implicit Types (g : Object (list EventPrimitives)) (e : EventPrimitives).

Lemma isAfter_start_valid (d : Date) e :
  isAfter (new_Date (startAt (duration e))) d = true -> startTime e <> None.
Proof.
  unfold startTime, new_Date, isAfter.
  destruct (Date_parse (startAt (duration e))); [discriminate|discriminate].
Qed.

Lemma isBefore_start_valid (d : Date) e :
  isBefore (new_Date (startAt (duration e))) d = true -> startTime e <> None.
Proof.
  unfold startTime, new_Date, isBefore.
  destruct (Date_parse (startAt (duration e))); [discriminate|discriminate].
Qed.

Lemma isToday_start_valid (now : Z) e :
  isToday now (new_Date (startAt (duration e))) = true -> startTime e <> None.
Proof.
  unfold startTime, new_Date, isToday, isSameDay.
  destruct (Date_parse (startAt (duration e))); [discriminate|discriminate].
Qed.

(** The filter output has only well-formed starts as soon as one test on
    [startAt] is active. *)
Lemma filtered_starts_valid (events : option (list EventPrimitives))
    (searchQuery filterStatus : string) (dateRange : DateRange)
    (sortBy : string) (now : Z) :
  filterStatus = "upcoming" \/ filterStatus = "today"
  \/ from dateRange <> None \/ to dateRange <> None ->
  Forall (fun e => startTime e <> None)
         (filteredEvents events searchQuery filterStatus dateRange sortBy now).
Proof.
  intros Hsel. destruct events as [l|]; [|constructor].
  apply Forall_forall. intros e He.
  apply filteredEvents_In in He as (_ & _ & Hst & Hrg).
  unfold statusKeeps, rangeKeeps in Hst, Hrg.
  destruct Hsel as [->|[->|[Hf|Ht]]].
  - now apply isAfter_start_valid in Hst.
  - now apply isToday_start_valid in Hst.
  - destruct (from dateRange) as [lo|]; [|congruence].
    apply andb_true_iff in Hrg as [Hrg _].
    now apply isAfter_start_valid in Hrg.
  - destruct (to dateRange) as [hi|]; [|congruence].
    apply andb_true_iff in Hrg as [_ Hrg].
    now apply isBefore_start_valid in Hrg.
Qed.

(** X1. Under status [upcoming], under status [today], and under any
    status once a bound of the date range is set, the group stage returns
    a mapping for what the filter stage hands it, whatever the events:
    the filter has already dropped every event whose [startAt] is not a
    date. *)
Theorem guarded_selections_group_without_error
    (events : option (list EventPrimitives)) (searchQuery sortBy : string)
    (dateRange : DateRange) (now : Z) :
  (exists g, groupedEvents
               (filteredEvents events searchQuery "upcoming" dateRange
                               sortBy now) = Ok g)
  /\ (exists g, groupedEvents
                  (filteredEvents events searchQuery "today" dateRange
                                  sortBy now) = Ok g)
  /\ (forall filterStatus lower,
        exists g, groupedEvents
                    (filteredEvents events searchQuery filterStatus
                       {| from := Some lower; to := to dateRange |}
                       sortBy now) = Ok g)
  /\ (forall filterStatus upper,
        exists g, groupedEvents
                    (filteredEvents events searchQuery filterStatus
                       {| from := from dateRange; to := Some upper |}
                       sortBy now) = Ok g).
Proof.
  assert (H : forall st dr,
             st = "upcoming" \/ st = "today"
             \/ from dr <> None \/ to dr <> None ->
             exists g, groupedEvents
                         (filteredEvents events searchQuery st dr sortBy now)
                       = Ok g).
  { intros st dr Hsel.
    destruct (groupedEvents_grouped _
                (filtered_starts_valid events searchQuery st dr sortBy now
                                       Hsel)) as [g [Hg _]].
    now exists g. }
  repeat split.
  - apply H. now left.
  - apply H. right; now left.
  - intros st lo. apply H. right; right; left. simpl. discriminate.
  - intros st hi. apply H. right; right; right. simpl. discriminate.
Qed.

Lemma formatLocalDate_same_day (t u : Z) :
  localDay t = localDay u -> formatLocalDate t = formatLocalDate u.
Proof. unfold formatLocalDate. now intros ->. Qed.

Lemma NoDup_all_equal {A : Type} (l : list A) (k : A) :
  NoDup l -> (forall x, In x l -> x = k) -> l = [] \/ l = [k].
Proof.
  intros Hnd Hall. destruct l as [|x l]; [now left|right].
  assert (x = k) by (apply Hall; now left). subst x.
  destruct l as [|y l]; [reflexivity|].
  assert (y = k) by (apply Hall; right; now left). subst y.
  inversion Hnd as [|? ? Hnot _]. elim Hnot. now left.
Qed.

Lemma totalPages_small g :
  (List.length (Object_keys g) <= 10)%nat -> totalPages g <= 1.
Proof.
  intros Hlen. pose proof (totalPages_ceiling g) as H.
  unfold isCeilingOf in H. lia.
Qed.

(** X2. Under status [today] the list has at most one day group, the one
    of the local day of [now]; there is at most one page and the pager is
    not shown. *)
Theorem today_is_one_group (events : option (list EventPrimitives))
    (searchQuery sortBy : string) (dateRange : DateRange) (now : Z) :
  exists g,
    groupedEvents
      (filteredEvents events searchQuery "today" dateRange sortBy now) = Ok g
    /\ (Object_keys g = [] \/ Object_keys g = [formatLocalDate now])
    /\ totalPages g <= 1
    /\ View.showsPager (totalPages g) = false.
Proof.
  set (l := filteredEvents events searchQuery "today" dateRange sortBy now).
  assert (Hvalid : Forall (fun e => startTime e <> None) l)
    by (apply filtered_starts_valid; right; now left).
  destruct (groupedEvents_grouped l Hvalid) as [g [Hrun Hg]].
  exists g. split; [assumption|].
  assert (Hkeys : Object_keys g = [] \/ Object_keys g = [formatLocalDate now]).
  { apply NoDup_all_equal; [apply Hg|].
    intros k Hk. apply (Grouped_keys l g k Hg) in Hk as [e [He Hk]].
    subst l. destruct events as [evs|]; [|contradiction].
    apply filteredEvents_In in He as (_ & _ & Hst & _).
    unfold statusKeeps in Hst. simpl in Hst.
    unfold dayKey, format_yyyy_MM_dd in Hk.
    unfold isToday, isSameDay in Hst.
    destruct (new_Date (startAt (duration e))) as [t|]; [|discriminate].
    injection Hk as <-. apply formatLocalDate_same_day.
    now apply Z.eqb_eq. }
  split; [assumption|].
  assert (Hsmall : totalPages g <= 1).
  { apply totalPages_small. destruct Hkeys as [-> | ->]; simpl; lia. }
  split; [assumption|]. unfold View.showsPager. apply Z.ltb_ge. lia.
Qed.

Lemma Object_set_not_nil {V : Type} (o : Object V) (k : string) (v : V) :
  Object_set o k v <> [].
Proof.
  destruct o as [|[k' v'] o]; simpl; [discriminate|].
  destruct (String.eqb k' k); discriminate.
Qed.

Lemma fold_set_nil {V : Type} (f : string -> V) (ks : list string) :
  fold_left (fun o d => Object_set o d (f d)) ks [] = [] <-> ks = [].
Proof.
  split; [|now intros ->].
  destruct ks as [|k ks]; [reflexivity|]. simpl.
  assert (H : forall (l : list string) (acc : Object V),
             acc <> [] ->
             fold_left (fun o d => Object_set o d (f d)) l acc <> []).
  { induction l as [|x l IH]; intros acc Hacc; simpl; [assumption|].
    apply IH, Object_set_not_nil. }
  intros Hnil. elim (H ks [(k, f k)]); [discriminate|assumption].
Qed.

Lemma Array_slice_nil {A : Type} (l : list A) (a b : Z) :
  Array_slice l a b = []
  <-> relativeIndex (Z.of_nat (List.length l)) b
      <= relativeIndex (Z.of_nat (List.length l)) a.
Proof.
  unfold Array_slice.
  set (len := Z.of_nat (List.length l)).
  assert (Hlen : 0 <= len) by (subst len; lia).
  assert (Hk : 0 <= relativeIndex len a <= len)
    by (unfold relativeIndex; destruct (Z.ltb_spec a 0); lia).
  assert (Hf : 0 <= relativeIndex len b <= len)
    by (unfold relativeIndex; destruct (Z.ltb_spec b 0); lia).
  rewrite <- length_zero_iff_nil, length_firstn, length_skipn.
  subst len. lia.
Qed.

(** X3. The page shows day groups exactly when its number is between 1
    and [totalPages], or is negative with more than ten times its absolute
    value of day keys (the slice then counts from the end); page 0 and
    every page after the last are empty. *)
Theorem page_shows_groups_iff g (p : Z) :
  View.showsGroups (paginatedGroupedEvents g p) = true
  <-> 1 <= p <= totalPages g
      \/ (p < 0 /\ 10 * - p < Z.of_nat (List.length (Object_keys g))).
Proof.
  unfold View.showsGroups. rewrite Nat.ltb_lt.
  assert (Hnil : paginatedGroupedEvents g p = []
                 <-> ~ (1 <= p <= totalPages g
                        \/ (p < 0
                            /\ 10 * - p
                               < Z.of_nat (List.length (Object_keys g))))).
  { unfold paginatedGroupedEvents, eventsPerPage.
    rewrite fold_set_nil, Array_slice_nil, Array_sort_length.
    pose proof (totalPages_ceiling g) as Hc. unfold isCeilingOf in Hc.
    unfold relativeIndex.
    destruct (Z.ltb_spec ((p - 1) * 10) 0), (Z.ltb_spec (p * 10) 0); lia. }
  destruct (paginatedGroupedEvents g p) as [|x page] eqn:E.
  - simpl. split; [lia|]. intros H. now apply Hnil in H.
  - simpl. split; [|lia]. intros _.
    destruct (Z_le_dec 1 p) as [H1|H1];
      [destruct (Z_le_dec p (totalPages g)) as [H2|H2]; [now left|]|];
      destruct (Z_lt_dec p 0) as [H3|H3];
      try destruct (Z_lt_dec (10 * - p)
                      (Z.of_nat (List.length (Object_keys g)))) as [H4|H4];
      try (now right);
      exfalso; assert (Hx : x :: page = []) by (apply Hnil; lia);
      discriminate Hx.
Qed.

(** X4. From a page between 1 and [totalPages] the two buttons of the
    pager lead to a page in that range, which shows day groups; "next"
    undoes "previous" and "previous" undoes "next" on a button that is
    not disabled. *)
Theorem pager_stays_in_range g (p : Z) :
  1 <= p <= totalPages g ->
  1 <= View.previousPage p <= totalPages g
  /\ 1 <= View.nextPage (totalPages g) p <= totalPages g
  /\ View.showsGroups (paginatedGroupedEvents g (View.previousPage p)) = true
  /\ View.showsGroups
       (paginatedGroupedEvents g (View.nextPage (totalPages g) p)) = true
  /\ (View.previousDisabled p = false ->
      View.nextPage (totalPages g) (View.previousPage p) = p)
  /\ (View.nextDisabled (totalPages g) p = false ->
      View.previousPage (View.nextPage (totalPages g) p) = p).
Proof.
  intros Hp. unfold View.previousPage, View.nextPage,
    View.previousDisabled, View.nextDisabled, View.showsGroups.
  assert (Hshow : forall q, 1 <= q <= totalPages g ->
            (0 <? List.length (paginatedGroupedEvents g q))%nat = true).
  { intros q Hq. apply Nat.ltb_lt.
    destruct (paginatedGroupedEvents g q) as [|x page] eqn:E; [|simpl; lia].
    exfalso. revert E. unfold paginatedGroupedEvents, eventsPerPage.
    rewrite fold_set_nil, Array_slice_nil, Array_sort_length.
    pose proof (totalPages_ceiling g) as Hc. unfold isCeilingOf in Hc.
    unfold relativeIndex.
    destruct (Z.ltb_spec ((q - 1) * 10) 0), (Z.ltb_spec (q * 10) 0); lia. }
  split; [lia|]. split; [lia|].
  split; [apply Hshow; lia|]. split; [apply Hshow; lia|].
  split; intros H; apply Z.eqb_neq in H; lia.
Qed.

Lemma buckets_not_empty (l : list EventPrimitives) g :
  Grouped l g -> Forall (fun b => b <> []) (Object_values g).
Proof.
  intros (Hnd & Hget & _). apply Forall_forall. intros b Hb.
  unfold Object_values in Hb. apply in_map_iff in Hb as [[k b'] [<- Hin]].
  simpl. pose proof (Object_get_In g k b' Hnd Hin) as Hk.
  rewrite Hget in Hk. destruct (filter (hasKey k) l); [discriminate|].
  injection Hk as <-. discriminate.
Qed.

Lemma length_concat_nonempty {A : Type} (ls : list (list A)) :
  Forall (fun b => b <> []) ls ->
  (List.length ls <= List.length (List.concat ls))%nat.
Proof.
  induction 1 as [|b ls Hb _ IH]; simpl; [lia|].
  rewrite length_app. destruct b; [congruence|simpl; lia].
Qed.

Lemma keys_at_most_events (l : list EventPrimitives) g :
  Grouped l g -> (List.length (Object_keys g) <= List.length l)%nat.
Proof.
  intros Hg. pose proof (buckets_not_empty l g Hg) as Hb.
  apply length_concat_nonempty in Hb.
  destruct Hg as (_ & _ & Hperm). apply Permutation_length in Hperm.
  unfold eventsOf in Hperm. unfold Object_keys, Object_values in *.
  rewrite length_map in *. lia.
Qed.

(** X5. For the grouping of the filtered events there is no page exactly
    when there is no event, which is when the card "No hay eventos" is
    shown; there are never more pages than events, and every day group
    holds at least one event. *)
Theorem pages_and_events (l : list EventPrimitives) g :
  groupedEvents l = Ok g ->
  (totalPages g = 0 <-> l = [])
  /\ (View.showsEmptyCard l = true <-> totalPages g = 0)
  /\ totalPages g <= Z.of_nat (List.length l)
  /\ Forall (fun bucket => bucket <> []) (Object_values g).
Proof.
  intros Hrun. apply groupedEvents_Ok in Hrun.
  pose proof (keys_at_most_events l g Hrun) as Hle.
  pose proof (totalPages_ceiling g) as Hc. unfold isCeilingOf in Hc.
  assert (Hzero : totalPages g = 0 <-> l = []).
  { split.
    - intros H0. destruct l as [|e l]; [reflexivity|exfalso].
      destruct Hrun as (_ & Hget & Hperm).
      assert (Hk : Object_keys g = []).
      { apply length_zero_iff_nil. lia. }
      assert (Hg : g = []) by (destruct g; [reflexivity|discriminate Hk]).
      subst g. apply Permutation_length in Hperm. discriminate Hperm.
    - intros ->. destruct Hrun as (_ & _ & Hperm).
      apply Permutation_length in Hperm. unfold eventsOf in Hperm.
      simpl in Hle. lia. }
  split; [assumption|]. split; [|split].
  - unfold View.showsEmptyCard. rewrite Nat.eqb_eq, length_zero_iff_nil.
    now rewrite Hzero.
  - lia.
  - now apply buckets_not_empty with (l := l).
Qed.

End ViewFacts.

Section BookingFacts.

Lemma filter_disjoint_perm {A : Type} (p q : A -> bool) (l : list A) :
  (forall x, p x = true -> q x = true -> False) ->
  Permutation (filter p l ++ filter q l) (filter (fun x => p x || q x) l).
Proof.
  intros Hdis. induction l as [|x l IH]; simpl; [constructor|].
  destruct (p x) eqn:Hp, (q x) eqn:Hq; simpl.
  - elim (Hdis x Hp Hq).
  - now constructor.
  - rewrite <- Permutation_middle. now constructor.
  - assumption.
Qed.

(** X6. When the events listed have pairwise distinct identifiers, the
    bookings handed to their cards are, together, exactly the bookings
    that refer to a listed event, each once: a booking is counted for one
    event only, and a booking of an event that is not listed is counted
    nowhere.  Without bookings every card gets the empty list. *)
Theorem bookings_are_split_among_events (bookings : list View.Booking)
    (events : list EventPrimitives) :
  NoDup (map id events) ->
  Permutation
    (List.concat (map (View.bookingsOf (Some bookings)) events))
    (filter (fun b => existsb (fun e => (View.eventId b =? id e)%string)
                              events)
            bookings)
  /\ (forall e e' b,
        In e events -> In e' events ->
        In b (View.bookingsOf (Some bookings) e) ->
        In b (View.bookingsOf (Some bookings) e') ->
        id e = id e')
  /\ (forall e, View.bookingsOf None e = []).
Proof.
  intros Hnd. split; [|split].
  - induction events as [|e events IH]; simpl.
    + induction bookings; simpl; auto.
    + inversion Hnd as [|? ? Hnot Hnd']; subst.
      rewrite (IH Hnd'). apply filter_disjoint_perm.
      intros b Hb Hex. apply String.eqb_eq in Hb.
      apply existsb_exists in Hex as [e' [He' Heq]].
      apply String.eqb_eq in Heq. apply Hnot. rewrite <- Hb, Heq.
      now apply in_map.
  - intros e e' b _ _ Hb Hb'. unfold View.bookingsOf in *.
    apply filter_In in Hb as [_ Hb], Hb' as [_ Hb'].
    apply String.eqb_eq in Hb, Hb'. congruence.
  - reflexivity.
Qed.

End BookingFacts.

(* ================================================================== *)
(** ** The appointments calendar *)
(* ================================================================== *)

Section AppointmentFacts.
Context {rt : Runtime}.
Variable Appointment : Type.
Variable employeeId : Appointment -> string.
Variable date : Appointment -> Date.
Variable Employee : Type.
Variable employee_id : Employee -> string.

Import Appointments.

Lemma Set_has_In (s : StringSet) (x : string) :
  Set_has s x = true <-> In x s.
Proof.
  unfold Set_has. rewrite existsb_exists. split.
  - intros [y [Hy Heq]]. apply String.eqb_eq in Heq. now subst.
  - intros Hin. exists x. split; [assumption|apply String.eqb_refl].
Qed.

Lemma Set_add_In (s : StringSet) (x y : string) :
  In y (Set_add s x) <-> In y s \/ y = x.
Proof.
  unfold Set_add. destruct (Set_has s x) eqn:Hx.
  - apply Set_has_In in Hx. split; [tauto|]. intros [H| ->]; assumption.
  - rewrite in_app_iff. simpl. firstorder.
Qed.

Lemma fold_Set_add_In (l : list string) : forall (acc : StringSet) (y : string),
  In y (fold_left Set_add l acc) <-> In y acc \/ In y l.
Proof.
  induction l as [|x l IH]; intros acc y; simpl; [tauto|].
  rewrite IH, Set_add_In. firstorder.
Qed.

Lemma new_Set_has (l : list string) (x : string) :
  Set_has (new_Set l) x = true <-> In x l.
Proof.
  rewrite Set_has_In. unfold new_Set. rewrite fold_Set_add_In. simpl. tauto.
Qed.

Lemma isSameDay_same_key (a b : Date) :
  isSameDay a b = true ->
  exists key, format_yyyy_MM_dd a = Ok key /\ format_yyyy_MM_dd b = Ok key.
Proof.
  unfold isSameDay, format_yyyy_MM_dd.
  destruct a as [t|], b as [u|]; try discriminate.
  intros H. apply Z.eqb_eq in H. exists (formatLocalDate t).
  split; [reflexivity|]. f_equal. symmetry.
  unfold formatLocalDate. now rewrite H.
Qed.

(** X7. Every appointment the calendar shows belongs to a selected
    employee and has the day key the appointments were fetched with.  Once
    the effect has selected all employees, an appointment of one of them
    is shown exactly when it is on the selected day; without appointments,
    or before the employees are there, nothing is shown. *)
Theorem shown_appointments_match_query
    (events : option (list Appointment)) (selectedEmployees : StringSet)
    (selectedDate : Date) :
  (forall a,
     In a (filteredEvents employeeId date events
                          selectedEmployees selectedDate) ->
     Set_has selectedEmployees (employeeId a) = true
     /\ exists key, format_yyyy_MM_dd (date a) = Ok key
                    /\ queryDay selectedDate = Ok key)
  /\ (forall employees l a,
        In a l ->
        In (employeeId a) (map employee_id employees) ->
        (In a (filteredEvents employeeId date (Some l)
                 (selectAll employee_id (Some employees))
                 selectedDate)
         <-> isSameDay (date a) selectedDate = true))
  /\ filteredEvents employeeId date None selectedEmployees
                    selectedDate = []
  /\ (forall l,
        filteredEvents employeeId date (Some l)
          (selectAll employee_id None) selectedDate = []).
Proof.
  split; [|split; [|split]].
  - intros a Ha. destruct events as [l|]; [|contradiction].
    apply filter_In in Ha as [_ Ha]. apply andb_true_iff in Ha as [Hs Hd].
    split; [assumption|]. now apply isSameDay_same_key.
  - intros employees l a Hin Hemp. unfold filteredEvents, selectAll.
    rewrite filter_In, andb_true_iff, new_Set_has. tauto.
  - reflexivity.
  - intros l. unfold filteredEvents, selectAll. simpl.
    induction l as [|a l IH]; simpl; auto.
Qed.

End AppointmentFacts.

(* ================================================================== *)
(** ** The creation form *)
(* ================================================================== *)

Section StringSlices.

Lemma length_append (a b : string) :
  String.length (String.append a b) = (String.length a + String.length b)%nat.
Proof. induction a as [|c a IH]; simpl; [reflexivity|now rewrite IH]. Qed.

Lemma substring_append (n : nat) : forall (a b : string),
  (n <= String.length a)%nat ->
  String.substring 0 n (String.append a b) = String.substring 0 n a.
Proof.
  induction n as [|n IH]; intros a b Hn.
  - destruct a; simpl; [destruct b; reflexivity|reflexivity].
  - destruct a as [|c a]; simpl in *; [lia|]. rewrite IH by lia. reflexivity.
Qed.

Lemma length_zeros (n : nat) : String.length (zeros n) = n.
Proof. induction n; simpl; congruence. Qed.

Lemma length_addLeadingZeros (number : Z) (targetLength : nat) :
  (targetLength <= String.length (addLeadingZeros number targetLength))%nat.
Proof.
  unfold addLeadingZeros. rewrite !length_append, length_zeros. lia.
Qed.

Lemma length_isoDatePart (day : Z) :
  (10 <= String.length (ISO.isoDatePart day))%nat.
Proof.
  unfold ISO.isoDatePart. destruct (civilFromDays day) as [[y m] d].
  rewrite !length_append. simpl String.length.
  pose proof (length_addLeadingZeros m 2).
  pose proof (length_addLeadingZeros d 2).
  assert (4 <= String.length (ISO.isoYear y))%nat.
  { unfold ISO.isoYear.
    destruct ((0 <=? y) && (y <=? 9999)).
    - apply length_addLeadingZeros.
    - destruct (y <? 0).
      + pose proof (length_addLeadingZeros y 6). lia.
      + rewrite length_append.
        pose proof (length_addLeadingZeros y 6). lia. }
  lia.
Qed.

(** The first ten characters of an ISO string are those of its day. *)
Lemma slice_isoString (t : Z) :
  ISO.slice_0_10 (ISO.isoString t)
  = String.substring 0 10 (ISO.isoDatePart (t / msPerDay)).
Proof.
  unfold ISO.slice_0_10, ISO.isoString.
  apply substring_append, length_isoDatePart.
Qed.

End StringSlices.

Section ModalFacts.
Context {rt : Runtime} {zone : ISO.LocalZone}.
Variable RecurrenceFrequency : Type.
Variable NEVER : RecurrenceFrequency.
Variable isNEVER : RecurrenceFrequency -> bool.
Variable MXN : string.
Variable Number_of_string : string -> Number.

Import ISO Modal.

Local Abbreviation Form := (CreatableEvent RecurrenceFrequency).

Lemma TimeClip_in_range (t : Z) : Z.abs t <= maxTime -> TimeClip t = Some t.
Proof.
  intros H. unfold TimeClip. now apply Z.leb_le in H as ->.
Qed.

(** X8. When the start picker hands over a date that the host reads back
    from its ISO string, as it does the date one hour later, the handler
    throws nothing, the form's start is that date, and the form's end, if
    it was a date, is a date strictly after the start: the same as before
    when that was already after the start, one hour after the start
    otherwise.  An end that was no date is left as it was. *)
Theorem start_change_keeps_end_after_start (f : Form) (t : Z) :
  Z.abs t <= maxTime ->
  Z.abs (t + 3600000) <= maxTime ->
  Date_parse (isoString t) = Some t ->
  Date_parse (isoString (t + 3600000)) = Some (t + 3600000) ->
  snd (onStartChange (Some t) f) = None
  /\ Date_parse (startAt (duration (fst (onStartChange (Some t) f))))
     = Some t
  /\ (forall e,
        Date_parse (endAt (duration f)) = Some e ->
        exists e',
          Date_parse (endAt (duration (fst (onStartChange (Some t) f))))
          = Some e'
          /\ t < e'
          /\ (t < e -> endAt (duration (fst (onStartChange (Some t) f)))
                       = endAt (duration f))
          /\ (e <= t -> e' = t + 3600000))
  /\ (Date_parse (endAt (duration f)) = None ->
      endAt (duration (fst (onStartChange (Some t) f)))
      = endAt (duration f)).
Proof.
  intros Ht Ht1 Hrt Hrt1. unfold onStartChange. simpl Date_toISOString.
  cbv iota beta. simpl endAt. unfold addHours.
  replace (t + 1 * 3600000) with (t + 3600000) by lia.
  rewrite (TimeClip_in_range _ Ht1). simpl Date_toISOString. cbv iota beta.
  destruct (Date_parse (endAt (duration f))) as [e|] eqn:He; simpl Date_le.
  - destruct (Z.leb_spec e t) as [Hle|Hgt]; simpl.
    + split; [reflexivity|]. split; [assumption|]. split; [|discriminate].
      intros e0 He0. injection He0 as <-. exists (t + 3600000).
      split; [assumption|]. split; [lia|]. split; [lia|reflexivity].
    + split; [reflexivity|]. split; [assumption|]. split; [|discriminate].
      intros e0 He0. injection He0 as <-. exists e.
      split; [assumption|]. split; [lia|]. split; [reflexivity|lia].
  - simpl. split; [reflexivity|]. split; [assumption|].
    split; [discriminate|reflexivity].
Qed.

Lemma setHours_end_of_day (t0 : Z) :
  t0 mod msPerDay = 0 ->
  (0 <= LocalTZA t0 < msPerDay
   /\ 0 <= LocalTZA_local
             ((t0 + LocalTZA t0) / msPerDay * msPerDay + 86399999)
        < msPerDay)
  \/ (- msPerDay <= LocalTZA t0 < 0
      /\ - msPerDay
         <= LocalTZA_local
              ((t0 + LocalTZA t0) / msPerDay * msPerDay + 86399999)
         < 0) ->
  Z.abs t0 + msPerDay <= maxTime ->
  exists u, setHours (Some t0) 23 59 59 999 = Some u
            /\ u / msPerDay = t0 / msPerDay.
Proof.
  intros Hmid Hoff Hrange. unfold setHours.
  replace (23 * 3600000 + 59 * 60000 + 59 * 1000 + 999) with 86399999
    by reflexivity.
  set (off1 := LocalTZA t0) in *.
  set (localEnd := (t0 + off1) / msPerDay * msPerDay + 86399999) in *.
  set (off2 := LocalTZA_local localEnd) in *.
  unfold msPerDay in *.
  assert (Hd : t0 = 86400000 * (t0 / 86400000)).
  { pose proof (Z.div_mod t0 86400000). lia. }
  set (D := t0 / 86400000) in *.
  assert (Hday : (t0 + off1) / 86400000
                 = if 0 <=? off1 then D else D - 1).
  { destruct (Z.leb_spec 0 off1).
    - symmetry. apply Z.div_unique with (r := off1); lia.
    - symmetry. apply Z.div_unique with (r := off1 + 86400000); lia. }
  assert (Hu : (localEnd - off2) / 86400000 = D).
  { subst localEnd. rewrite Hday.
    destruct (Z.leb_spec 0 off1).
    - symmetry. apply Z.div_unique with (r := 86399999 - off2); lia.
    - symmetry. apply Z.div_unique with (r := - 1 - off2); lia. }
  exists (localEnd - off2). split; [|exact Hu].
  apply TimeClip_in_range. unfold maxTime in *.
  assert (86400000 * D <= localEnd - off2 < 86400000 * D + 86400000).
  { pose proof (Z.div_mod (localEnd - off2) 86400000).
    pose proof (Z.mod_pos_bound (localEnd - off2) 86400000). lia. }
  lia.
Qed.

(** X9. When the text of the date input "Fecha Final" is read as midnight
    UTC of a day, and the local zone is on one side of Greenwich (less
    than a day away) both at that instant and at the end of the local day
    it falls on, the value stored is an instant of that same UTC day: the
    input then shows the day of the text that was typed. *)
Theorem until_input_shows_typed_day (text : string) (t0 : Z) :
  Date_parse text = Some t0 ->
  t0 mod msPerDay = 0 ->
  (0 <= LocalTZA t0 < msPerDay
   /\ 0 <= LocalTZA_local
             ((t0 + LocalTZA t0) / msPerDay * msPerDay + 86399999)
        < msPerDay)
  \/ (- msPerDay <= LocalTZA t0 < 0
      /\ - msPerDay
         <= LocalTZA_local
              ((t0 + LocalTZA t0) / msPerDay * msPerDay + 86399999)
         < 0) ->
  Z.abs t0 + msPerDay <= maxTime ->
  untilInputValue (Some (untilOfInput text))
  = Ok (slice_0_10 (isoString t0)).
Proof.
  intros Hparse Hmid Hoff Hrange. unfold untilOfInput. rewrite Hparse.
  destruct (setHours_end_of_day t0 Hmid Hoff Hrange) as [u [-> Hu]].
  unfold untilInputValue. simpl. now rewrite !slice_isoString, Hu.
Qed.

(** X10. When the text of the date input "Fecha Final" is no date, as
    when the input is cleared, the handler stores an invalid date, and the
    expression that computes the text to show for it throws
    [RangeError]. *)
Theorem until_input_throws_on_invalid_text (text : string) :
  Date_parse text = None ->
  untilOfInput text = None
  /\ untilInputValue (Some (untilOfInput text)) = Throw RangeError.
Proof.
  intros Hparse. unfold untilOfInput. rewrite Hparse. split; reflexivity.
Qed.

Lemma Settled_capacityEffect (f : Form) :
  Settled isNEVER f -> capacityEffect f = f.
Proof.
  intros [Hc _]. unfold capacityEffect.
  destruct f as [n d p [lim maxc] du r lo ph]. simpl in *.
  destruct lim; simpl; [reflexivity|].
  unfold with_capacity. simpl. now rewrite Hc.
Qed.

Lemma Settled_frequencyEffect (f : Form) :
  Settled isNEVER f -> frequencyEffect isNEVER f = f.
Proof.
  intros [_ Hr]. unfold frequencyEffect.
  destruct f as [n d p c du [fr ec] lo ph]. simpl in *.
  destruct (isNEVER fr); [|reflexivity].
  unfold with_endCondition, with_recurrence. simpl. now rewrite Hr.
Qed.

Lemma Settled_settle (f : Form) : Settled isNEVER (settle isNEVER f).
Proof.
  unfold settle, frequencyEffect, capacityEffect, Settled.
  destruct f as [n d p [lim maxc] du [fr ec] lo ph]. simpl.
  destruct lim; simpl; destruct (isNEVER fr) eqn:E; simpl;
    rewrite ?E; split; intros; congruence.
Qed.

Lemma step_Settled (f f' : Form) :
  step isNEVER Number_of_string f f' ->
  Settled isNEVER f -> Settled isNEVER f'.
Proof.
  intros Hstep Hf. pose proof Hf as [Hc Hr].
  destruct Hstep; try exact Hf.
  - (* the switch *)
    destruct f as [n d p [lim maxc] du [fr ec] lo ph]. simpl in *.
    destruct checked, lim; simpl; split; simpl; intros; auto; congruence.
  - (* the capacity input *)
    split; simpl; [congruence|assumption].
  - (* the start picker *)
    unfold onStartChange. destruct (Date_toISOString date); [|exact Hf].
    simpl. destruct (Date_le _ date); [|exact Hf].
    destruct (Date_toISOString (addHours date 1)); exact Hf.
  - (* the end picker *)
    unfold onEndChange. destruct (Date_toISOString date); exact Hf.
  - (* the frequency select *)
    unfold onFrequencyChange. split.
    + destruct (isNEVER value); exact Hc.
    + destruct (isNEVER value) eqn:E; simpl; [reflexivity|congruence].
  - (* the end condition select *)
    split; [destruct value; exact Hc|].
    destruct value; simpl; congruence.
  - split; [exact Hc|simpl; congruence].
  - split; [exact Hc|simpl; congruence].
  - now rewrite Settled_capacityEffect.
  - now rewrite Settled_frequencyEffect.
Qed.

(** X11. Whatever the user does after the modal opened, a form without a
    capacity limit holds no maximum capacity and a form whose frequency is
    [NEVER] holds no end condition, so neither is ever submitted; and on
    such a form both effects change nothing. *)
Theorem form_stays_settled (initial f : Form) :
  reachable isNEVER Number_of_string initial f ->
  (isLimited (capacity f) = false -> maxCapacity (capacity f) = None)
  /\ (isNEVER (frequency (recurrence f)) = true ->
      endCondition (recurrence f) = None)
  /\ capacityEffect f = f
  /\ frequencyEffect isNEVER f = f.
Proof.
  intros Hreach.
  assert (H : Settled isNEVER f).
  { induction Hreach as [|f f' _ IH Hstep].
    - apply Settled_settle.
    - now apply (step_Settled f f'). }
  destruct H as [Hc Hr]. split; [exact Hc|]. split; [exact Hr|].
  split; [apply Settled_capacityEffect|apply Settled_frequencyEffect];
    now split.
Qed.

(** X12. The form opens with a start one hour and an end two hours after
    the clock was read, without capacity limit and without recurrence:
    when the second reading of the clock is not before the first, the end
    is strictly after the start, as far as the host reads both back from
    their ISO strings. *)
Theorem default_end_after_start (now1 now2 : Z) :
  Z.abs (now1 + 3600000) <= maxTime ->
  Z.abs (now2 + 7200000) <= maxTime ->
  now1 <= now2 ->
  Date_parse (isoString (now1 + 3600000)) = Some (now1 + 3600000) ->
  Date_parse (isoString (now2 + 7200000)) = Some (now2 + 7200000) ->
  exists f,
    defaultValues NEVER MXN now1 now2 = Ok f
    /\ (exists s e, Date_parse (startAt (duration f)) = Some s
                    /\ Date_parse (endAt (duration f)) = Some e
                    /\ s < e)
    /\ isLimited (capacity f) = false
    /\ maxCapacity (capacity f) = None
    /\ endCondition (recurrence f) = None.
Proof.
  intros H1 H2 Hle Hp1 Hp2. unfold defaultValues, addHours.
  replace (now1 + 1 * 3600000) with (now1 + 3600000) by lia.
  replace (now2 + 2 * 3600000) with (now2 + 7200000) by lia.
  rewrite (TimeClip_in_range _ H1), (TimeClip_in_range _ H2). simpl.
  eexists. split; [reflexivity|]. simpl. repeat split.
  exists (now1 + 3600000), (now2 + 7200000). repeat split; [assumption..|lia].
Qed.

End ModalFacts.

(* ================================================================== *)
(** ** Day keys are in the order of the calendar *)
(* ================================================================== *)

Section DayKeyFacts.
Import DayKeys.

Lemma doy_in_year (doe : Z) :
  0 <= doe <= 146096 -> 0 <= doyOf doe <= 365 /\ 0 <= yoeOf doe <= 399.
Proof. intros H. unfold doyOf, yoeOf. Z.div_mod_to_equations; lia. Qed.

Lemma day_in_month (doy : Z) :
  0 <= doy <= 365 -> 0 <= mpOf doy <= 11 /\ 1 <= dOf doy <= 31.
Proof. intros H. unfold dOf, mpOf. Z.div_mod_to_equations; lia. Qed.

Lemma next_day_of_year (doy : Z) :
  0 <= doy < 365 ->
  mpOf doy < mpOf (doy + 1)
  \/ (mpOf doy = mpOf (doy + 1) /\ dOf doy < dOf (doy + 1)).
Proof. intros H. unfold dOf, mpOf. Z.div_mod_to_equations; lia. Qed.

Lemma next_day_of_era (doe : Z) :
  0 <= doe < 146096 ->
  yoeOf doe < yoeOf (doe + 1)
  \/ (yoeOf doe = yoeOf (doe + 1) /\ doyOf (doe + 1) = doyOf doe + 1).
Proof. intros H. unfold doyOf, yoeOf. Z.div_mod_to_equations; lia. Qed.

(** A day of an era has a month and a day of month in range, a year
    between 0 and 400, 400 only in January and February and 0 only from
    March on. *)
Lemma civilOfDoe_range (doe : Z) :
  0 <= doe <= 146096 ->
  let '(y, m, d) := civilOfDoe doe in
  0 <= y <= 400 /\ 1 <= m <= 12 /\ 1 <= d <= 31
  /\ (y = 400 -> m <= 2) /\ (y = 0 -> 3 <= m).
Proof.
  intros H. unfold civilOfDoe.
  destruct (doy_in_year doe H) as [Hdoy Hyoe].
  destruct (day_in_month _ Hdoy) as [Hmp Hd].
  destruct (Z.ltb_spec (mpOf (doyOf doe)) 10);
    match goal with
    | |- context [?m <=? 2] => destruct (Z.leb_spec m 2)
    end; lia.
Qed.

Lemma civilOfDoe_next (doe : Z) :
  0 <= doe < 146096 -> dateBefore (civilOfDoe doe) (civilOfDoe (doe + 1)).
Proof.
  intros H. unfold civilOfDoe, dateBefore.
  destruct (doy_in_year doe ltac:(lia)) as [Hdoy Hyoe].
  destruct (doy_in_year (doe + 1) ltac:(lia)) as [Hdoy' Hyoe'].
  destruct (day_in_month _ Hdoy) as [Hmp Hd].
  destruct (day_in_month _ Hdoy') as [Hmp' Hd'].
  destruct (next_day_of_era doe H) as [Hy|[Hy Hn]].
  - destruct (Z.ltb_spec (mpOf (doyOf doe)) 10),
             (Z.ltb_spec (mpOf (doyOf (doe + 1))) 10);
      repeat match goal with
             | |- context [?m <=? 2] => destruct (Z.leb_spec m 2)
             end; lia.
  - rewrite Hn in *. rewrite <- Hy.
    destruct (next_day_of_year (doyOf doe) ltac:(lia)) as [Hm|[Hm Hdd]].
    + destruct (Z.ltb_spec (mpOf (doyOf doe)) 10),
               (Z.ltb_spec (mpOf (doyOf doe + 1)) 10);
        repeat match goal with
               | |- context [?m <=? 2] => destruct (Z.leb_spec m 2)
               end; lia.
    + rewrite <- Hm.
      destruct (Z.ltb_spec (mpOf (doyOf doe)) 10);
        repeat match goal with
               | |- context [?m <=? 2] => destruct (Z.leb_spec m 2)
               end; lia.
Qed.

Lemma dateBefore_trans (a b c : Z * Z * Z) :
  dateBefore a b -> dateBefore b c -> dateBefore a c.
Proof.
  destruct a as [[y1 m1] d1], b as [[y2 m2] d2], c as [[y3 m3] d3].
  unfold dateBefore. lia.
Qed.

Lemma civilOfDoe_later (k : nat) : forall doe,
  0 <= doe -> doe + Z.of_nat k + 1 <= 146096 ->
  dateBefore (civilOfDoe doe) (civilOfDoe (doe + Z.of_nat k + 1)).
Proof.
  induction k as [|k IH]; intros doe H0 H1.
  - replace (doe + Z.of_nat 0 + 1) with (doe + 1) by lia.
    apply civilOfDoe_next. lia.
  - apply dateBefore_trans with (b := civilOfDoe (doe + Z.of_nat k + 1)).
    + apply IH; lia.
    + replace (doe + Z.of_nat (S k) + 1)
        with (doe + Z.of_nat k + 1 + 1) by lia.
      apply civilOfDoe_next. lia.
Qed.

Lemma civilFromDays_era (z : Z) :
  civilFromDays z
  = let '(y, m, d) := civilOfDoe ((z + 719468) mod 146097) in
    (y + 400 * ((z + 719468) / 146097), m, d).
Proof.
  unfold civilFromDays, civilOfDoe, dOf, mpOf, doyOf, yoeOf. cbv zeta.
  match goal with
  | |- context [?m <=? 2] => destruct (Z.leb_spec m 2)
  end; f_equal; f_equal; lia.
Qed.

(** A later day has a later date. *)
Lemma civilFromDays_increases (z1 z2 : Z) :
  z1 < z2 -> dateBefore (civilFromDays z1) (civilFromDays z2).
Proof.
  intros Hlt. rewrite !civilFromDays_era.
  set (a1 := z1 + 719468). set (a2 := z2 + 719468).
  assert (Ha : a1 < a2) by (subst a1 a2; lia).
  pose proof (Z.mod_pos_bound a1 146097 ltac:(lia)) as Hr1.
  pose proof (Z.mod_pos_bound a2 146097 ltac:(lia)) as Hr2.
  pose proof (Z.div_mod a1 146097 ltac:(lia)) as He1.
  pose proof (Z.div_mod a2 146097 ltac:(lia)) as He2.
  pose proof (civilOfDoe_range (a1 mod 146097) ltac:(lia)) as Hw1.
  pose proof (civilOfDoe_range (a2 mod 146097) ltac:(lia)) as Hw2.
  destruct (Z.eq_dec (a1 / 146097) (a2 / 146097)) as [Heq|Hne].
  - assert (Hd : a1 mod 146097 < a2 mod 146097) by lia.
    pose proof (civilOfDoe_later
                  (Z.to_nat (a2 mod 146097 - a1 mod 146097 - 1))
                  (a1 mod 146097) ltac:(lia) ltac:(lia)) as Hb.
    replace (a1 mod 146097
             + Z.of_nat (Z.to_nat (a2 mod 146097 - a1 mod 146097 - 1)) + 1)
      with (a2 mod 146097) in Hb by lia.
    rewrite Heq.
    destruct (civilOfDoe (a1 mod 146097)) as [[y1 m1] d1],
             (civilOfDoe (a2 mod 146097)) as [[y2 m2] d2].
    unfold dateBefore in *. lia.
  - assert (Hera : a1 / 146097 < a2 / 146097).
    { assert (a1 / 146097 <= a2 / 146097)
        by (apply Z.div_le_mono; lia).
      lia. }
    destruct (civilOfDoe (a1 mod 146097)) as [[y1 m1] d1],
             (civilOfDoe (a2 mod 146097)) as [[y2 m2] d2].
    unfold dateBefore. lia.
Qed.

(** The days from 0001-01-01 to 9999-12-31 have a year of four digits at
    most, a month and a day of month. *)
Lemma civilFromDays_four_digits (z : Z) :
  firstDay <= z <= lastDay ->
  let '(y, m, d) := civilFromDays z in
  1 <= y <= 9999 /\ 1 <= m <= 12 /\ 1 <= d <= 31.
Proof.
  intros [Hlo Hhi].
  assert (Hm : let '(y, m, d) := civilFromDays z in
               1 <= m <= 12 /\ 1 <= d <= 31).
  { rewrite civilFromDays_era.
    pose proof (Z.mod_pos_bound (z + 719468) 146097 ltac:(lia)) as Hr.
    pose proof (civilOfDoe_range ((z + 719468) mod 146097) ltac:(lia)) as Hw.
    destruct (civilOfDoe ((z + 719468) mod 146097)) as [[y m] d]. lia. }
  assert (Hfirst : civilFromDays firstDay = (1, 1, 1)) by reflexivity.
  assert (Hlast : civilFromDays lastDay = (9999, 12, 31)) by reflexivity.
  assert (Hy1 : let '(y, _, _) := civilFromDays z in 1 <= y).
  { destruct (Z.eq_dec z firstDay) as [->|Hne]; [rewrite Hfirst; lia|].
    pose proof (civilFromDays_increases firstDay z ltac:(lia)) as Hb.
    rewrite Hfirst in Hb. destruct (civilFromDays z) as [[y m] d].
    unfold dateBefore in Hb. lia. }
  assert (Hy2 : let '(y, _, _) := civilFromDays z in y <= 9999).
  { destruct (Z.eq_dec z lastDay) as [->|Hne]; [rewrite Hlast; lia|].
    pose proof (civilFromDays_increases z lastDay ltac:(lia)) as Hb.
    rewrite Hlast in Hb. destruct (civilFromDays z) as [[y m] d].
    unfold dateBefore in Hb. lia. }
  destruct (civilFromDays z) as [[y m] d]. lia.
Qed.

(** Strings of one length in front decide the comparison unless they are
    equal. *)
Lemma compare_append (a1 a2 x1 x2 : string) :
  String.length a1 = String.length a2 ->
  String.compare (a1 ++ x1) (a2 ++ x2)
  = match String.compare a1 a2 with
    | Eq => String.compare x1 x2
    | c => c
    end.
Proof.
  revert a2. induction a1 as [|c1 a1 IH]; intros [|c2 a2] Hlen;
    try discriminate; simpl; [reflexivity|].
  destruct (Ascii.compare c1 c2); [|reflexivity|reflexivity].
  apply IH. now injection Hlen.
Qed.

Lemma compare_same (a : string) : String.compare a a = Eq.
Proof. now apply String_as_OT.cmp_eq. Qed.

Lemma compare_cons (c : ascii) (x y : string) :
  String.compare (String c x) (String c y) = String.compare x y.
Proof.
  change (String c x) with (String.append (String c EmptyString) x).
  change (String c y) with (String.append (String c EmptyString) y).
  rewrite compare_append by reflexivity. now rewrite compare_same.
Qed.

Lemma lexBefore_trans (a b c : string) :
  lexBefore a b -> lexBefore b c -> lexBefore a c.
Proof.
  unfold lexBefore. intros H1 H2.
  apply String_as_OT.cmp_lt. apply String_as_OT.cmp_lt in H1, H2.
  now apply String_as_OT.lt_trans with (y := b).
Qed.

Lemma lexBefore_differ (a b : string) : lexBefore a b -> a <> b.
Proof.
  unfold lexBefore. intros H ->. rewrite compare_same in H. discriminate.
Qed.

Lemma allFrom_spec (f : Z -> bool) (n : nat) : forall z i,
  allFrom f n z = true -> z <= i < z + Z.of_nat n -> f i = true.
Proof.
  induction n as [|n IH]; intros z i H Hi; [lia|].
  simpl in H. apply andb_true_iff in H as [Hz Hrest].
  destruct (Z.eq_dec i z) as [->|Hne]; [assumption|].
  apply (IH (z + 1)); [assumption|lia].
Qed.

Lemma years_checked : allFrom (nextPaddedLater 4) (Z.to_nat 9999) 0 = true.
Proof. vm_compute. reflexivity. Qed.

Lemma months_and_days_checked : allFrom (nextPaddedLater 2) (Z.to_nat 99) 0 = true.
Proof. vm_compute. reflexivity. Qed.

(** Numbers padded to [width] digits are of that width and in
    lexicographic order, as far as consecutive ones are. *)
Lemma padded_in_order (width n : nat) :
  allFrom (nextPaddedLater width) n 0 = true ->
  forall (k : nat) a,
    0 <= a -> a + Z.of_nat k + 1 <= Z.of_nat n ->
    String.length (addLeadingZeros a width) = width
    /\ String.length (addLeadingZeros (a + Z.of_nat k + 1) width) = width
    /\ lexBefore (addLeadingZeros a width)
                 (addLeadingZeros (a + Z.of_nat k + 1) width).
Proof.
  intros Hall.
  assert (Hnext : forall i, 0 <= i -> i + 1 <= Z.of_nat n ->
            String.length (addLeadingZeros i width) = width
            /\ String.length (addLeadingZeros (i + 1) width) = width
            /\ lexBefore (addLeadingZeros i width)
                         (addLeadingZeros (i + 1) width)).
  { intros i H0 H1.
    pose proof (allFrom_spec _ _ 0 i Hall ltac:(lia)) as Hi.
    unfold nextPaddedLater in Hi.
    apply andb_true_iff in Hi as [Hi Hc].
    apply andb_true_iff in Hi as [Hl1 Hl2].
    apply Nat.eqb_eq in Hl1, Hl2. unfold lexBefore.
    destruct (String.compare (addLeadingZeros i width)
                             (addLeadingZeros (i + 1) width));
      try discriminate.
    now repeat split. }
  induction k as [|k IH]; intros a H0 H1.
  - replace (a + Z.of_nat 0 + 1) with (a + 1) by lia. apply Hnext; lia.
  - destruct (IH a H0 ltac:(lia)) as (Hl1 & _ & Hlt).
    destruct (Hnext (a + Z.of_nat k + 1) ltac:(lia) ltac:(lia))
      as (_ & Hl2 & Hlt').
    replace (a + Z.of_nat (S k) + 1)
      with (a + Z.of_nat k + 1 + 1) by lia.
    split; [assumption|]. split; [assumption|].
    now apply lexBefore_trans with (b := addLeadingZeros (a + Z.of_nat k + 1) width).
Qed.

Lemma padded_width (width n : nat) (a : Z) :
  allFrom (nextPaddedLater width) n 0 = true ->
  0 <= a <= Z.of_nat n -> (0 < n)%nat ->
  String.length (addLeadingZeros a width) = width.
Proof.
  intros Hall Ha Hn.
  destruct (Z.eq_dec a (Z.of_nat n)) as [Heq|Hne].
  - destruct (padded_in_order width n Hall 0 (a - 1) ltac:(lia) ltac:(lia))
      as (_ & Hl & _).
    now replace (a - 1 + Z.of_nat 0 + 1) with a in Hl by lia.
  - now destruct (padded_in_order width n Hall 0 a ltac:(lia) ltac:(lia))
      as (Hl & _ & _).
Qed.

Lemma padded_lt (width n : nat) (a b : Z) :
  allFrom (nextPaddedLater width) n 0 = true ->
  0 <= a -> a < b -> b <= Z.of_nat n ->
  lexBefore (addLeadingZeros a width) (addLeadingZeros b width).
Proof.
  intros Hall H0 Hlt Hb.
  destruct (padded_in_order width n Hall (Z.to_nat (b - a - 1)) a
              ltac:(lia) ltac:(lia)) as (_ & _ & H).
  now replace (a + Z.of_nat (Z.to_nat (b - a - 1)) + 1) with b in H by lia.
Qed.

(** The keys of two days of the years 1 to 9999 are in the order of the
    days. *)
Lemma keyOfDay_increases (z1 z2 : Z) :
  firstDay <= z1 -> z1 < z2 -> z2 <= lastDay ->
  lexBefore (keyOfDay z1) (keyOfDay z2).
Proof.
  intros Hlo Hlt Hhi.
  pose proof (civilFromDays_increases z1 z2 Hlt) as Hb.
  pose proof (civilFromDays_four_digits z1 ltac:(lia)) as Hr1.
  pose proof (civilFromDays_four_digits z2 ltac:(lia)) as Hr2.
  unfold keyOfDay.
  destruct (civilFromDays z1) as [[y1 m1] d1],
           (civilFromDays z2) as [[y2 m2] d2].
  unfold dateBefore in Hb.
  destruct Hr1 as (Hy1 & Hm1 & Hd1), Hr2 as (Hy2 & Hm2 & Hd2).
  destruct (Z.ltb_spec 0 y1); [|lia]. destruct (Z.ltb_spec 0 y2); [|lia].
  unfold lexBefore.
  rewrite compare_append
    by (rewrite !(padded_width 4 (Z.to_nat 9999)) by (try apply years_checked; lia);
        reflexivity).
  destruct (Z.eq_dec y1 y2) as [<-|Hy].
  2:{ now rewrite (padded_lt 4 (Z.to_nat 9999) y1 y2 years_checked) by lia. }
  rewrite compare_same. cbn [String.append]. rewrite compare_cons.
  rewrite compare_append
    by (rewrite !(padded_width 2 (Z.to_nat 99))
          by (try apply months_and_days_checked; lia);
        reflexivity).
  destruct (Z.eq_dec m1 m2) as [<-|Hm].
  2:{ now rewrite (padded_lt 2 (Z.to_nat 99) m1 m2 months_and_days_checked) by lia. }
  rewrite compare_same. cbn [String.append]. rewrite compare_cons.
  apply (padded_lt 2 (Z.to_nat 99) d1 d2 months_and_days_checked); lia.
Qed.

Section WithRuntime.
Context {rt : Runtime}.

Lemma formatLocalDate_keyOfDay (t : Z) :
  formatLocalDate t = keyOfDay (localDay t).
Proof. reflexivity. Qed.

Lemma key_order (t u : Z) :
  inFourDigitYears t -> inFourDigitYears u ->
  (localDay t < localDay u
   <-> lexBefore (formatLocalDate t) (formatLocalDate u)).
Proof.
  unfold inFourDigitYears. intros Ht Hu. rewrite !formatLocalDate_keyOfDay.
  split.
  - intros Hlt. apply keyOfDay_increases; lia.
  - intros Hk.
    destruct (Z.lt_trichotomy (localDay t) (localDay u)) as [H|[H|H]];
      [assumption| |].
    + rewrite H in Hk. apply lexBefore_differ in Hk. now elim Hk.
    + assert (Hk' : lexBefore (keyOfDay (localDay u)) (keyOfDay (localDay t)))
        by (apply keyOfDay_increases; lia).
      pose proof (lexBefore_trans _ _ _ Hk Hk') as Hc.
      apply lexBefore_differ in Hc. now elim Hc.
Qed.

Lemma key_same_day (t u : Z) :
  inFourDigitYears t -> inFourDigitYears u ->
  (localDay t = localDay u <-> formatLocalDate t = formatLocalDate u).
Proof.
  unfold inFourDigitYears. intros Ht Hu. rewrite !formatLocalDate_keyOfDay.
  split; [now intros ->|].
  intros Hk.
  destruct (Z.lt_trichotomy (localDay t) (localDay u)) as [H|[H|H]];
    [|assumption|].
  - assert (Hl : lexBefore (keyOfDay (localDay t)) (keyOfDay (localDay u)))
      by (apply keyOfDay_increases; lia).
    apply lexBefore_differ in Hl. contradiction.
  - assert (Hl : lexBefore (keyOfDay (localDay u)) (keyOfDay (localDay t)))
      by (apply keyOfDay_increases; lia).
    apply lexBefore_differ in Hl. now elim Hl.
Qed.

Lemma lexBefore_earlierDay (k1 k2 : string) :
  lexBefore k1 k2 -> earlierDay k1 k2.
Proof.
  intros Hk t1 t2 H1 H2 <- <-. now apply key_order.
Qed.

Lemma dayKey_of_start (e : EventPrimitives) (t : Z) :
  startTime e = Some t -> dayKey e = Ok (formatLocalDate t).
Proof.
  intros H. unfold dayKey, new_Date. unfold startTime in H. now rewrite H.
Qed.

Lemma hasKey_of_start (k : string) (e : EventPrimitives) (t : Z) :
  startTime e = Some t -> (hasKey k e = true <-> formatLocalDate t = k).
Proof.
  intros H. unfold hasKey. rewrite (dayKey_of_start e t H).
  apply String.eqb_eq.
Qed.

(** X13. The day keys of two start instants whose local days are in the
    years 1 to 9999 compare as strings the way the local days do: the
    earlier day has the key that sorts first, and the keys are equal on
    one local day only.  So sorting the keys with the default [sort ()]
    is sorting the days. *)
Theorem day_keys_follow_the_calendar (t u : Z) :
  inFourDigitYears t -> inFourDigitYears u ->
  (localDay t < localDay u
   <-> lexBefore (formatLocalDate t) (formatLocalDate u))
  /\ (localDay t = localDay u <-> formatLocalDate t = formatLocalDate u).
Proof.
  intros Ht Hu. split.
  - now apply key_order.
  - now apply key_same_day.
Qed.

(** X14. Read page after page, from the first page to the last, the day
    keys of a grouping are in the order of the calendar: the events under
    a key that comes first start on an earlier local day than the events
    under a key that comes later (start instants in the years 1 to
    9999). *)
Theorem pages_list_days_in_order
    (l : list EventPrimitives) (g : Object (list EventPrimitives)) :
  groupedEvents l = Ok g ->
  StronglySorted earlierDay
    (List.concat (map (fun p => Object_keys (paginatedGroupedEvents g p))
                      (pageNumbers (totalPages g)))).
Proof.
  intros Hrun. apply groupedEvents_Ok in Hrun. destruct Hrun as (Hnd & _).
  rewrite (all_page_keys g Hnd).
  apply StronglySorted_weaken with (P := fun _ => True) (R := lexBefore).
  - apply Forall_forall. intros; exact I.
  - intros a b _ _. apply lexBefore_earlierDay.
  - now apply sorted_keys.
Qed.

(** X15. Two events of the list given to the grouping are in one bucket
    exactly when [isSameDay] holds of their start dates (start instants in
    the years 1 to 9999): the key [yyyy-MM-dd] loses nothing of the local
    day. *)
Theorem same_bucket_iff_same_day
    (l : list EventPrimitives) (g : Object (list EventPrimitives))
    (e1 e2 : EventPrimitives) (t1 t2 : Z) :
  groupedEvents l = Ok g ->
  In e1 l -> In e2 l ->
  startTime e1 = Some t1 -> startTime e2 = Some t2 ->
  inFourDigitYears t1 -> inFourDigitYears t2 ->
  ((exists k bucket,
      Object_get g k = Some bucket /\ In e1 bucket /\ In e2 bucket)
   <-> isSameDay (startTime e1) (startTime e2) = true).
Proof.
  intros Hrun Hin1 Hin2 Hs1 Hs2 Hr1 Hr2.
  apply groupedEvents_Ok in Hrun. destruct Hrun as (_ & Hget & _).
  rewrite Hs1, Hs2. unfold isSameDay. rewrite Z.eqb_eq. split.
  - intros (k & bucket & Hk & Hb1 & Hb2).
    rewrite Hget in Hk.
    assert (Hb : bucket = filter (hasKey k) l)
      by (destruct (filter (hasKey k) l); [discriminate|now injection Hk]).
    subst bucket.
    apply filter_In in Hb1 as [_ Hk1]. apply filter_In in Hb2 as [_ Hk2].
    apply (hasKey_of_start k e1 t1 Hs1) in Hk1.
    apply (hasKey_of_start k e2 t2 Hs2) in Hk2.
    apply key_same_day; [assumption|assumption|congruence].
  - intros Hday.
    exists (formatLocalDate t1), (filter (hasKey (formatLocalDate t1)) l).
    assert (H1 : In e1 (filter (hasKey (formatLocalDate t1)) l)).
    { apply filter_In. split; [assumption|].
      now apply (hasKey_of_start _ e1 t1 Hs1). }
    assert (H2 : In e2 (filter (hasKey (formatLocalDate t1)) l)).
    { apply filter_In. split; [assumption|].
      apply (hasKey_of_start _ e2 t2 Hs2).
      symmetry. now apply formatLocalDate_same_day. }
    split; [|split; assumption].
    rewrite Hget.
    destruct (filter (hasKey (formatLocalDate t1)) l); [elim H1|reflexivity].
Qed.

End WithRuntime.

End DayKeyFacts.

(* ================================================================== *)
(** ** The rest of the code on the example host *)
(* ================================================================== *)

Section OnTheSamples.

Local Open Scope string_scope.

Example cleared_filters_hide_the_list :
  View.showsEmptyCard [Host.yogaClass] = false
  /\ View.showsGroups
       (paginatedGroupedEvents [("2024-03-07", [Host.yogaClass])] 2) = false
  /\ View.showsPager (totalPages [("2024-03-07", [Host.yogaClass])]) = false.
Proof. repeat split; vm_compute; reflexivity. Qed.

Example iso_round_trip :
  Host.parseISO (ISO.isoString 1709805600123) = Some 1709805600123.
Proof. vm_compute. reflexivity. Qed.

(** The pager on the second of the two pages of twelve days. *)
Lemma pager_stays_in_range_witness :
  1 <= 2 <= totalPages Host.twelveDays
  /\ View.previousPage 2 = 1
  /\ View.showsGroups
       (paginatedGroupedEvents Host.twelveDays (View.previousPage 2)) = true
  /\ View.nextPage (totalPages Host.twelveDays) (View.previousPage 2) = 2.
Proof.
  assert (Hp : 1 <= 2 <= totalPages Host.twelveDays)
    by (vm_compute; split; discriminate).
  destruct (pager_stays_in_range Host.twelveDays 2 Hp)
    as (_ & _ & Hshow & _ & Hback & _).
  split; [exact Hp|]. split; [reflexivity|]. split; [exact Hshow|].
  apply Hback. reflexivity.
Defined.

(** Pages and events of the grouping of three events. *)
Lemma pages_and_events_witness :
  groupedEvents (rt := Host.runtime)
    [Host.yogaClass; Host.newYear; Host.pilates]
  = Ok [("2024-03-07", [Host.yogaClass; Host.pilates]);
        ("2024-01-01", [Host.newYear])]
  /\ totalPages [("2024-03-07", [Host.yogaClass; Host.pilates]);
                 ("2024-01-01", [Host.newYear])] <= 3.
Proof.
  assert (Hrun : groupedEvents (rt := Host.runtime)
                   [Host.yogaClass; Host.newYear; Host.pilates]
                 = Ok [("2024-03-07", [Host.yogaClass; Host.pilates]);
                       ("2024-01-01", [Host.newYear])])
    by (vm_compute; reflexivity).
  split; [exact Hrun|].
  exact (proj1 (proj2 (proj2
           (pages_and_events (rt := Host.runtime) _ _ Hrun)))).
Defined.

(** Three bookings, one of them of an event that is not listed. *)
Lemma bookings_are_split_among_events_witness :
  NoDup (map id [Host.yogaClass; Host.pilates])
  /\ Permutation
       (List.concat
          (map (View.bookingsOf
                  (Some [{| View.bookingId := "b1"; View.eventId := "e2" |};
                         {| View.bookingId := "b2"; View.eventId := "e1" |};
                         {| View.bookingId := "b3"; View.eventId := "e9" |}]))
               [Host.yogaClass; Host.pilates]))
       [{| View.bookingId := "b1"; View.eventId := "e2" |};
        {| View.bookingId := "b2"; View.eventId := "e1" |}].
Proof.
  assert (Hnd : NoDup (map id [Host.yogaClass; Host.pilates])).
  { simpl. constructor; [simpl; intros [H|[]]; discriminate H|].
    constructor; [simpl; tauto|constructor]. }
  split; [exact Hnd|].
  exact (proj1 (bookings_are_split_among_events
                  [{| View.bookingId := "b1"; View.eventId := "e2" |};
                   {| View.bookingId := "b2"; View.eventId := "e1" |};
                   {| View.bookingId := "b3"; View.eventId := "e9" |}]
                  [Host.yogaClass; Host.pilates] Hnd)).
Defined.

(** The start is moved to 13:00 of a form that ends at 12:00. *)
Lemma start_change_keeps_end_after_start_witness :
  Date_parse (Runtime := Host.runtime) (ISO.isoString 1709816400000)
  = Some 1709816400000
  /\ Date_parse (Runtime := Host.runtime)
       (ISO.isoString (1709816400000 + 3600000))
     = Some (1709816400000 + 3600000)
  /\ Modal.duration
       (fst (Modal.onStartChange (rt := Host.runtime)
               (Some 1709816400000) Samples.openedForm))
     = {| startAt := "2024-03-07T13:00:00.000Z";
          endAt := "2024-03-07T14:00:00.000Z" |}
  /\ snd (Modal.onStartChange (rt := Host.runtime)
            (Some 1709816400000) Samples.openedForm) = None.
Proof.
  assert (H1 : Date_parse (Runtime := Host.runtime)
                 (ISO.isoString 1709816400000) = Some 1709816400000)
    by (vm_compute; reflexivity).
  assert (H2 : Date_parse (Runtime := Host.runtime)
                 (ISO.isoString (1709816400000 + 3600000))
               = Some (1709816400000 + 3600000))
    by (vm_compute; reflexivity).
  assert (Hr1 : Z.abs 1709816400000 <= ISO.maxTime)
    by (vm_compute; discriminate).
  assert (Hr2 : Z.abs (1709816400000 + 3600000) <= ISO.maxTime)
    by (vm_compute; discriminate).
  split; [exact H1|]. split; [exact H2|].
  split; [vm_compute; reflexivity|].
  exact (proj1 (start_change_keeps_end_after_start (rt := Host.runtime)
                  Samples.Frequency Samples.openedForm 1709816400000
                  Hr1 Hr2 H1 H2)).
Defined.

(** March 7 typed six hours west of Greenwich. *)
Lemma until_input_shows_typed_day_witness :
  Date_parse (Runtime := Samples.runtimeWest) "2024-03-07"
  = Some 1709769600000
  /\ Modal.untilOfInput (rt := Samples.runtimeWest) (zone := Samples.zoneWest)
       "2024-03-07"
     = Some 1709791199999
  /\ Modal.untilInputValue
       (Some (Modal.untilOfInput (rt := Samples.runtimeWest)
                (zone := Samples.zoneWest) "2024-03-07"))
     = Ok "2024-03-07".
Proof.
  assert (Hp : Date_parse (Runtime := Samples.runtimeWest) "2024-03-07"
               = Some 1709769600000) by (vm_compute; reflexivity).
  split; [exact Hp|]. split; [vm_compute; reflexivity|].
  rewrite (until_input_shows_typed_day (rt := Samples.runtimeWest)
             (zone := Samples.zoneWest) "2024-03-07" 1709769600000 Hp).
  - vm_compute. reflexivity.
  - vm_compute. reflexivity.
  - right. vm_compute. repeat split; discriminate.
  - vm_compute. discriminate.
Defined.

(** The date input once cleared. *)
Lemma until_input_throws_on_invalid_text_witness :
  Date_parse (Runtime := Samples.runtimeWest) "" = None
  /\ Modal.untilInputValue
       (Some (Modal.untilOfInput (rt := Samples.runtimeWest)
                (zone := Samples.zoneWest) ""))
     = Throw RangeError.
Proof.
  assert (Hp : Date_parse (Runtime := Samples.runtimeWest) "" = None)
    by (vm_compute; reflexivity).
  split; [exact Hp|].
  exact (proj2 (until_input_throws_on_invalid_text
                  (rt := Samples.runtimeWest) (zone := Samples.zoneWest)
                  "" Hp)).
Defined.

(** The capacity limit switched on, set to 20 and switched off again. *)
Lemma form_stays_settled_witness :
  Modal.reachable (rt := Samples.runtimeWest) (zone := Samples.zoneWest)
    Samples.isNever Samples.numberOf Samples.openedForm
    (Modal.capacityEffect
       (Modal.onIsLimitedChange false
          (Modal.onMaxCapacityChange Samples.numberOf "20"
             (Modal.onIsLimitedChange true
                (Modal.settle Samples.isNever Samples.openedForm)))))
  /\ Modal.maxCapacity
       (Modal.capacity
          (Modal.capacityEffect
             (Modal.onIsLimitedChange false
                (Modal.onMaxCapacityChange Samples.numberOf "20"
                   (Modal.onIsLimitedChange true
                      (Modal.settle Samples.isNever Samples.openedForm))))))
     = None.
Proof.
  assert (Hreach :
    Modal.reachable (rt := Samples.runtimeWest) (zone := Samples.zoneWest)
    Samples.isNever Samples.numberOf Samples.openedForm
      (Modal.capacityEffect
         (Modal.onIsLimitedChange false
            (Modal.onMaxCapacityChange Samples.numberOf "20"
               (Modal.onIsLimitedChange true
                  (Modal.settle Samples.isNever Samples.openedForm)))))).
  { eapply Modal.reachable_step.
    - eapply Modal.reachable_step.
      + eapply Modal.reachable_step.
        * apply Modal.reachable_initial.
        * exact (Modal.step_isLimited (rt := Samples.runtimeWest)
                 (zone := Samples.zoneWest) Samples.isNever Samples.numberOf true
                   (Modal.settle Samples.isNever Samples.openedForm)).
      + apply Modal.step_maxCapacity. reflexivity.
    - exact (Modal.step_isLimited (rt := Samples.runtimeWest)
                 (zone := Samples.zoneWest) Samples.isNever Samples.numberOf false
               (Modal.onMaxCapacityChange Samples.numberOf "20"
                  (Modal.onIsLimitedChange true
                     (Modal.settle Samples.isNever Samples.openedForm)))). }
  split; [exact Hreach|].
  apply (form_stays_settled (rt := Samples.runtimeWest)
           (zone := Samples.zoneWest) Samples.Frequency Samples.isNever
           Samples.numberOf _ _ Hreach).
  reflexivity.
Defined.

(** The form opened at 2024-03-07T10:00:00.000Z. *)
Lemma default_end_after_start_witness :
  1709805600000 <= 1709805600001
  /\ exists f,
       Modal.defaultValues Samples.Never "MXN"
         1709805600000 1709805600001 = Ok f
       /\ Modal.duration f = {| startAt := "2024-03-07T11:00:00.000Z";
                          endAt := "2024-03-07T12:00:00.001Z" |}.
Proof.
  split; [discriminate|].
  destruct (default_end_after_start (rt := Host.runtime)
              Samples.Frequency Samples.Never "MXN"
              1709805600000 1709805600001)
    as [f [Hf _]]; try (vm_compute; first [reflexivity|discriminate]).
  exists f. split; [exact Hf|].
  vm_compute in Hf. injection Hf as <-. reflexivity.
Defined.

(** 2024-03-07T10:00:00.000Z and 2024-03-08T10:00:00.000Z, six hours west
    of Greenwich. *)
Lemma day_keys_follow_the_calendar_witness :
  DayKeys.inFourDigitYears (rt := Samples.runtimeWest) 1709805600000
  /\ DayKeys.inFourDigitYears (rt := Samples.runtimeWest) 1709892000000
  /\ lexBefore (formatLocalDate (rt := Samples.runtimeWest) 1709805600000)
               (formatLocalDate (rt := Samples.runtimeWest) 1709892000000).
Proof.
  assert (H1 : DayKeys.inFourDigitYears (rt := Samples.runtimeWest)
                 1709805600000)
    by (split; vm_compute; discriminate).
  assert (H2 : DayKeys.inFourDigitYears (rt := Samples.runtimeWest)
                 1709892000000)
    by (split; vm_compute; discriminate).
  split; [exact H1|]. split; [exact H2|].
  apply (day_keys_follow_the_calendar (rt := Samples.runtimeWest) _ _ H1 H2).
  reflexivity.
Defined.

(** Three events on two days. *)
Lemma pages_list_days_in_order_witness :
  exists g,
    groupedEvents (rt := Host.runtime)
      [Host.yogaClass; Host.newYear; Host.pilates] = Ok g
    /\ StronglySorted (DayKeys.earlierDay (rt := Host.runtime))
         (List.concat
            (map (fun p => Object_keys (paginatedGroupedEvents g p))
                 (pageNumbers (totalPages g)))).
Proof.
  eexists. split; [vm_compute; reflexivity|].
  apply (pages_list_days_in_order (rt := Host.runtime)
           [Host.yogaClass; Host.newYear; Host.pilates]).
  vm_compute. reflexivity.
Defined.

(** Six hours west of Greenwich the yoga class and the pilates class are
    on one day. *)
Lemma same_bucket_iff_same_day_witness :
  exists g,
    groupedEvents (rt := Samples.runtimeWest)
      [Host.yogaClass; Host.newYear; Host.pilates] = Ok g
    /\ exists k bucket,
         Object_get g k = Some bucket
         /\ In Host.yogaClass bucket /\ In Host.pilates bucket.
Proof.
  eexists. split; [vm_compute; reflexivity|].
  apply (same_bucket_iff_same_day (rt := Samples.runtimeWest)
           [Host.yogaClass; Host.newYear; Host.pilates] _
           Host.yogaClass Host.pilates 1709805600000 1709823600000).
  - vm_compute. reflexivity.
  - now left.
  - right. right. now left.
  - vm_compute. reflexivity.
  - vm_compute. reflexivity.
  - split; vm_compute; discriminate.
  - split; vm_compute; discriminate.
  - vm_compute. reflexivity.
Defined.

End OnTheSamples.
